(** * Hackathon team API: invitations, OTP verification and membership

    A shallow embedding of [utils.py], [schemas.py], the SQLAlchemy models
    and the FastAPI handlers of [main.py].  A handler is a computation in a
    small session monad: it reads and writes the transaction view of the
    database, [commit] is the only step that persists it, and an exception
    ends the request with whatever was committed before it. *)

From Stdlib Require Import ZArith NArith List String Ascii Bool Lia DecimalString.
Import ListNotations.
Open Scope Z_scope.

(** ** Python values *)

(** A Python [str] is a sequence of Unicode code points. *)
Definition char := N.
Definition str := list char.

(** ASCII literals of the source. *)
Definition lit (x : string) : str := map N_of_ascii (list_ascii_of_string x).

Fixpoint str_eqb (a b : str) : bool :=
  match a, b with
  | [], [] => true
  | x :: a', y :: b' => (x =? y)%N && str_eqb a' b'
  | _, _ => false
  end.

(** Truth value of an [Optional[str]]: [None] and the empty string are false. *)
Definition truthy (o : option str) : bool :=
  match o with
  | Some (_ :: _) => true
  | _ => false
  end.

(** Truth value of a row-or-[None]. *)
Definition not_none {A} (o : option A) : bool :=
  match o with
  | Some _ => true
  | None => false
  end.

(** [str(n)] for an integer, used by the f-strings of the error details. *)
Definition str_of_int (n : Z) : string := NilZero.string_of_int (Z.to_int n).

(** A naive UTC [datetime], counted in microseconds. *)
Definition datetime := Z.

Definition timedelta_hours (hours : Z) : Z := hours * 3600 * 1000000.
Definition timedelta_minutes (minutes : Z) : Z := minutes * 60 * 1000000.

(** The phone pattern of the schemas, [^\+?[1-9]\d{1,14}$], on ASCII text. *)
Definition ascii_digit (c : char) : bool := (48 <=? c)%N && (c <=? 57)%N.

Definition phone_pattern (s : str) : bool :=
  let body := match s with 43%N :: r => r | _ => s end in
  match body with
  | c :: r =>
      (49 <=? c)%N && (c <=? 57)%N && forallb ascii_digit r
      && (1 <=? List.length r)%nat && (List.length r <=? 14)%nat
  | [] => false
  end.

(** ** models *)

Module Team.
Record t := mk {
  id : Z;
  name : str;
  leader_name : str;
  leader_email : str;
  description : option str;
  max_members : Z
}.
Definition set_name (v : str) (r : t) : t :=
  mk (id r) v (leader_name r) (leader_email r) (description r) (max_members r).
Definition set_description (v : option str) (r : t) : t :=
  mk (id r) (name r) (leader_name r) (leader_email r) v (max_members r).
Definition set_max_members (v : Z) (r : t) : t :=
  mk (id r) (name r) (leader_name r) (leader_email r) (description r) v.
End Team.

Module Member.
Record t := mk {
  id : Z;
  team_id : Z;
  name : str;
  email : str;
  phone : option str;
  role : option str
}.
End Member.

Module Invitation.
Record t := mk {
  id : Z;
  team_id : Z;
  email : str;
  phone : option str;
  token : str;
  is_used : bool;
  expires_at : datetime
}.
Definition set_is_used (v : bool) (r : t) : t :=
  mk (id r) (team_id r) (email r) (phone r) (token r) v (expires_at r).
End Invitation.

Module OTP.
Record t := mk {
  id : Z;
  phone : str;
  otp_code : str;
  invitation_token : str;
  is_verified : bool;
  expires_at : datetime
}.
Definition set_is_verified (v : bool) (r : t) : t :=
  mk (id r) (phone r) (otp_code r) (invitation_token r) v (expires_at r).
End OTP.

(** ** schemas (request bodies, after validation) *)

Module MemberCreate.
Record t := mk { name : str; email : str; phone : option str; role : option str }.
End MemberCreate.

Module TeamCreate.
Record t := mk {
  name : str;
  leader_name : str;
  leader_email : str;
  description : option str;
  max_members : Z
}.
End TeamCreate.

Module TeamUpdate.
Record t := mk { name : option str; description : option str; max_members : option Z }.
End TeamUpdate.

Module InvitationCreate.
Record t := mk { email : str; phone : option str }.
End InvitationCreate.

Module OTPVerify.
Record t := mk { invitation_token : str; otp_code : str }.
End OTPVerify.

Module JoinTeamRequest.
Record t := mk { name : str; role : option str }.
End JoinTeamRequest.

(** ** The database

    Four tables, rows in insertion order, which is the order a query
    without [ORDER BY] reads them in.  The [created_at] and [updated_at]
    columns are filled by the server and read by no handler; they are left
    out. *)

Record DB := mkDB {
  teams : list Team.t;
  members : list Member.t;
  invitations : list Invitation.t;
  otps : list OTP.t
}.

Definition empty_db : DB := mkDB [] [] [] [].

(** An integer primary key gets the largest key of the table plus one. *)
Definition next_id (ids : list Z) : Z := 1 + fold_right Z.max 0 ids.

Fixpoint distinct (l : list str) : bool :=
  match l with
  | [] => true
  | x :: r => negb (existsb (str_eqb x) r) && distinct r
  end.

(** The [unique=True] columns: [Team.name], [Team.leader_email] and
    [Invitation.token]. *)
Definition constraints_ok (d : DB) : bool :=
  distinct (map Team.name (teams d))
  && distinct (map Team.leader_email (teams d))
  && distinct (map Invitation.token (invitations d)).

(** ** Exceptions and the session monad *)

Inductive Exn :=
| HTTPException (status_code : Z) (detail : string)
| AttributeError      (* an attribute read on [None] *)
| IntegrityError      (* a unique constraint refused at flush *)
| OperationalError    (* the database failed under the session *)
| OverflowError.      (* an integer that SQLite cannot bind *)

Inductive Outcome (A : Type) :=
| Return (a : A)
| Raised (e : Exn).
Arguments Return {A} a.
Arguments Raised {A} e.

(** [stored] is what the database holds, [txn] what the session sees,
    [fault_in] the number of session steps that still succeed before the
    database fails ([None]: it never does), and [left_open] what the
    connection holds once the session is closed: [db.close()] rolls back the
    transaction in progress, so this is [stored] again, unless a COMMIT has
    been refused. *)
Record Session := mkSession {
  stored : DB;
  txn : DB;
  fault_in : option nat;
  left_open : DB
}.

Definition M (A : Type) := Session -> Outcome A * Session.

Definition ret {A} (a : A) : M A := fun s => (Return a, s).

Definition raise {A} (e : Exn) : M A := fun s => (Raised e, s).

Definition bind {A B} (c : M A) (k : A -> M B) : M B :=
  fun s =>
    match c s with
    | (Return a, s') => k a s'
    | (Raised e, s') => (Raised e, s')
    end.

Notation "x <- c ;; k" := (bind c (fun x => k))
  (at level 61, c at next level, right associativity).
Notation "c ;; k" := (bind c (fun _ => k))
  (at level 61, right associativity).

(** Every session step is a point where the database may fail. *)
Definition tick : M unit :=
  fun s =>
    match fault_in s with
    | None => (Return tt, s)
    | Some O => (Raised OperationalError, s)
    | Some (S n) => (Return tt, mkSession (stored s) (txn s) (Some n) (left_open s))
    end.

(** One session step: it may fail, reads what the session sees and may
    change it. *)
Definition access {A} (f : DB -> A * DB) : M A :=
  tick ;;
  fun s =>
    let (a, d) := f (txn s) in
    (Return a, mkSession (stored s) d (fault_in s) (left_open s)).

Definition read {A} (f : DB -> A) : M A := access (fun d => (f d, d)).

Definition write (f : DB -> DB) : M unit := access (fun d => (tt, f d)).

(** [db.query(T).filter(p).first()] *)
Definition query_first {R} (table : DB -> list R) (p : R -> bool) : M (option R) :=
  read (fun d => find p (table d)).

(** [db.query(T).filter(p).count()] *)
Definition query_count {R} (table : DB -> list R) (p : R -> bool) : M nat :=
  read (fun d => List.length (filter p (table d))).

(** [db.add(obj)]: the row joins the transaction with a fresh primary key. *)
Definition add_team (row : Z -> Team.t) : M Team.t :=
  access (fun d =>
    let obj := row (next_id (map Team.id (teams d))) in
    (obj, mkDB (teams d ++ [obj]) (members d) (invitations d) (otps d))).

Definition add_member (row : Z -> Member.t) : M Member.t :=
  access (fun d =>
    let obj := row (next_id (map Member.id (members d))) in
    (obj, mkDB (teams d) (members d ++ [obj]) (invitations d) (otps d))).

Definition add_invitation (row : Z -> Invitation.t) : M Invitation.t :=
  access (fun d =>
    let obj := row (next_id (map Invitation.id (invitations d))) in
    (obj, mkDB (teams d) (members d) (invitations d ++ [obj]) (otps d))).

Definition add_otp (row : Z -> OTP.t) : M OTP.t :=
  access (fun d =>
    let obj := row (next_id (map OTP.id (otps d))) in
    (obj, mkDB (teams d) (members d) (invitations d) (otps d ++ [obj]))).

(** [obj.attr = v] on a loaded row: the row with that primary key changes in
    the transaction, and the handler goes on with the changed object. *)
Definition update_row {R} (key : R -> Z) (obj : R) (f : R -> R) (rows : list R) : list R :=
  map (fun r => if key r =? key obj then f r else r) rows.

Definition setattr_team (obj : Team.t) (f : Team.t -> Team.t) : M Team.t :=
  access (fun d =>
    (f obj, mkDB (update_row Team.id obj f (teams d)) (members d) (invitations d) (otps d))).

Definition setattr_invitation (obj : Invitation.t) (f : Invitation.t -> Invitation.t)
  : M Invitation.t :=
  access (fun d =>
    (f obj, mkDB (teams d) (members d) (update_row Invitation.id obj f (invitations d)) (otps d))).

Definition setattr_otp (obj : OTP.t) (f : OTP.t -> OTP.t) : M OTP.t :=
  access (fun d =>
    (f obj, mkDB (teams d) (members d) (invitations d) (update_row OTP.id obj f (otps d)))).

(** [db.delete(team)]: the relationships cascade ("all, delete-orphan") to
    the team's members and invitations.  OTP rows have no relationship and
    stay. *)
Definition delete_team_row (obj : Team.t) : M unit :=
  write (fun d =>
    mkDB (filter (fun r => negb (Team.id r =? Team.id obj)) (teams d))
         (filter (fun r => negb (Member.team_id r =? Team.id obj)) (members d))
         (filter (fun r => negb (Invitation.team_id r =? Team.id obj)) (invitations d))
         (otps d)).

Definition delete_member_row (obj : Member.t) : M unit :=
  write (fun d =>
    mkDB (teams d)
         (filter (fun r => negb (Member.id r =? Member.id obj)) (members d))
         (invitations d) (otps d)).

(** [db.query(OTP).filter(p).delete()]: a bulk delete, in the transaction. *)
Definition query_delete_otps (p : OTP.t -> bool) : M unit :=
  write (fun d =>
    mkDB (teams d) (members d) (invitations d) (filter (fun r => negb (p r)) (otps d))).

(** [db.commit()]: the flush sends the changes of the session, where a unique
    constraint refuses them and the session rolls back; then COMMIT persists
    the transaction as a whole.  When the database refuses the COMMIT, the
    session gives the transaction up without a rollback: the flushed changes
    stay in it, and it stays open on the connection. *)
Definition commit : M unit :=
  fun s =>
    if constraints_ok (txn s)
    then
      match fault_in s with
      | None => (Return tt, mkSession (txn s) (txn s) None (txn s))
      | Some O => (Raised OperationalError, mkSession (stored s) (txn s) (Some O) (txn s))
      | Some (S n) => (Return tt, mkSession (txn s) (txn s) (Some n) (txn s))
      end
    else (Raised IntegrityError, mkSession (stored s) (txn s) (fault_in s) (stored s)).

(** [db.refresh(obj)]: a round trip that reloads columns the model leaves out. *)
Definition refresh : M unit := tick.

(** One request on a connection with no transaction open: [get_db] opens a
    session, the handler runs, and [db.close()] drops what is not committed.
    The answer comes with what the database stores then; [run_on] tells
    what is left on the connection as well. *)
Definition run_with {A} (fault : option nat) (handler : M A) (d : DB) : Outcome A * DB :=
  let (r, s) := handler (mkSession d d fault d) in (r, stored s).

Definition run {A} (handler : M A) (d : DB) : Outcome A * DB := run_with None handler d.

(** The pooled connection between two requests, served one after the other:
    what the database stores, and what the transaction left open on it holds
    ([database] itself when none is open).  After a refused COMMIT
    [db.close()] gives the connection back to the pool as it is: the session
    of the next request meets the transaction left on it, reads through it,
    and persists it with its own commit or rolls it back when it closes
    without one. *)
Record Connection := mkConnection {
  database : DB;
  open_txn : DB
}.

Definition clean (d : DB) : Connection := mkConnection d d.

Definition run_on {A} (fault : option nat) (handler : M A) (c : Connection)
  : Outcome A * Connection :=
  let (r, s) := handler (mkSession (database c) (open_txn c) fault (database c)) in
  (r, mkConnection (stored s) (left_open s)).

(** An integer that SQLite binds to a statement: beyond 64 bits the driver
    raises [OverflowError] before the statement is run. *)
Definition sqlite_int (n : Z) : bool :=
  (-9223372036854775808 <=? n) && (n <=? 9223372036854775807).

Definition bind_int (n : Z) : M unit :=
  if sqlite_int n then ret tt else raise OverflowError.

(** ** utils *)

(** The digit table of a deployment that only meets ASCII digits, and the
    default of the [BASE_URL] setting. *)
Definition ascii_digits : char -> bool := fun _ => false.
Definition default_base_url : str := lit "http://localhost:3000".

Definition startswith (s pre : str) : bool := str_eqb (firstn (List.length pre) s) pre.

Section Api.

(** [str.isdigit] beyond ASCII is a table of the Unicode database. *)
Variable unicode_isdigit : char -> bool.

(** The configured base URL of invitation links. *)
Variable BASE_URL : str.

Definition isdigit (c : char) : bool :=
  if (c <? 128)%N then (48 <=? c)%N && (c <=? 57)%N else unicode_isdigit c.

Definition get_invitation_expiry (utcnow : datetime) : datetime := utcnow + timedelta_hours 48.

Definition get_otp_expiry (utcnow : datetime) : datetime := utcnow + timedelta_minutes 10.

Definition is_expired (utcnow expiry_time : datetime) : bool := utcnow >? expiry_time.

Definition format_phone_number (phone : str) : str :=
  let digits := filter isdigit phone in
  if negb (startswith phone (lit "+"))
  then lit "+" ++ digits
  else lit "+" ++ digits.

(** ** main: the handlers

    [utcnow] arguments are the readings of the clock, [token] and
    [otp_code] the values drawn by [generate_invite_token] and
    [generate_otp].  [send_otp_sms] touches no table and its result is
    dropped; it is left out. *)

Definition HTTP_400_BAD_REQUEST : Z := 400.
Definition HTTP_404_NOT_FOUND : Z := 404.

Definition team_is_full (max_members : Z) : Exn :=
  HTTPException HTTP_400_BAD_REQUEST
    ("Team is full (max " ++ str_of_int max_members ++ " members)").

Definition create_team (team : TeamCreate.t) : M Team.t :=
  existing_team <- query_first teams
    (fun r => str_eqb (Team.name r) (TeamCreate.name team)) ;;
  if not_none existing_team
  then raise (HTTPException HTTP_400_BAD_REQUEST "Team name already exists")
  else
    existing_leader <- query_first teams
      (fun r => str_eqb (Team.leader_email r) (TeamCreate.leader_email team)) ;;
    if not_none existing_leader
    then raise (HTTPException HTTP_400_BAD_REQUEST
                  "This email is already registered as a team leader")
    else
      db_team <- add_team (fun id =>
        Team.mk id (TeamCreate.name team) (TeamCreate.leader_name team)
          (TeamCreate.leader_email team) (TeamCreate.description team)
          (TeamCreate.max_members team)) ;;
      commit ;;
      refresh ;;
      ret db_team.

Definition update_team (team_id : Z) (team_update : TeamUpdate.t) : M Team.t :=
  db_team <- query_first teams (fun r => Team.id r =? team_id) ;;
  match db_team with
  | None => raise (HTTPException HTTP_404_NOT_FOUND "Team not found")
  | Some db_team =>
    db_team <-
      match TeamUpdate.name team_update with
      | Some name =>
        existing_team <- query_first teams
          (fun r => str_eqb (Team.name r) name && negb (Team.id r =? team_id)) ;;
        if not_none existing_team
        then raise (HTTPException HTTP_400_BAD_REQUEST "Team name already exists")
        else setattr_team db_team (Team.set_name name)
      | None => ret db_team
      end ;;
    db_team <-
      match TeamUpdate.description team_update with
      | Some description => setattr_team db_team (Team.set_description (Some description))
      | None => ret db_team
      end ;;
    db_team <-
      match TeamUpdate.max_members team_update with
      | Some max_members => setattr_team db_team (Team.set_max_members max_members)
      | None => ret db_team
      end ;;
    commit ;;
    refresh ;;
    ret db_team
  end.

Definition delete_team (team_id : Z) : M unit :=
  bind_int team_id ;;
  db_team <- query_first teams (fun r => Team.id r =? team_id) ;;
  match db_team with
  | None => raise (HTTPException HTTP_404_NOT_FOUND "Team not found")
  | Some db_team =>
    delete_team_row db_team ;;
    commit ;;
    ret tt
  end.

Definition add_team_member (team_id : Z) (member : MemberCreate.t) : M Member.t :=
  db_team <- query_first teams (fun r => Team.id r =? team_id) ;;
  match db_team with
  | None => raise (HTTPException HTTP_404_NOT_FOUND "Team not found")
  | Some db_team =>
    current_members <- query_count members (fun r => Member.team_id r =? team_id) ;;
    if Z.of_nat current_members >=? Team.max_members db_team
    then raise (team_is_full (Team.max_members db_team))
    else
      existing_member <- query_first members
        (fun r => (Member.team_id r =? team_id)
                  && str_eqb (Member.email r) (MemberCreate.email member)) ;;
      if not_none existing_member
      then raise (HTTPException HTTP_400_BAD_REQUEST
                    "Member with this email already exists in the team")
      else
        db_member <- add_member (fun id =>
          Member.mk id team_id (MemberCreate.name member) (MemberCreate.email member)
            None (MemberCreate.role member)) ;;
        commit ;;
        refresh ;;
        ret db_member
  end.

Definition remove_team_member (team_id member_id : Z) : M unit :=
  bind_int member_id ;;
  bind_int team_id ;;
  db_member <- query_first members
    (fun r => (Member.id r =? member_id) && (Member.team_id r =? team_id)) ;;
  match db_member with
  | None => raise (HTTPException HTTP_404_NOT_FOUND "Member not found in this team")
  | Some db_member =>
    delete_member_row db_member ;;
    commit ;;
    ret tt
  end.

Definition invite_link (token : str) : str := BASE_URL ++ lit "/join/" ++ token.

Definition create_invitation (team_id : Z) (invitation : InvitationCreate.t)
    (utcnow utcnow_inv utcnow_otp : datetime) (token otp_code : str)
  : M (Invitation.t * str) :=
  db_team <- query_first teams (fun r => Team.id r =? team_id) ;;
  match db_team with
  | None => raise (HTTPException HTTP_404_NOT_FOUND "Team not found")
  | Some db_team =>
    current_members <- query_count members (fun r => Member.team_id r =? team_id) ;;
    if Z.of_nat current_members >=? Team.max_members db_team
    then raise (team_is_full (Team.max_members db_team))
    else
      existing_invitation <- query_first invitations
        (fun r => (Invitation.team_id r =? team_id)
                  && str_eqb (Invitation.email r) (InvitationCreate.email invitation)
                  && negb (Invitation.is_used r)
                  && (Invitation.expires_at r >? utcnow)) ;;
      if not_none existing_invitation
      then raise (HTTPException HTTP_400_BAD_REQUEST
                    "An active invitation already exists for this email")
      else
        existing_member <- query_first members
          (fun r => (Member.team_id r =? team_id)
                    && str_eqb (Member.email r) (InvitationCreate.email invitation)) ;;
        if not_none existing_member
        then raise (HTTPException HTTP_400_BAD_REQUEST
                      "This email is already a member of the team")
        else
          let formatted_phone :=
            match InvitationCreate.phone invitation with
            | Some ((_ :: _) as phone) => Some (format_phone_number phone)
            | _ => None
            end in
          let expires_at := get_invitation_expiry utcnow_inv in
          db_invitation <- add_invitation (fun id =>
            Invitation.mk id team_id (InvitationCreate.email invitation)
              formatted_phone token false expires_at) ;;
          commit ;;
          refresh ;;
          match formatted_phone with
          | Some ((_ :: _) as formatted_phone) =>
            let otp_expires_at := get_otp_expiry utcnow_otp in
            add_otp (fun id =>
              OTP.mk id formatted_phone otp_code token false otp_expires_at) ;;
            commit
          | _ => ret tt
          end ;;
          ret (db_invitation, invite_link token)
  end.

Definition resend_otp (token : str) (utcnow utcnow_otp : datetime) (otp_code : str)
  : M (string * str * datetime) :=
  invitation <- query_first invitations (fun r => str_eqb (Invitation.token r) token) ;;
  match invitation with
  | None => raise (HTTPException HTTP_404_NOT_FOUND "Invitation not found")
  | Some invitation =>
    match Invitation.phone invitation with
    | Some ((_ :: _) as phone) =>
      if Invitation.is_used invitation
      then raise (HTTPException HTTP_400_BAD_REQUEST "This invitation has already been used")
      else if is_expired utcnow (Invitation.expires_at invitation)
      then raise (HTTPException HTTP_400_BAD_REQUEST "This invitation has expired")
      else
        query_delete_otps
          (fun r => str_eqb (OTP.invitation_token r) token && negb (OTP.is_verified r)) ;;
        let otp_expires_at := get_otp_expiry utcnow_otp in
        add_otp (fun id => OTP.mk id phone otp_code token false otp_expires_at) ;;
        commit ;;
        ret ("OTP sent successfully"%string, phone, otp_expires_at)
    | _ =>
      raise (HTTPException HTTP_400_BAD_REQUEST
               "This invitation does not have a phone number")
    end
  end.

Definition verify_otp (otp_data : OTPVerify.t) (utcnow : datetime) : M (string * bool) :=
  otp_record <- query_first otps
    (fun r => str_eqb (OTP.invitation_token r) (OTPVerify.invitation_token otp_data)
              && str_eqb (OTP.otp_code r) (OTPVerify.otp_code otp_data)
              && negb (OTP.is_verified r)) ;;
  match otp_record with
  | None => raise (HTTPException HTTP_400_BAD_REQUEST "Invalid OTP code")
  | Some otp_record =>
    if is_expired utcnow (OTP.expires_at otp_record)
    then raise (HTTPException HTTP_400_BAD_REQUEST
                  "OTP has expired. Please request a new one.")
    else
      setattr_otp otp_record (OTP.set_is_verified true) ;;
      commit ;;
      ret ("OTP verified successfully"%string, true)
  end.

Definition join_team_via_invitation (token : str) (join_data : JoinTeamRequest.t)
    (utcnow : datetime) : M Member.t :=
  invitation <- query_first invitations (fun r => str_eqb (Invitation.token r) token) ;;
  match invitation with
  | None => raise (HTTPException HTTP_404_NOT_FOUND "Invitation not found")
  | Some invitation =>
    if Invitation.is_used invitation
    then raise (HTTPException HTTP_400_BAD_REQUEST "This invitation has already been used")
    else if is_expired utcnow (Invitation.expires_at invitation)
    then raise (HTTPException HTTP_400_BAD_REQUEST "This invitation has expired")
    else
      (if truthy (Invitation.phone invitation)
       then
         verified_otp <- query_first otps
           (fun r => str_eqb (OTP.invitation_token r) token && OTP.is_verified r) ;;
         if not_none verified_otp
         then ret tt
         else raise (HTTPException HTTP_400_BAD_REQUEST
                       "OTP verification required. Please verify your phone number first.")
       else ret tt) ;;
      team <- query_first teams (fun r => Team.id r =? Invitation.team_id invitation) ;;
      current_members <- query_count members
        (fun r => Member.team_id r =? Invitation.team_id invitation) ;;
      match team with
      | None => raise AttributeError
      | Some team =>
        if Z.of_nat current_members >=? Team.max_members team
        then raise (team_is_full (Team.max_members team))
        else
          db_member <- add_member (fun id =>
            Member.mk id (Invitation.team_id invitation) (JoinTeamRequest.name join_data)
              (Invitation.email invitation) (Invitation.phone invitation)
              (JoinTeamRequest.role join_data)) ;;
          setattr_invitation invitation (Invitation.set_is_used true) ;;
          commit ;;
          refresh ;;
          ret db_member
      end
  end.


(** ** Requests

    The state-changing endpoints; the [GET] handlers never commit.  A
    request body has passed the numeric and length bounds of its schema
    ([EmailStr] and the phone pattern are the framework's). *)

Inductive Request :=
| CreateTeam (team : TeamCreate.t)
| UpdateTeam (team_id : Z) (team_update : TeamUpdate.t)
| DeleteTeam (team_id : Z)
| AddTeamMember (team_id : Z) (member : MemberCreate.t)
| RemoveTeamMember (team_id member_id : Z)
| CreateInvitation (team_id : Z) (invitation : InvitationCreate.t)
    (utcnow_inv utcnow_otp : datetime) (token otp_code : str)
| ResendOtp (token : str) (utcnow_otp : datetime) (otp_code : str)
| VerifyOtp (otp_data : OTPVerify.t)
| JoinTeam (token : str) (join_data : JoinTeamRequest.t).

Definition len_between (lo hi : nat) (s : str) : bool :=
  (lo <=? List.length s)%nat && (List.length s <=? hi)%nat.

Definition opt_ok {A} (p : A -> bool) (o : option A) : bool :=
  match o with
  | Some a => p a
  | None => true
  end.

Definition max_members_ok (n : Z) : bool := (1 <=? n) && (n <=? 20).

Definition validated (rq : Request) : bool :=
  match rq with
  | CreateTeam team =>
      len_between 1 100 (TeamCreate.name team)
      && len_between 1 100 (TeamCreate.leader_name team)
      && max_members_ok (TeamCreate.max_members team)
  | UpdateTeam _ team_update =>
      opt_ok (len_between 1 100) (TeamUpdate.name team_update)
      && opt_ok max_members_ok (TeamUpdate.max_members team_update)
  | AddTeamMember _ member =>
      len_between 1 100 (MemberCreate.name member)
      && opt_ok (len_between 0 100) (MemberCreate.role member)
  | VerifyOtp otp_data => len_between 6 6 (OTPVerify.otp_code otp_data)
  | JoinTeam _ join_data =>
      len_between 1 100 (JoinTeamRequest.name join_data)
      && opt_ok (len_between 0 100) (JoinTeamRequest.role join_data)
  | _ => true
  end.

(** The database after one request served at clock reading [utcnow], the
    database failing after [fault] session steps if at all. *)
Definition handle_with (fault : option nat) (utcnow : datetime) (rq : Request) (d : DB)
  : DB :=
  match rq with
  | CreateTeam team => snd (run_with fault (create_team team) d)
  | UpdateTeam team_id team_update =>
      snd (run_with fault (update_team team_id team_update) d)
  | DeleteTeam team_id => snd (run_with fault (delete_team team_id) d)
  | AddTeamMember team_id member => snd (run_with fault (add_team_member team_id member) d)
  | RemoveTeamMember team_id member_id =>
      snd (run_with fault (remove_team_member team_id member_id) d)
  | CreateInvitation team_id invitation utcnow_inv utcnow_otp token otp_code =>
      snd (run_with fault
             (create_invitation team_id invitation utcnow utcnow_inv utcnow_otp
                token otp_code) d)
  | ResendOtp token utcnow_otp otp_code =>
      snd (run_with fault (resend_otp token utcnow utcnow_otp otp_code) d)
  | VerifyOtp otp_data => snd (run_with fault (verify_otp otp_data utcnow) d)
  | JoinTeam token join_data =>
      snd (run_with fault (join_team_via_invitation token join_data utcnow) d)
  end.

Definition handle : datetime -> Request -> DB -> DB := handle_with None.

(** The connection after one request served on it. *)
Definition handle_on (fault : option nat) (utcnow : datetime) (rq : Request)
    (c : Connection) : Connection :=
  match rq with
  | CreateTeam team => snd (run_on fault (create_team team) c)
  | UpdateTeam team_id team_update =>
      snd (run_on fault (update_team team_id team_update) c)
  | DeleteTeam team_id => snd (run_on fault (delete_team team_id) c)
  | AddTeamMember team_id member => snd (run_on fault (add_team_member team_id member) c)
  | RemoveTeamMember team_id member_id =>
      snd (run_on fault (remove_team_member team_id member_id) c)
  | CreateInvitation team_id invitation utcnow_inv utcnow_otp token otp_code =>
      snd (run_on fault
             (create_invitation team_id invitation utcnow utcnow_inv utcnow_otp
                token otp_code) c)
  | ResendOtp token utcnow_otp otp_code =>
      snd (run_on fault (resend_otp token utcnow utcnow_otp otp_code) c)
  | VerifyOtp otp_data => snd (run_on fault (verify_otp otp_data utcnow) c)
  | JoinTeam token join_data =>
      snd (run_on fault (join_team_via_invitation token join_data utcnow) c)
  end.

(** The databases the API can build from an empty one, the clock never
    running backwards and the database failing wherever it may;
    [reachable t d]: [d] is reached and the last request was served at
    [t]. *)
Inductive reachable : datetime -> DB -> Prop :=
| reachable_init : forall t, reachable t empty_db
| reachable_step : forall t t' fault rq d,
    reachable t d -> t <= t' -> validated rq = true ->
    reachable t' (handle_with fault t' rq d).

(** A run of requests, each with its clock reading. *)
Fixpoint serve (rqs : list (datetime * Request)) (d : DB) : DB :=
  match rqs with
  | [] => d
  | (utcnow, rq) :: rest => serve rest (handle utcnow rq d)
  end.

(** ** Well-formed databases *)

Definition member_count (d : DB) (team_id : Z) : nat :=
  List.length (filter (fun r => Member.team_id r =? team_id) (members d)).

(** Team keys are distinct, a stored invitation phone is never the empty
    string, and members and invitations point at stored teams. *)
Record wf (d : DB) : Prop := mk_wf {
  wf_constraints : constraints_ok d = true;
  wf_team_keys : NoDup (map Team.id (teams d));
  wf_phones : forall i, In i (invitations d) -> Invitation.phone i <> Some [];
  wf_member_team : forall m, In m (members d) ->
    exists t, In t (teams d) /\ Team.id t = Member.team_id m;
  wf_invitation_team : forall i, In i (invitations d) ->
    exists t, In t (teams d) /\ Team.id t = Invitation.team_id i
}.

(** No team holds more members than its [max_members]. *)
Definition capacity_ok (d : DB) : Prop :=
  forall t, In t (teams d) -> Z.of_nat (member_count d (Team.id t)) <= Team.max_members t.

(** The filter of [create_invitation]: unused and expiring after [utcnow]. *)
Definition pending (utcnow : datetime) (team_id : Z) (email : str) (r : Invitation.t) : bool :=
  (Invitation.team_id r =? team_id)
  && str_eqb (Invitation.email r) email
  && negb (Invitation.is_used r)
  && (Invitation.expires_at r >? utcnow).

(** At most one pending invitation for each team and email. *)
Definition one_pending (utcnow : datetime) (d : DB) : Prop :=
  forall team_id email,
    (List.length (filter (pending utcnow team_id email) (invitations d)) <= 1)%nat.

(** The database with another OTP table. *)
Definition with_otps (d : DB) (rows : list OTP.t) : DB :=
  mkDB (teams d) (members d) (invitations d) rows.

(** ** Committed changes

    What one commit of a handler does to the database, with what the
    handler has checked before it.  [written] is the team and the
    [max_members] the request writes, when it writes one. *)

Inductive change (utcnow : datetime) (written : option (Z * Z)) (d : DB) : DB -> Prop :=
| change_create_team (row : Team.t) :
    Team.id row = next_id (map Team.id (teams d)) ->
    max_members_ok (Team.max_members row) = true ->
    change utcnow written d (mkDB (teams d ++ [row]) (members d) (invitations d) (otps d))
| change_update_team (db_team : Team.t) (f : Team.t -> Team.t) :
    (forall r, Team.id (f r) = Team.id r) ->
    (forall r, Team.max_members (f r) = Team.max_members r
               \/ written = Some (Team.id db_team, Team.max_members (f r))) ->
    change utcnow written d
      (mkDB (update_row Team.id db_team f (teams d)) (members d) (invitations d) (otps d))
| change_delete_team (team_id : Z) :
    change utcnow written d
      (mkDB (filter (fun r => negb (Team.id r =? team_id)) (teams d))
            (filter (fun r => negb (Member.team_id r =? team_id)) (members d))
            (filter (fun r => negb (Invitation.team_id r =? team_id)) (invitations d))
            (otps d))
| change_add_member (db_team : Team.t) (row : Member.t) :
    find (fun r => Team.id r =? Member.team_id row) (teams d) = Some db_team ->
    Z.of_nat (member_count d (Member.team_id row)) < Team.max_members db_team ->
    change utcnow written d (mkDB (teams d) (members d ++ [row]) (invitations d) (otps d))
| change_remove_member (member_id : Z) :
    change utcnow written d
      (mkDB (teams d) (filter (fun r => negb (Member.id r =? member_id)) (members d))
            (invitations d) (otps d))
| change_create_invitation (db_team : Team.t) (row : Invitation.t) :
    find (fun r => Team.id r =? Invitation.team_id row) (teams d) = Some db_team ->
    find (pending utcnow (Invitation.team_id row) (Invitation.email row)) (invitations d)
      = None ->
    Invitation.phone row <> Some [] ->
    change utcnow written d (mkDB (teams d) (members d) (invitations d ++ [row]) (otps d))
| change_otps (rows : list OTP.t) :
    change utcnow written d (mkDB (teams d) (members d) (invitations d) rows)
| change_join (db_team : Team.t) (invitation : Invitation.t) (row : Member.t) :
    find (fun r => Team.id r =? Member.team_id row) (teams d) = Some db_team ->
    Z.of_nat (member_count d (Member.team_id row)) < Team.max_members db_team ->
    change utcnow written d
      (mkDB (teams d) (members d ++ [row])
            (update_row Invitation.id invitation (Invitation.set_is_used true) (invitations d))
            (otps d)).

(** A request commits nothing, once, or twice: [create_invitation] with a
    phone commits the invitation, then the OTP. *)
Inductive changes (utcnow : datetime) (written : option (Z * Z)) (d : DB) : DB -> Prop :=
| changes_none : changes utcnow written d d
| changes_once (d1 : DB) :
    change utcnow written d d1 -> constraints_ok d1 = true ->
    changes utcnow written d d1
| changes_then_otp (d1 : DB) (rows : list OTP.t) :
    change utcnow written d d1 -> constraints_ok d1 = true ->
    changes utcnow written d (with_otps d1 rows).

Definition written_max (rq : Request) : option (Z * Z) :=
  match rq with
  | UpdateTeam team_id team_update =>
      option_map (pair team_id) (TeamUpdate.max_members team_update)
  | _ => None
  end.

(** The request sets [max_members] of a team below its member count. *)
Definition lowers_below_count (rq : Request) (d : DB) : bool :=
  match written_max rq with
  | Some (team_id, max_members) => max_members <? Z.of_nat (member_count d team_id)
  | None => false
  end.

(** ** Runs of requests *)

Fixpoint chronological (t : datetime) (rqs : list (datetime * Request)) : bool :=
  match rqs with
  | [] => true
  | (t', rq) :: rest => (t <=? t') && validated rq && chronological t' rest
  end.

Fixpoint last_time (t : datetime) (rqs : list (datetime * Request)) : datetime :=
  match rqs with
  | [] => t
  | (t', _) :: rest => last_time t' rest
  end.

(** ** The join as the specification words it

    Invitation lookup, then used, expired, OTP verification (only when a
    phone is set) and team capacity: the first check that fails decides the
    error; when none does, the member is inserted and the invitation
    consumed. *)

Definition first_failure (checks : list (bool * Exn)) : option Exn :=
  option_map snd (find fst checks).

Definition phone_set (phone : option str) : bool := not_none phone.

Definition otp_verified (d : DB) (token : str) : bool :=
  existsb (fun r => str_eqb (OTP.invitation_token r) token && OTP.is_verified r) (otps d).

Definition team_max_members (d : DB) (team_id : Z) : Z :=
  match find (fun r => Team.id r =? team_id) (teams d) with
  | Some team => Team.max_members team
  | None => 0
  end.

Definition joined (d : DB) (invitation : Invitation.t) (member : Member.t) : DB :=
  mkDB (teams d) (members d ++ [member])
       (update_row Invitation.id invitation (Invitation.set_is_used true) (invitations d))
       (otps d).

Definition join_by_precedence (token : str) (join_data : JoinTeamRequest.t)
    (utcnow : datetime) (d : DB) : Outcome Member.t * DB :=
  match find (fun r => str_eqb (Invitation.token r) token) (invitations d) with
  | None => (Raised (HTTPException 404 "Invitation not found"), d)
  | Some invitation =>
    let team_id := Invitation.team_id invitation in
    match first_failure
      [ (Invitation.is_used invitation,
         HTTPException 400 "This invitation has already been used");
        (is_expired utcnow (Invitation.expires_at invitation),
         HTTPException 400 "This invitation has expired");
        (phone_set (Invitation.phone invitation) && negb (otp_verified d token),
         HTTPException 400
           "OTP verification required. Please verify your phone number first.");
        (Z.of_nat (member_count d team_id) >=? team_max_members d team_id,
         team_is_full (team_max_members d team_id)) ]
    with
    | Some e => (Raised e, d)
    | None =>
      let member :=
        Member.mk (next_id (map Member.id (members d))) team_id
          (JoinTeamRequest.name join_data) (Invitation.email invitation)
          (Invitation.phone invitation) (JoinTeamRequest.role join_data) in
      (Return member, joined d invitation member)
    end
  end.

(** ** Scenarios *)

Definition quick_team (max_members : Z) : TeamCreate.t :=
  TeamCreate.mk (lit "Quick Team") (lit "David Lee") (lit "david@quickteam.com")
    (Some (lit "Rapid prototyping team")) max_members.

Definition bob : InvitationCreate.t := InvitationCreate.mk (lit "bob@example.com") None.
Definition charlie : InvitationCreate.t :=
  InvitationCreate.mk (lit "charlie@example.com") None.
Definition bob_with_phone : InvitationCreate.t :=
  InvitationCreate.mk (lit "bob@example.com") (Some (lit "+919876543210")).

Definition bob_joins : JoinTeamRequest.t :=
  JoinTeamRequest.mk (lit "Bob Smith") (Some (lit "Backend Developer")).
Definition charlie_joins : JoinTeamRequest.t :=
  JoinTeamRequest.mk (lit "Charlie Davis") (Some (lit "Frontend Developer")).

Definition emma : MemberCreate.t :=
  MemberCreate.mk (lit "Emma Wilson") (lit "emma@example.com")
    (Some (lit "+919123456789")) (Some (lit "UI/UX Designer")).

(** A team of one seat, two invitations, and the first one joined: the team
    is full while the second invitation is still unused and unexpired. *)
Definition full_team_trace : list (datetime * Request) :=
  [ (0, CreateTeam (quick_team 1));
    (10, CreateInvitation 1 bob 10 10 (lit "tokenA") (lit "111111"));
    (20, CreateInvitation 1 charlie 20 20 (lit "tokenB") (lit "222222"));
    (30, JoinTeam (lit "tokenA") bob_joins) ].


(** Bob's invitation once he has joined. *)
Definition bob_invitation_used : Invitation.t :=
  Invitation.mk 1 1 (lit "bob@example.com") None (lit "tokenA") true 172800000010.

(** Requests that follow: a second join on the used token, an OTP resend on
    it, a larger team, and one more join. *)
Definition later_requests : list (datetime * Request) :=
  [ (40, JoinTeam (lit "tokenA") bob_joins);
    (50, ResendOtp (lit "tokenA") 50 (lit "333333"));
    (60, UpdateTeam 1 (TeamUpdate.mk None None (Some 5)));
    (70, JoinTeam (lit "tokenA") charlie_joins) ].


(** Charlie's invitation, still unused. *)
Definition charlie_invitation : Invitation.t :=
  Invitation.mk 2 1 (lit "charlie@example.com") None (lit "tokenB") false 172800000020.

(** A team of five seats and an invitation with a phone: the OTP "123456"
    is issued at 10 and expires ten minutes later. *)
Definition otp_trace : list (datetime * Request) :=
  [ (0, CreateTeam (quick_team 5));
    (10, CreateInvitation 1 bob_with_phone 10 10 (lit "tokenA") (lit "123456")) ].

Definition bob_otp : OTP.t :=
  OTP.mk 1 (lit "+919876543210") (lit "123456") (lit "tokenA") false 600000010.

Definition bob_invitation_with_phone : Invitation.t :=
  Invitation.mk 1 1 (lit "bob@example.com") (Some (lit "+919876543210")) (lit "tokenA")
    false 172800000010.


(** What is left of the join once the OTP stage is passed: the capacity
    check, then insertion and consumption. *)
Definition seat_member (d : DB) (invitation : Invitation.t) (join_data : JoinTeamRequest.t)
  : Outcome Member.t * DB :=
  let team_id := Invitation.team_id invitation in
  if Z.of_nat (member_count d team_id) >=? team_max_members d team_id
  then (Raised (team_is_full (team_max_members d team_id)), d)
  else
    let member :=
      Member.mk (next_id (map Member.id (members d))) team_id
        (JoinTeamRequest.name join_data) (Invitation.email invitation)
        (Invitation.phone invitation) (JoinTeamRequest.role join_data) in
    (Return member, joined d invitation member).


(** The OTP of [otp_trace] verified at 20. *)
Definition verified_trace : list (datetime * Request) :=
  otp_trace ++ [ (20, VerifyOtp (OTPVerify.mk (lit "tokenA") (lit "123456"))) ].

Definition bob_otp_verified : OTP.t :=
  OTP.mk 1 (lit "+919876543210") (lit "123456") (lit "tokenA") true 600000010.

Definition bob_member_with_phone : Member.t :=
  Member.mk 1 1 (lit "Bob Smith") (lit "bob@example.com") (Some (lit "+919876543210"))
    (Some (lit "Backend Developer")).

Definition emma_member : Member.t :=
  Member.mk 1 1 (lit "Emma Wilson") (lit "emma@example.com") None
    (Some (lit "UI/UX Designer")).


(** No request of the run sets a [max_members] below the member count of
    the database it meets. *)
Fixpoint never_lowers (rqs : list (datetime * Request)) (d : DB) : bool :=
  match rqs with
  | [] => true
  | (utcnow, rq) :: rest =>
      negb (lowers_below_count rq d) && never_lowers rest (handle utcnow rq d)
  end.


Definition frank : MemberCreate.t :=
  MemberCreate.mk (lit "Frank Moore") (lit "frank@example.com") None None.

(** A team of two seats with one member, then two, then resized to one
    seat. *)
Definition one_member_trace : list (datetime * Request) :=
  [ (0, CreateTeam (quick_team 2));
    (10, AddTeamMember 1 emma) ].

Definition shrink_trace : list (datetime * Request) :=
  one_member_trace
  ++ [ (20, AddTeamMember 1 frank);
       (30, UpdateTeam 1 (TeamUpdate.mk None None (Some 1))) ].


(** Bob invited and joined in a team of five seats; and Bob invited to a
    team of one seat that a direct member-add then fills. *)
Definition joined_trace : list (datetime * Request) :=
  [ (0, CreateTeam (quick_team 5));
    (10, CreateInvitation 1 bob 10 10 (lit "tokenA") (lit "111111"));
    (20, JoinTeam (lit "tokenA") bob_joins) ].

Definition filled_trace : list (datetime * Request) :=
  [ (0, CreateTeam (quick_team 1));
    (10, CreateInvitation 1 bob 10 10 (lit "tokenA") (lit "111111"));
    (20, AddTeamMember 1 emma) ].

Definition bob_invitation : Invitation.t :=
  Invitation.mk 1 1 (lit "bob@example.com") None (lit "tokenA") false 172800000010.


(** ** main: the read-only handlers *)

(** [offset(skip).limit(limit)] as SQLite, the default database, reads it: a
    negative offset is no offset, a negative limit is no limit. *)
Definition offset_limit {R} (skip limit : Z) (rows : list R) : list R :=
  let rest := skipn (Z.to_nat skip) rows in
  if limit <? 0 then rest else firstn (Z.to_nat limit) rest.

Definition get_all_teams (skip limit : Z) : M (list Team.t) :=
  bind_int limit ;;
  bind_int skip ;;
  read (fun d => offset_limit skip limit (teams d)).

Definition get_team (team_id : Z) : M Team.t :=
  team <- query_first teams (fun r => Team.id r =? team_id) ;;
  match team with
  | None => raise (HTTPException HTTP_404_NOT_FOUND "Team not found")
  | Some team => ret team
  end.

Definition get_team_members (team_id : Z) : M (list Member.t) :=
  bind_int team_id ;;
  db_team <- query_first teams (fun r => Team.id r =? team_id) ;;
  match db_team with
  | None => raise (HTTPException HTTP_404_NOT_FOUND "Team not found")
  | Some _ =>
    read (fun d => filter (fun r => Member.team_id r =? team_id) (members d))
  end.

(** Each invitation of the team with its invite link. *)
Definition get_team_invitations (team_id : Z) : M (list (Invitation.t * str)) :=
  bind_int team_id ;;
  db_team <- query_first teams (fun r => Team.id r =? team_id) ;;
  match db_team with
  | None => raise (HTTPException HTTP_404_NOT_FOUND "Team not found")
  | Some _ =>
    invitations <- read (fun d =>
      filter (fun r => Invitation.team_id r =? team_id) (invitations d)) ;;
    ret (map (fun inv => (inv, invite_link (Invitation.token inv))) invitations)
  end.

(** The answer of [get_invitation_details]: the invitation part and the
    team part. *)
Record InvitationDetails := mkInvitationDetails {
  details_email : str;
  details_phone : option str;
  details_expires_at : datetime;
  requires_otp : bool;
  details_team_id : Z;
  details_team_name : str;
  details_team_leader_name : str;
  details_team_description : option str
}.

Definition get_invitation_details (token : str) (utcnow : datetime)
  : M InvitationDetails :=
  invitation <- query_first invitations (fun r => str_eqb (Invitation.token r) token) ;;
  match invitation with
  | None => raise (HTTPException HTTP_404_NOT_FOUND "Invitation not found")
  | Some invitation =>
    if Invitation.is_used invitation
    then raise (HTTPException HTTP_400_BAD_REQUEST "This invitation has already been used")
    else if is_expired utcnow (Invitation.expires_at invitation)
    then raise (HTTPException HTTP_400_BAD_REQUEST "This invitation has expired")
    else
      team <- query_first teams (fun r => Team.id r =? Invitation.team_id invitation) ;;
      match team with
      | None => raise AttributeError
      | Some team =>
        ret (mkInvitationDetails (Invitation.email invitation) (Invitation.phone invitation)
               (Invitation.expires_at invitation)
               (not_none (Invitation.phone invitation))
               (Team.id team) (Team.name team) (Team.leader_name team)
               (Team.description team))
      end
  end.

(** ** utils: the generators

    [secrets.choice(seq)] is [seq[k]] for a [k] below [len(seq)] that the
    system draws; [draws i] stands for the draw of the [i]-th call. *)

Definition ascii_letters : str :=
  lit "abcdefghijklmnopqrstuvwxyzABCDEFGHIJKLMNOPQRSTUVWXYZ".

Definition digits : str := lit "0123456789".

Definition choice (seq : str) (draw : nat) : char :=
  nth (draw mod List.length seq) seq 0%N.

Definition generate_invite_token (draws : nat -> nat) (length : Z) : str :=
  let alphabet := ascii_letters ++ digits in
  map (fun i => choice alphabet (draws i)) (seq 0 (Z.to_nat length)).

Definition generate_otp (draws : nat -> nat) (length : Z) : str :=
  map (fun i => choice digits (draws i)) (seq 0 (Z.to_nat length)).

(** ** Keys and sizes *)

(** The keys of a table are positive and distinct. *)
Definition keyed {R} (key : R -> Z) (rows : list R) : Prop :=
  NoDup (map key rows) /\ forall r, In r rows -> 0 < key r.

Definition keys_ok (d : DB) : Prop :=
  keyed Team.id (teams d)
  /\ keyed Member.id (members d)
  /\ keyed Invitation.id (invitations d)
  /\ keyed OTP.id (otps d).

(** The members of a team that carry a given email. *)
Definition members_with_email (d : DB) (team_id : Z) (email : str) : list Member.t :=
  filter (fun r => (Member.team_id r =? team_id) && str_eqb (Member.email r) email)
    (members d).

(** The unverified OTP rows of a token. *)
Definition unverified_otps (d : DB) (token : str) : list OTP.t :=
  filter (fun r => str_eqb (OTP.invitation_token r) token && negb (OTP.is_verified r))
    (otps d).

(** ** Answers *)

(** The exception a request is answered with, if any. *)
Definition error_of {A} (r : Outcome A * DB) : option Exn :=
  match fst r with
  | Return _ => None
  | Raised e => Some e
  end.

Definition refusal_with (fault : option nat) (utcnow : datetime) (rq : Request) (d : DB)
  : option Exn :=
  match rq with
  | CreateTeam team => error_of (run_with fault (create_team team) d)
  | UpdateTeam team_id team_update =>
      error_of (run_with fault (update_team team_id team_update) d)
  | DeleteTeam team_id => error_of (run_with fault (delete_team team_id) d)
  | AddTeamMember team_id member =>
      error_of (run_with fault (add_team_member team_id member) d)
  | RemoveTeamMember team_id member_id =>
      error_of (run_with fault (remove_team_member team_id member_id) d)
  | CreateInvitation team_id invitation utcnow_inv utcnow_otp token otp_code =>
      error_of (run_with fault
                  (create_invitation team_id invitation utcnow utcnow_inv utcnow_otp
                     token otp_code) d)
  | ResendOtp token utcnow_otp otp_code =>
      error_of (run_with fault (resend_otp token utcnow utcnow_otp otp_code) d)
  | VerifyOtp otp_data => error_of (run_with fault (verify_otp otp_data utcnow) d)
  | JoinTeam token join_data =>
      error_of (run_with fault (join_team_via_invitation token join_data utcnow) d)
  end.

Definition refusal : datetime -> Request -> DB -> option Exn := refusal_with None.

(** ** Frames *)

(** The tables that a request leaves as they are, from [d] to [d']. *)
Definition leaves_alone (rq : Request) (d d' : DB) : Prop :=
  match rq with
  | CreateTeam _ | UpdateTeam _ _ =>
      members d' = members d /\ invitations d' = invitations d /\ otps d' = otps d
  | DeleteTeam _ => otps d' = otps d
  | AddTeamMember _ _ | RemoveTeamMember _ _ =>
      teams d' = teams d /\ invitations d' = invitations d /\ otps d' = otps d
  | CreateInvitation _ _ _ _ _ _ => teams d' = teams d /\ members d' = members d
  | ResendOtp _ _ _ | VerifyOtp _ =>
      teams d' = teams d /\ members d' = members d /\ invitations d' = invitations d
  | JoinTeam _ _ => teams d' = teams d /\ otps d' = otps d
  end.

(** ** Further scenarios *)

(** Two teams, a member in each, and an invitation to each: Bob's with a
    phone, Charlie's without. *)
Definition other_team : TeamCreate.t :=
  TeamCreate.mk (lit "Night Owls") (lit "Sarah Chen") (lit "sarah@nightowls.dev") None 3.

Definition two_teams_trace : list (datetime * Request) :=
  [ (0, CreateTeam (quick_team 5));
    (5, CreateTeam other_team);
    (10, AddTeamMember 1 emma);
    (15, AddTeamMember 2 frank);
    (20, CreateInvitation 1 bob_with_phone 20 20 (lit "tokenA") (lit "123456"));
    (25, CreateInvitation 2 charlie 25 25 (lit "tokenB") (lit "222222")) ].

Definition quick_team_row : Team.t :=
  Team.mk 1 (lit "Quick Team") (lit "David Lee") (lit "david@quickteam.com")
    (Some (lit "Rapid prototyping team")) 5.

Definition other_team_row : Team.t :=
  Team.mk 2 (lit "Night Owls") (lit "Sarah Chen") (lit "sarah@nightowls.dev") None 3.

Definition frank_member : Member.t :=
  Member.mk 2 2 (lit "Frank Moore") (lit "frank@example.com") None None.

Definition bob_invitation_at_20 : Invitation.t :=
  Invitation.mk 1 1 (lit "bob@example.com") (Some (lit "+919876543210")) (lit "tokenA")
    false 172800000020.

Definition charlie_invitation_at_25 : Invitation.t :=
  Invitation.mk 2 2 (lit "charlie@example.com") None (lit "tokenB") false 172800000025.

(** Bob is invited, and then added directly under the same email. *)
Definition bob_direct : MemberCreate.t :=
  MemberCreate.mk (lit "Bob Smith") (lit "bob@example.com") None None.

Definition invited_then_added_trace : list (datetime * Request) :=
  [ (0, CreateTeam (quick_team 5));
    (10, CreateInvitation 1 bob 10 10 (lit "tokenA") (lit "111111"));
    (20, AddTeamMember 1 bob_direct) ].

(** One team of five seats and nothing else. *)
Definition team_only_trace : list (datetime * Request) :=
  [ (0, CreateTeam (quick_team 5)) ].

(** * Properties *)

(** ** Lists, strings and keys *)

Lemma str_eqb_eq (a b : str) : str_eqb a b = true <-> a = b.
Proof.
  revert b; induction a as [|x a IH]; intros [|y b]; simpl; split; intro H;
    try reflexivity; try discriminate.
  - apply andb_true_iff in H as [Hx Hr]. apply N.eqb_eq in Hx. apply IH in Hr.
    now subst.
  - injection H as -> ->. apply andb_true_iff. split; [apply N.eqb_refl | now apply IH].
Qed.

Lemma str_eqb_refl (a : str) : str_eqb a a = true.
Proof. now apply str_eqb_eq. Qed.

Lemma filter_filter_same {A} (f : A -> bool) (l : list A) :
  filter f (filter f l) = filter f l.
Proof.
  induction l as [|x l IH]; simpl; [reflexivity|].
  destruct (f x) eqn:E; simpl; [rewrite E, IH|]; auto.
Qed.

Lemma next_id_above (ids : list Z) (x : Z) : In x ids -> x < next_id ids.
Proof.
  unfold next_id. induction ids as [|y ids IH]; cbn [fold_right In]; [tauto|].
  intros [->|H]; [lia|]. specialize (IH H). lia.
Qed.

Lemma distinct_NoDup (l : list str) : distinct l = true <-> NoDup l.
Proof.
  induction l as [|x l IH]; simpl.
  - split; [constructor | reflexivity].
  - rewrite andb_true_iff, negb_true_iff, IH. split.
    + intros [Hx Hl]. constructor; [|assumption].
      intro Hin. assert (existsb (str_eqb x) l = true) as E; [|congruence].
      apply existsb_exists. exists x. split; [assumption | apply str_eqb_refl].
    + intro H. inversion H as [|? ? Hx Hl]; subst. split; [|assumption].
      destruct (existsb (str_eqb x) l) eqn:E; [|reflexivity].
      apply existsb_exists in E as [y [Hy Hxy]]. apply str_eqb_eq in Hxy. now subst.
Qed.

Lemma distinct_app_one (l : list str) (x : str) :
  distinct l = true -> ~ In x l -> distinct (l ++ [x]) = true.
Proof.
  rewrite !distinct_NoDup. intros Hl Hx.
  apply NoDup_app; [assumption | repeat constructor; simpl; tauto |].
  intros a Ha [<-|[]]; contradiction.
Qed.

(** ** format_phone_number *)

Lemma isdigit_plus : isdigit 43%N = false.
Proof. reflexivity. Qed.

(** C10: [format_phone_number] returns "+" followed by the digit characters
    of its input in their order, whether or not the input starts with "+"
    (a leading "+" changes nothing), and applying it twice is applying it
    once. *)
Theorem C10_format_phone_number_idempotent (phone : str) :
  format_phone_number phone = lit "+" ++ filter isdigit phone
  /\ format_phone_number (lit "+" ++ phone) = format_phone_number phone
  /\ format_phone_number (format_phone_number phone) = format_phone_number phone.
Proof.
  assert (forall p, format_phone_number p = lit "+" ++ filter isdigit p) as E.
  { intro p. unfold format_phone_number. now destruct (negb (startswith p (lit "+"))). }
  rewrite !E. change (lit "+") with [43%N]. cbn [app filter].
  rewrite isdigit_plus, filter_filter_same. auto.
Qed.

(** ** Running a handler

    Equations that execute one session step; [fault_in] is carried along so
    that they serve both the plain runs and the runs with a failing
    database. *)

Lemma ret_run {A} (a : A) (s : Session) : ret a s = (Return a, s).
Proof. reflexivity. Qed.

Lemma raise_run {A} (e : Exn) (s : Session) : @raise A e s = (Raised e, s).
Proof. reflexivity. Qed.

Lemma bind_ret {A B} (a : A) (k : A -> M B) (s : Session) : bind (ret a) k s = k a s.
Proof. reflexivity. Qed.

Lemma bind_raise {A B} (e : Exn) (k : A -> M B) (s : Session) :
  bind (raise e) k s = (Raised e, s).
Proof. reflexivity. Qed.

Lemma bind_assoc {A B C} (m : M A) (f : A -> M B) (g : B -> M C) (s : Session) :
  bind (bind m f) g s = bind m (fun a => bind (f a) g) s.
Proof. unfold bind. destruct (m s) as [[a|e] s']; reflexivity. Qed.

Lemma bind_access {A B} (f : DB -> A * DB) (k : A -> M B) (st tx fl : DB) :
  bind (access f) k (mkSession st tx None fl)
  = k (fst (f tx)) (mkSession st (snd (f tx)) None fl).
Proof. unfold bind, access, tick; cbn. now destruct (f tx). Qed.

Lemma bind_access_fault0 {A B} (f : DB -> A * DB) (k : A -> M B) (st tx fl : DB) :
  bind (access f) k (mkSession st tx (Some O) fl)
  = (Raised OperationalError, mkSession st tx (Some O) fl).
Proof. reflexivity. Qed.

Lemma bind_access_faultS {A B} (f : DB -> A * DB) (k : A -> M B) (st tx fl : DB) (n : nat) :
  bind (access f) k (mkSession st tx (Some (S n)) fl)
  = k (fst (f tx)) (mkSession st (snd (f tx)) (Some n) fl).
Proof. unfold bind, access, tick; cbn. now destruct (f tx). Qed.

Lemma bind_commit {B} (k : unit -> M B) (st tx fl : DB) :
  bind commit k (mkSession st tx None fl)
  = if constraints_ok tx then k tt (mkSession tx tx None tx)
    else (Raised IntegrityError, mkSession st tx None st).
Proof. unfold bind, commit; cbn. now destruct (constraints_ok tx). Qed.

Lemma bind_commit_fault0 {B} (k : unit -> M B) (st tx fl : DB) :
  bind commit k (mkSession st tx (Some O) fl)
  = if constraints_ok tx then (Raised OperationalError, mkSession st tx (Some O) tx)
    else (Raised IntegrityError, mkSession st tx (Some O) st).
Proof. unfold bind, commit; cbn. now destruct (constraints_ok tx). Qed.

Lemma bind_commit_faultS {B} (k : unit -> M B) (st tx fl : DB) (n : nat) :
  bind commit k (mkSession st tx (Some (S n)) fl)
  = if constraints_ok tx then k tt (mkSession tx tx (Some n) tx)
    else (Raised IntegrityError, mkSession st tx (Some (S n)) st).
Proof. unfold bind, commit; cbn. now destruct (constraints_ok tx). Qed.

Lemma commit_run (st tx fl : DB) :
  commit (mkSession st tx None fl)
  = if constraints_ok tx then (Return tt, mkSession tx tx None tx)
    else (Raised IntegrityError, mkSession st tx None st).
Proof. unfold commit; cbn. now destruct (constraints_ok tx). Qed.

Lemma commit_run_fault0 (st tx fl : DB) :
  commit (mkSession st tx (Some O) fl)
  = if constraints_ok tx then (Raised OperationalError, mkSession st tx (Some O) tx)
    else (Raised IntegrityError, mkSession st tx (Some O) st).
Proof. unfold commit; cbn. now destruct (constraints_ok tx). Qed.

Lemma commit_run_faultS (st tx fl : DB) (n : nat) :
  commit (mkSession st tx (Some (S n)) fl)
  = if constraints_ok tx then (Return tt, mkSession tx tx (Some n) tx)
    else (Raised IntegrityError, mkSession st tx (Some (S n)) st).
Proof. unfold commit; cbn. now destruct (constraints_ok tx). Qed.

Lemma bind_refresh {B} (k : unit -> M B) (st tx fl : DB) :
  bind refresh k (mkSession st tx None fl) = k tt (mkSession st tx None fl).
Proof. reflexivity. Qed.

Lemma bind_refresh_fault0 {B} (k : unit -> M B) (st tx fl : DB) :
  bind refresh k (mkSession st tx (Some O) fl)
  = (Raised OperationalError, mkSession st tx (Some O) fl).
Proof. reflexivity. Qed.

Lemma bind_refresh_faultS {B} (k : unit -> M B) (st tx fl : DB) (n : nat) :
  bind refresh k (mkSession st tx (Some (S n)) fl) = k tt (mkSession st tx (Some n) fl).
Proof. reflexivity. Qed.

(** Unfold the session primitives down to [access], [commit] and [refresh]. *)
Ltac to_access :=
  unfold query_first, query_count, add_team, add_member, add_invitation, add_otp,
    setattr_team, setattr_invitation, setattr_otp, delete_team_row,
    delete_member_row, query_delete_otps, bind_int, read, write.

(** Execute the steps of a plain run, splitting on every test met. *)
Ltac exec_step :=
  first
    [ rewrite bind_assoc
    | rewrite bind_access
    | rewrite bind_access_fault0
    | rewrite bind_access_faultS
    | rewrite bind_commit
    | rewrite bind_commit_fault0
    | rewrite bind_commit_faultS
    | rewrite commit_run
    | rewrite commit_run_fault0
    | rewrite commit_run_faultS
    | rewrite bind_refresh
    | rewrite bind_refresh_fault0
    | rewrite bind_refresh_faultS
    | rewrite bind_ret
    | rewrite bind_raise
    | rewrite ret_run
    | rewrite raise_run ];
  cbn [fst snd].

Ltac exec_split :=
  match goal with
  | |- context [match ?x with _ => _ end (mkSession _ _ _ _)] =>
      let E := fresh "E" in destruct x eqn:E
  | |- context [bind (match ?x with _ => _ end) _ (mkSession _ _ _ _)] =>
      let E := fresh "E" in destruct x eqn:E
  | |- context [if constraints_ok ?x then _ else _] =>
      let E := fresh "E" in destruct (constraints_ok x) eqn:E
  | |- context [mkSession _ _ (Some ?n) _] => is_var n; destruct n
  end.

Ltac exec :=
  to_access; repeat (exec_step || exec_split);
  cbn [stored txn left_open database open_txn teams members invitations otps fst snd] in *.

(** Name the result of the one run in the goal, keeping its equation as a
    premise. *)
Ltac run_once :=
  match goal with
  | |- context [match ?x with _ => _ end] =>
      let r := fresh "r" in
      let s := fresh "s" in
      let Hrun := fresh "Hrun" in
      destruct x as [r s] eqn:Hrun; cbn [fst snd database open_txn]; revert Hrun
  end.

Ltac ran :=
  let H := fresh "H" in
  intro H; injection H as <- <-;
  cbn [stored txn left_open teams members invitations otps].

Lemma update_row_compose {R} (key : R -> Z) (o1 o2 : R) (f g : R -> R) (rows : list R) :
  key o2 = key o1 -> (forall r, key (f r) = key r) ->
  update_row key o2 g (update_row key o1 f rows)
  = update_row key o1 (fun r => g (f r)) rows.
Proof.
  intros Hk Hf. unfold update_row. rewrite map_map. apply map_ext. intro r.
  rewrite Hk. destruct (key r =? key o1) eqn:E.
  - rewrite Hf, E. reflexivity.
  - rewrite E. reflexivity.
Qed.

Lemma geb_false_lt (a b : Z) : (a >=? b) = false -> a < b.
Proof. rewrite Z.geb_leb. apply Z.leb_gt. Qed.

Lemma not_none_false {A} (o : option A) : not_none o = false -> o = None.
Proof. now destruct o. Qed.

Lemma format_phone_number_nonempty (phone : str) : format_phone_number phone <> [].
Proof. unfold format_phone_number. now destruct (negb (startswith phone (lit "+"))). Qed.

Lemma formatted_phone_set (phone : option str) :
  match phone with
  | Some ((_ :: _) as p) => Some (format_phone_number p)
  | _ => None
  end <> Some [].
Proof.
  destruct phone as [[|c p]|]; try discriminate.
  intro H. injection H as H. now apply format_phone_number_nonempty in H.
Qed.

Ltac one_commit := apply changes_once; [ | assumption ].

Lemma handle_changes (fault : option nat) (utcnow : datetime) (rq : Request) (d : DB) :
  validated rq = true ->
  changes utcnow (written_max rq) d (handle_with fault utcnow rq d).
Proof.
  intro V. destruct rq; unfold handle_with, run_with.
  - unfold create_team. destruct fault as [n|]; exec; try apply changes_none.
    all: one_commit; apply change_create_team; [reflexivity|].
    all: cbn in V; apply andb_true_iff in V as [_ V]; exact V.
  - unfold update_team. destruct fault as [n|]; exec; try apply changes_none.
    all: one_commit.
    all: rewrite ?update_row_compose by (try reflexivity; intros []; reflexivity).
    all: apply change_update_team; [intros []; reflexivity|].
    all: apply find_some in E as [_ E]; cbn beta in E; apply Z.eqb_eq in E; subst team_id.
    all: cbn [written_max];
      try match goal with
          | H : TeamUpdate.max_members _ = _ |- _ => rewrite H
          end; cbn [option_map].
    all: intros []; cbn; auto.
  - unfold delete_team. destruct fault as [n|]; exec; try apply changes_none.
    all: one_commit; apply change_delete_team.
  - unfold add_team_member. destruct fault as [n|]; exec; try apply changes_none.
    all: one_commit; eapply change_add_member; [exact E|].
    all: apply geb_false_lt; exact E0.
  - unfold remove_team_member. destruct fault as [n|]; exec; try apply changes_none.
    all: one_commit; apply change_remove_member.
  - unfold create_invitation. destruct fault as [n|]; exec; try apply changes_none.
    all: try match goal with
             | H : _ = Some [] |- _ => exfalso; revert H; apply formatted_phone_set
             end.
    all: match goal with
         | |- changes _ _ _ (mkDB _ _ (?rows ++ [?row]) (?o ++ ?os)) =>
             apply (changes_then_otp utcnow None d
                      (mkDB (teams d) (members d) (rows ++ [row]) o) (o ++ os))
         | |- _ => apply changes_once
         end; try assumption.
    all: eapply change_create_invitation;
      [ exact E
      | match goal with
        | H : not_none (find _ (invitations _)) = false |- _ =>
            apply not_none_false in H; exact H
        end
      | first [ apply formatted_phone_set | cbn; discriminate ] ].
  - unfold resend_otp. destruct fault as [n|]; exec; try apply changes_none.
    all: one_commit.
    all: match goal with
         | |- change ?u ?z ?d1 (mkDB _ _ _ ?rows) => exact (change_otps u z d1 rows)
         end.
  - unfold verify_otp. destruct fault as [n|]; exec; try apply changes_none.
    all: one_commit.
    all: match goal with
         | |- change ?u ?z ?d1 (mkDB _ _ _ ?rows) => exact (change_otps u z d1 rows)
         end.
  - unfold join_team_via_invitation. destruct fault as [n|]; exec; try apply changes_none.
    all: one_commit; eapply change_join; [eassumption|]; apply geb_false_lt; eassumption.
Qed.

(** ** Requests on a connection *)

(** On a connection with no transaction open a request is answered, and the
    database left, as [run_with] tells. *)
Lemma run_on_clean {A} (fault : option nat) (handler : M A) (d : DB) :
  fst (run_on fault handler (clean d)) = fst (run_with fault handler d)
  /\ database (snd (run_on fault handler (clean d))) = snd (run_with fault handler d).
Proof.
  unfold run_on, run_with, clean. cbn [database open_txn].
  destruct (handler _) as [r s]. split; reflexivity.
Qed.

Lemma handle_on_clean (fault : option nat) (utcnow : datetime) (rq : Request) (d : DB) :
  database (handle_on fault utcnow rq (clean d)) = handle_with fault utcnow rq d.
Proof. destruct rq; apply run_on_clean. Qed.

(** A request that meets an open transaction [o] on the connection goes as
    on the database [o]: either it commits, and leaves what it leaves on [o];
    or it commits nothing and the stored database stays, the open
    transaction being rolled back, or replaced by the one of its own refused
    COMMIT. *)
Lemma handle_on_open (fault : option nat) (utcnow : datetime) (rq : Request) (d o : DB) :
  let c' := handle_on fault utcnow rq (mkConnection d o) in
  c' = handle_on fault utcnow rq (clean o)
  \/ (database c' = d
      /\ (open_txn c' = d
          \/ open_txn c' = open_txn (handle_on fault utcnow rq (clean o)))).
Proof.
  cbv zeta. destruct rq; unfold handle_on, run_on, clean; cbn [database open_txn];
    run_once; run_once.
  - unfold create_team. destruct fault as [n|]; exec; ran; ran; auto.
  - unfold update_team. destruct fault as [n|]; exec; ran; ran; auto.
  - unfold delete_team. destruct fault as [n|]; exec; ran; ran; auto.
  - unfold add_team_member. destruct fault as [n|]; exec; ran; ran; auto.
  - unfold remove_team_member. destruct fault as [n|]; exec; ran; ran; auto.
  - unfold create_invitation. destruct fault as [n|]; exec; ran; ran; auto.
  - unfold resend_otp. destruct fault as [n|]; exec; ran; ran; auto.
  - unfold verify_otp. destruct fault as [n|]; exec; ran; ran; auto.
  - unfold join_team_via_invitation. destruct fault as [n|]; exec; ran; ran; auto.
Qed.

(** ** Well-formedness is kept *)

Lemma map_key_update_row {R} (key : R -> Z) (obj : R) (f : R -> R) (rows : list R) :
  (forall r, key (f r) = key r) ->
  map key (update_row key obj f rows) = map key rows.
Proof.
  intro Hf. unfold update_row. rewrite map_map. apply map_ext. intro r.
  destruct (key r =? key obj); [apply Hf | reflexivity].
Qed.

Lemma in_update_row {R} (key : R -> Z) (obj : R) (f : R -> R) (rows : list R) (x : R) :
  In x (update_row key obj f rows) -> exists r, In r rows /\ (x = r \/ x = f r).
Proof.
  unfold update_row. rewrite in_map_iff. intros [r [Hx Hr]]. exists r. split; [assumption|].
  destruct (key r =? key obj); auto.
Qed.

Lemma NoDup_map_filter {A B} (g : A -> B) (p : A -> bool) (l : list A) :
  NoDup (map g l) -> NoDup (map g (filter p l)).
Proof.
  induction l as [|x l IH]; simpl; [auto|].
  intro H. inversion H as [|? ? Hx Hl]; subst.
  destruct (p x); simpl; [|auto].
  constructor; [|auto].
  rewrite in_map_iff in *. intros [y [Hy Hin]]. apply Hx. exists y.
  apply filter_In in Hin. tauto.
Qed.

Lemma wf_empty : wf empty_db.
Proof.
  constructor; simpl; try reflexivity; try constructor; intros ? [].
Qed.

Lemma find_team_in (team_id : Z) (d : DB) (t : Team.t) :
  find (fun r => Team.id r =? team_id) (teams d) = Some t ->
  In t (teams d) /\ Team.id t = team_id.
Proof.
  intro H. apply find_some in H as [Hin Hid]. apply Z.eqb_eq in Hid. auto.
Qed.

Lemma change_wf (utcnow : datetime) (z : option (Z * Z)) (d d' : DB) :
  change utcnow z d d' -> constraints_ok d' = true -> wf d -> wf d'.
Proof.
  intros Hc Hk [_ Hkeys Hph Hm Hi].
  destruct Hc; constructor; cbn [teams members invitations otps] in *; auto.
  - (* create_team: keys *)
    rewrite map_app. apply NoDup_app; [assumption | repeat constructor; simpl; tauto |].
    intros a Ha [<-|[]]. apply next_id_above in Ha. lia.
  - intros m Hin. destruct (Hm m Hin) as [t [Ht E]]. exists t. split; [|assumption].
    apply in_or_app. auto.
  - intros i Hin. destruct (Hi i Hin) as [t [Ht E]]. exists t. split; [|assumption].
    apply in_or_app. auto.
  - (* update_team *)
    rewrite map_key_update_row; assumption.
  - intros m Hin. destruct (Hm m Hin) as [t [Ht E]].
    exists (if Team.id t =? Team.id db_team then f t else t). split.
    + unfold update_row. apply in_map_iff. exists t. auto.
    + destruct (Team.id t =? Team.id db_team); [rewrite H|]; assumption.
  - intros i Hin. destruct (Hi i Hin) as [t [Ht E]].
    exists (if Team.id t =? Team.id db_team then f t else t). split.
    + unfold update_row. apply in_map_iff. exists t. auto.
    + destruct (Team.id t =? Team.id db_team); [rewrite H|]; assumption.
  - (* delete_team *)
    apply NoDup_map_filter. assumption.
  - intros i Hin. apply filter_In in Hin. apply Hph. tauto.
  - intros m Hin. apply filter_In in Hin as [Hin Hne].
    destruct (Hm m Hin) as [t [Ht E]]. exists t. split; [|assumption].
    apply filter_In. split; [assumption|]. rewrite E. assumption.
  - intros i Hin. apply filter_In in Hin as [Hin Hne].
    destruct (Hi i Hin) as [t [Ht E]]. exists t. split; [|assumption].
    apply filter_In. split; [assumption|]. rewrite E. assumption.
  - (* add_member *)
    intros m Hin. apply in_app_or in Hin as [Hin|[<-|[]]]; [auto|].
    apply find_team_in in H as [Ht E]. exists db_team. auto.
  - (* remove_member *)
    intros m Hin. apply filter_In in Hin. apply Hm. tauto.
  - (* create_invitation *)
    intros i Hin. apply in_app_or in Hin as [Hin|[<-|[]]]; auto.
  - intros i Hin. apply in_app_or in Hin as [Hin|[<-|[]]]; [auto|].
    apply find_team_in in H as [Ht E]. exists db_team. auto.
  - (* join *)
    intros i Hin. apply in_update_row in Hin as [r [Hr [->| ->]]]; [auto|].
    destruct r; cbn. apply (Hph _ Hr).
  - intros m Hin. apply in_app_or in Hin as [Hin|[<-|[]]]; [auto|].
    apply find_team_in in H as [Ht E]. exists db_team. auto.
  - intros i Hin. apply in_update_row in Hin as [r [Hr [->| ->]]]; [auto|].
    destruct r; cbn. apply (Hi _ Hr).
Qed.

Lemma wf_with_otps (d : DB) (rows : list OTP.t) : wf d -> wf (with_otps d rows).
Proof. intros [? ? ? ? ?]. constructor; assumption. Qed.

Lemma changes_wf (utcnow : datetime) (z : option (Z * Z)) (d d' : DB) :
  changes utcnow z d d' -> wf d -> wf d'.
Proof.
  intros [|d1 Hc Hk|d1 rows Hc Hk] Hwf; [assumption| |apply wf_with_otps];
    eapply change_wf; eassumption.
Qed.

Lemma reachable_wf (t : datetime) (d : DB) : reachable t d -> wf d.
Proof.
  induction 1 as [|t t' fault rq d _ IH _ V]; [apply wf_empty|].
  eapply changes_wf; [apply handle_changes; exact V | exact IH].
Qed.

Lemma reachable_serve (rqs : list (datetime * Request)) (t : datetime) (d : DB) :
  reachable t d -> chronological t rqs = true ->
  reachable (last_time t rqs) (serve rqs d).
Proof.
  revert t d. induction rqs as [|[t' rq] rest IH]; intros t d Hr Hc; simpl; [assumption|].
  simpl in Hc. apply andb_true_iff in Hc as [Hc Hrest]. apply andb_true_iff in Hc as [Ht V].
  apply IH; [|assumption].
  apply (reachable_step t t' None); [assumption | lia | assumption].
Qed.

Lemma map_update_row {R B} (g : R -> B) (key : R -> Z) (obj : R) (f : R -> R) (rows : list R) :
  (forall r, g (f r) = g r) ->
  map g (update_row key obj f rows) = map g rows.
Proof.
  intro Hf. unfold update_row. rewrite map_map. apply map_ext. intro r.
  destruct (key r =? key obj); [apply Hf | reflexivity].
Qed.

Lemma constraints_ok_joined (d : DB) (invitation : Invitation.t) (member : Member.t) :
  constraints_ok (joined d invitation member) = constraints_ok d.
Proof.
  unfold constraints_ok, joined; cbn [teams invitations].
  rewrite map_update_row; [reflexivity | intros []; reflexivity].
Qed.

Lemma not_none_find {A} (p : A -> bool) (l : list A) : not_none (find p l) = existsb p l.
Proof.
  induction l as [|x l IH]; simpl; [reflexivity|]. destruct (p x); simpl; auto.
Qed.

Lemma truthy_phone_set (phone : option str) : phone <> Some [] -> truthy phone = phone_set phone.
Proof. destruct phone as [[|c p]|]; simpl; intro H; [now contradiction H | reflexivity | reflexivity]. Qed.

Lemma find_invitation_in (token : str) (d : DB) (i : Invitation.t) :
  find (fun r => str_eqb (Invitation.token r) token) (invitations d) = Some i ->
  In i (invitations d) /\ Invitation.token i = token.
Proof.
  intro H. apply find_some in H as [Hin Hid]. apply str_eqb_eq in Hid. auto.
Qed.

Lemma find_team_none (team_id : Z) (d : DB) (t : Team.t) :
  find (fun r => Team.id r =? team_id) (teams d) = None ->
  In t (teams d) -> Team.id t <> team_id.
Proof.
  intros H Hin E. apply (find_none _ _ H) in Hin. cbn in Hin.
  apply Z.eqb_neq in Hin. contradiction.
Qed.

Lemma join_precedence_wf (token : str) (join_data : JoinTeamRequest.t)
    (utcnow : datetime) (d : DB) :
  wf d ->
  run (join_team_via_invitation token join_data utcnow) d
  = join_by_precedence token join_data utcnow d.
Proof.
  intros [Hk _ Hph _ Hi].
  unfold join_by_precedence, run, run_with, join_team_via_invitation, first_failure,
    otp_verified, team_max_members, member_count.
  exec; try reflexivity.
  all: apply find_invitation_in in E as HE; destruct HE as [Hin _].
  all: pose proof (truthy_phone_set _ (Hph _ Hin)) as Ht.
  all: rewrite <- Ht, <- not_none_find.
  all: try (exfalso; destruct (Hi _ Hin) as [tm [Htm Eid]];
            eapply find_team_none; eassumption).
  all: try match goal with
       | H : constraints_ok (mkDB _ (_ ++ [?m]) _ _) = false |- _ =>
           pose proof (constraints_ok_joined d t m) as Hj; unfold joined in Hj; congruence
       end.
  all: repeat match goal with
       | H : _ = true |- _ => rewrite H
       | H : _ = false |- _ => rewrite H
       end; cbn; try reflexivity.
Qed.

(** ** The order of the join checks *)


(** ** Used invitations *)

Lemma find_unique_token (rows : list Invitation.t) (i : Invitation.t) :
  distinct (map Invitation.token rows) = true -> In i rows ->
  find (fun r => str_eqb (Invitation.token r) (Invitation.token i)) rows = Some i.
Proof.
  induction rows as [|x rows IH]; simpl; [tauto|].
  intros Hd Hin. apply andb_true_iff in Hd as [Hx Hd]. apply negb_true_iff in Hx.
  destruct Hin as [->|Hin].
  - now rewrite str_eqb_refl.
  - destruct (str_eqb (Invitation.token x) (Invitation.token i)) eqn:E; [|auto].
    exfalso. apply str_eqb_eq in E.
    assert (existsb (str_eqb (Invitation.token x)) (map Invitation.token rows) = true) as C;
      [|congruence].
    apply existsb_exists. exists (Invitation.token i). split.
    + apply in_map. assumption.
    + rewrite E. apply str_eqb_refl.
Qed.

Lemma find_invitation_wf (d : DB) (i : Invitation.t) :
  wf d -> In i (invitations d) ->
  find (fun r => str_eqb (Invitation.token r) (Invitation.token i)) (invitations d) = Some i.
Proof.
  intros [Hk _ _ _ _] Hin. apply find_unique_token; [|assumption].
  unfold constraints_ok in Hk. apply andb_true_iff in Hk. tauto.
Qed.

Lemma used_row_stays (i obj : Invitation.t) (rows : list Invitation.t) :
  Invitation.is_used i = true -> In i rows ->
  In i (update_row Invitation.id obj (Invitation.set_is_used true) rows).
Proof.
  intros Hu Hin. unfold update_row. apply in_map_iff. exists i. split; [|assumption].
  destruct (Invitation.id i =? Invitation.id obj); [|reflexivity].
  destruct i; cbn in *. now subst.
Qed.

Lemma used_invitation_step (fault : option nat) (utcnow : datetime) (rq : Request)
    (d : DB) (i : Invitation.t) :
  In i (invitations d) -> Invitation.is_used i = true ->
  In i (invitations (handle_with fault utcnow rq d))
  \/ rq = DeleteTeam (Invitation.team_id i).
Proof.
  intros Hin Hu. destruct rq; unfold handle_with, run_with.
  - unfold create_team. destruct fault as [n|]; exec; auto.
  - unfold update_team. destruct fault as [n|]; exec; auto.
  - unfold delete_team. destruct fault as [n|]; exec; auto.
    all: destruct (Z.eq_dec (Invitation.team_id i) team_id) as [->|Hne]; [now right|left].
    all: match goal with
         | H : find _ (teams _) = Some _ |- _ => apply find_team_in in H as [_ ->]
         end.
    all: apply filter_In; split; [assumption|].
    all: apply negb_true_iff; now apply Z.eqb_neq.
  - unfold add_team_member. destruct fault as [n|]; exec; auto.
  - unfold remove_team_member. destruct fault as [n|]; exec; auto.
  - unfold create_invitation. destruct fault as [n|]; exec; auto; left; apply in_or_app; auto.
  - unfold resend_otp. destruct fault as [n|]; exec; auto.
  - unfold verify_otp. destruct fault as [n|]; exec; auto.
  - unfold join_team_via_invitation.
    destruct fault as [n|]; exec; auto; left; now apply used_row_stays.
Qed.

Lemma used_invitation_serve (rqs : list (datetime * Request)) (d : DB) (i : Invitation.t) :
  In i (invitations d) -> Invitation.is_used i = true ->
  In i (invitations (serve rqs d))
  \/ exists t', In (t', DeleteTeam (Invitation.team_id i)) rqs.
Proof.
  revert d. induction rqs as [|[t' rq] rest IH]; intros d Hin Hu; simpl; [now left|].
  destruct (used_invitation_step None t' rq d i Hin Hu) as [Hin'| ->].
  - destruct (IH _ Hin' Hu) as [H|[t'' H]]; [now left|]. right. exists t''. now right.
  - right. exists t'. now left.
Qed.

Lemma join_used (d : DB) (i : Invitation.t) (join_data : JoinTeamRequest.t)
    (utcnow : datetime) :
  wf d -> In i (invitations d) -> Invitation.is_used i = true ->
  run (join_team_via_invitation (Invitation.token i) join_data utcnow) d
  = (Raised (HTTPException 400 "This invitation has already been used"), d).
Proof.
  intros Hwf Hin Hu. pose proof (find_invitation_wf d i Hwf Hin) as Hf.
  unfold run, run_with, join_team_via_invitation. to_access.
  rewrite bind_access. cbn [fst snd]. rewrite Hf, Hu. reflexivity.
Qed.

Lemma joined_consumes (d : DB) (i : Invitation.t) (m : Member.t) :
  In i (invitations d) ->
  (exists row, In row (invitations (joined d i m))
               /\ Invitation.id row = Invitation.id i
               /\ Invitation.token row = Invitation.token i
               /\ Invitation.is_used row = true)
  /\ (forall row, In row (invitations (joined d i m)) ->
        Invitation.id row = Invitation.id i -> Invitation.is_used row = true).
Proof.
  intro Hin. unfold joined; cbn [invitations]. split.
  - exists (Invitation.set_is_used true i). split; [|now destruct i].
    unfold update_row. apply in_map_iff. exists i. now rewrite Z.eqb_refl.
  - intros row Hrow Hid. unfold update_row in Hrow.
    apply in_map_iff in Hrow as [r0 [<- Hr0]].
    destruct (Invitation.id r0 =? Invitation.id i) eqn:E; [now destruct r0|].
    apply Z.eqb_neq in E. contradiction.
Qed.




Lemma unused_invitation_step (fault : option nat) (utcnow : datetime) (rq : Request)
    (d : DB) (i : Invitation.t) :
  In i (invitations (handle_with fault utcnow rq d)) -> Invitation.is_used i = false ->
  In i (invitations d)
  \/ forall r, In r (invitations d) -> Invitation.id r <> Invitation.id i.
Proof.
  destruct rq; unfold handle_with, run_with.
  - unfold create_team. destruct fault as [n|]; exec; auto.
  - unfold update_team. destruct fault as [n|]; exec; auto.
  - unfold delete_team. destruct fault as [n|]; exec; auto.
    all: intros Hin _; apply filter_In in Hin; tauto.
  - unfold add_team_member. destruct fault as [n|]; exec; auto.
  - unfold remove_team_member. destruct fault as [n|]; exec; auto.
  - unfold create_invitation. destruct fault as [n|]; exec; auto.
    all: intros Hin _; apply in_app_or in Hin as [Hin|[<-|[]]]; [now left|right].
    all: intros r Hr; cbn [Invitation.id];
      pose proof (next_id_above (map Invitation.id (invitations d)) (Invitation.id r)
                    (in_map _ _ _ Hr)); lia.
  - unfold resend_otp. destruct fault as [n|]; exec; auto.
  - unfold verify_otp. destruct fault as [n|]; exec; auto.
  - unfold join_team_via_invitation. destruct fault as [n|]; exec; auto.
    all: intros Hin Hu; apply in_update_row in Hin as [r [Hr [->| ->]]]; [now left|].
    all: destruct r; cbn in Hu; discriminate.
Qed.

(** C2: on a used invitation every join on its token is refused with
    "already been used" and creates no member; no request sets [is_used]
    back to false: an invitation that is unused after a request was stored
    unused before it or is a new row; so after any further requests the
    used row is still stored and still refuses the join, unless a request
    deleted its team and the row with it. *)
Theorem C2_used_invitation_is_terminal (t : datetime) (d : DB) :
  reachable t d ->
  (forall invitation join_data utcnow,
     In invitation (invitations d) ->
     Invitation.is_used invitation = true ->
     run (join_team_via_invitation (Invitation.token invitation) join_data utcnow) d
     = (Raised (HTTPException 400 "This invitation has already been used"), d))
  /\ (forall fault utcnow rq invitation,
        In invitation (invitations (handle_with fault utcnow rq d)) ->
        Invitation.is_used invitation = false ->
        In invitation (invitations d)
        \/ forall r, In r (invitations d) -> Invitation.id r <> Invitation.id invitation)
  /\ (forall invitation rqs,
        In invitation (invitations d) ->
        Invitation.is_used invitation = true ->
        chronological t rqs = true ->
        (In invitation (invitations (serve rqs d))
         /\ forall join_data utcnow,
              run (join_team_via_invitation (Invitation.token invitation) join_data utcnow)
                (serve rqs d)
              = (Raised (HTTPException 400 "This invitation has already been used"),
                 serve rqs d))
        \/ exists t', In (t', DeleteTeam (Invitation.team_id invitation)) rqs).
Proof.
  intro Hr. split; [|split].
  - intros invitation join_data utcnow Hin Hu.
    apply join_used; [|assumption|assumption]. eapply reachable_wf. eassumption.
  - intros fault utcnow rq invitation. apply unused_invitation_step.
  - intros invitation rqs Hin Hu Hc.
    destruct (used_invitation_serve rqs d invitation Hin Hu) as [Hin'|Hdel];
      [left|now right].
    split; [assumption|]. intros join_data utcnow.
    apply join_used; [|assumption|assumption].
    eapply reachable_wf. apply reachable_serve; eassumption.
Qed.

(** ** Expired invitations *)

(** C6: an invitation past its [expires_at] is refused by the join and by the
    OTP resend, used or not, and neither commits anything: no member, no new
    OTP. *)
Theorem C6_expired_invitation_rejected (t : datetime) (d : DB) (invitation : Invitation.t)
    (utcnow : datetime) :
  reachable t d ->
  In invitation (invitations d) ->
  utcnow > Invitation.expires_at invitation ->
  (forall join_data,
     run (join_team_via_invitation (Invitation.token invitation) join_data utcnow) d
     = (Raised (HTTPException 400
                  (if Invitation.is_used invitation
                   then "This invitation has already been used"
                   else "This invitation has expired")), d))
  /\ (forall utcnow_otp otp_code,
        run (resend_otp (Invitation.token invitation) utcnow utcnow_otp otp_code) d
        = (Raised (HTTPException 400
                     (if negb (truthy (Invitation.phone invitation))
                      then "This invitation does not have a phone number"
                      else if Invitation.is_used invitation
                      then "This invitation has already been used"
                      else "This invitation has expired")), d)).
Proof.
  intros Hr Hin Hexp. apply reachable_wf in Hr.
  pose proof (find_invitation_wf d invitation Hr Hin) as Hf.
  assert (is_expired utcnow (Invitation.expires_at invitation) = true) as He.
  { unfold is_expired. apply Z.gtb_lt. lia. }
  split.
  - intro join_data. unfold run, run_with, join_team_via_invitation. to_access.
    rewrite bind_access. cbn [fst snd]. rewrite Hf.
    destruct (Invitation.is_used invitation); [reflexivity|]. rewrite He. reflexivity.
  - intros utcnow_otp otp_code. unfold run, run_with, resend_otp. to_access.
    rewrite bind_access. cbn [fst snd]. rewrite Hf.
    destruct (Invitation.phone invitation) as [[|c p]|]; try reflexivity. cbn [truthy negb].
    destruct (Invitation.is_used invitation); [reflexivity|]. rewrite He. reflexivity.
Qed.

(** ** OTP verification *)

Lemma constraints_ok_otps (d : DB) (rows : list OTP.t) :
  constraints_ok (mkDB (teams d) (members d) (invitations d) rows) = constraints_ok d.
Proof. reflexivity. Qed.

Lemma verified_after_update (token : str) (otp_record : OTP.t) (rows : list OTP.t) :
  In otp_record rows -> OTP.invitation_token otp_record = token ->
  existsb (fun r => str_eqb (OTP.invitation_token r) token && OTP.is_verified r)
    (update_row OTP.id otp_record (OTP.set_is_verified true) rows) = true
  /\ (forall r, In r (update_row OTP.id otp_record (OTP.set_is_verified true) rows) ->
        OTP.id r = OTP.id otp_record -> OTP.is_verified r = true).
Proof.
  intros Hin Ht. split.
  - apply existsb_exists. exists (OTP.set_is_verified true otp_record). split.
    + unfold update_row. apply in_map_iff. exists otp_record. now rewrite Z.eqb_refl.
    + destruct otp_record. cbn in *. subst. now rewrite str_eqb_refl.
  - intros r Hr Hid. unfold update_row in Hr. apply in_map_iff in Hr as [r0 [<- Hr0]].
    destruct (OTP.id r0 =? OTP.id otp_record) eqn:E; [now destruct r0|].
    apply Z.eqb_neq in E. contradiction.
Qed.

(** C5: verify-OTP succeeds only on a stored OTP row with the submitted
    token and code that is unverified and unexpired, and then the row with
    its key is stored with [is_verified] true, so that the token has a
    verified row; with no matching unverified row it answers "Invalid OTP
    code"; it never touches the invitations. *)
Theorem C5_verify_otp (d : DB) (otp_data : OTPVerify.t) (utcnow : datetime) :
  (forall r d',
     run (verify_otp otp_data utcnow) d = (Return r, d') ->
     exists otp_record,
       In otp_record (otps d)
       /\ OTP.invitation_token otp_record = OTPVerify.invitation_token otp_data
       /\ OTP.otp_code otp_record = OTPVerify.otp_code otp_data
       /\ OTP.is_verified otp_record = false
       /\ is_expired utcnow (OTP.expires_at otp_record) = false
       /\ d' = mkDB (teams d) (members d) (invitations d)
                 (update_row OTP.id otp_record (OTP.set_is_verified true) (otps d))
       /\ otp_verified d' (OTPVerify.invitation_token otp_data) = true
       /\ (forall row, In row (otps d') -> OTP.id row = OTP.id otp_record ->
                       OTP.is_verified row = true))
  /\ ((forall otp_record,
         In otp_record (otps d) ->
         OTP.invitation_token otp_record = OTPVerify.invitation_token otp_data ->
         OTP.otp_code otp_record = OTPVerify.otp_code otp_data ->
         OTP.is_verified otp_record = true) ->
      run (verify_otp otp_data utcnow) d
      = (Raised (HTTPException 400 "Invalid OTP code"), d))
  /\ invitations (snd (run (verify_otp otp_data utcnow) d)) = invitations d
  /\ (forall otp_record,
        constraints_ok d = true ->
        find (fun r => str_eqb (OTP.invitation_token r) (OTPVerify.invitation_token otp_data)
                       && str_eqb (OTP.otp_code r) (OTPVerify.otp_code otp_data)
                       && negb (OTP.is_verified r)) (otps d) = Some otp_record ->
        is_expired utcnow (OTP.expires_at otp_record) = false ->
        run (verify_otp otp_data utcnow) d
        = (Return ("OTP verified successfully"%string, true),
           mkDB (teams d) (members d) (invitations d)
             (update_row OTP.id otp_record (OTP.set_is_verified true) (otps d)))
        /\ otp_verified (snd (run (verify_otp otp_data utcnow) d))
             (OTPVerify.invitation_token otp_data) = true).
Proof.
  split; [|split; [|split]].
  - intros r d'. unfold run, run_with, verify_otp. exec; try discriminate.
    intro H. injection H as _ <-. exists t. apply find_some in E as [Hin Hp].
    apply andb_true_iff in Hp as [Hp Hv]. apply andb_true_iff in Hp as [Ht Hc].
    apply str_eqb_eq in Ht, Hc. apply negb_true_iff in Hv.
    destruct (verified_after_update _ t (otps d) Hin Ht) as [V1 V2].
    unfold otp_verified. cbn [otps]. auto 10.
  - intro Hall. unfold run, run_with, verify_otp. exec; try reflexivity.
    all: exfalso; apply find_some in E as [Hin Hp];
      apply andb_true_iff in Hp as [Hp Hv]; apply andb_true_iff in Hp as [Ht Hc];
      apply str_eqb_eq in Ht, Hc; apply negb_true_iff in Hv;
      rewrite (Hall _ Hin Ht Hc) in Hv; discriminate.
  - unfold run, run_with, verify_otp. exec; reflexivity.
  - intros o Hk Hf He.
    assert (run (verify_otp otp_data utcnow) d
            = (Return ("OTP verified successfully"%string, true),
               mkDB (teams d) (members d) (invitations d)
                 (update_row OTP.id o (OTP.set_is_verified true) (otps d)))) as Hrun.
    { unfold run, run_with, verify_otp. to_access.
      rewrite bind_access. cbn [fst snd]. rewrite Hf, He.
      repeat exec_step. rewrite constraints_ok_otps, Hk. reflexivity. }
    split; [exact Hrun|]. rewrite Hrun. cbn [snd]. unfold otp_verified. cbn [otps].
    apply find_some in Hf as [Hin Hp].
    apply andb_true_iff in Hp as [Hp _]. apply andb_true_iff in Hp as [Ht _].
    apply str_eqb_eq in Ht. exact (proj1 (verified_after_update _ o (otps d) Hin Ht)).
Qed.

(** ** The OTP gate of the join *)

Lemma join_unused_unexpired (d : DB) (i : Invitation.t) (join_data : JoinTeamRequest.t)
    (utcnow : datetime) :
  wf d -> In i (invitations d) ->
  Invitation.is_used i = false ->
  is_expired utcnow (Invitation.expires_at i) = false ->
  run (join_team_via_invitation (Invitation.token i) join_data utcnow) d
  = if phone_set (Invitation.phone i) && negb (otp_verified d (Invitation.token i))
    then (Raised (HTTPException 400
            "OTP verification required. Please verify your phone number first."), d)
    else seat_member d i join_data.
Proof.
  intros Hwf Hin Hu He. rewrite (join_precedence_wf _ _ _ _ Hwf).
  unfold join_by_precedence, first_failure, seat_member.
  rewrite (find_invitation_wf d i Hwf Hin), Hu, He. cbn [find fst].
  destruct (phone_set (Invitation.phone i) && negb (otp_verified d (Invitation.token i)));
    [reflexivity|].
  destruct (Z.of_nat (member_count d (Invitation.team_id i))
            >=? team_max_members d (Invitation.team_id i)); reflexivity.
Qed.

(** C4 (amended): an unused, unexpired invitation with a phone is refused by
    "OTP verification required" unless an OTP row of its token is verified,
    and without such a row no invitation with a phone is joined at all (a
    used or expired one is refused as such first); a verified row lets the
    join through whatever its own [expires_at]; without a phone the outcome
    of the join does not depend on the OTP table. *)
Theorem C4_join_otp_gate (t : datetime) (d : DB) (invitation : Invitation.t)
    (join_data : JoinTeamRequest.t) (utcnow : datetime) :
  reachable t d ->
  In invitation (invitations d) ->
  (phone_set (Invitation.phone invitation) = true ->
   otp_verified d (Invitation.token invitation) = false ->
   (exists e,
      run (join_team_via_invitation (Invitation.token invitation) join_data utcnow) d
      = (Raised e, d))
   /\ (Invitation.is_used invitation = false ->
       is_expired utcnow (Invitation.expires_at invitation) = false ->
       run (join_team_via_invitation (Invitation.token invitation) join_data utcnow) d
       = (Raised (HTTPException 400
            "OTP verification required. Please verify your phone number first."), d)))
  /\ (forall otp_record,
        phone_set (Invitation.phone invitation) = true ->
        In otp_record (otps d) ->
        OTP.invitation_token otp_record = Invitation.token invitation ->
        OTP.is_verified otp_record = true ->
        Invitation.is_used invitation = false ->
        is_expired utcnow (Invitation.expires_at invitation) = false ->
        run (join_team_via_invitation (Invitation.token invitation) join_data utcnow) d
        = seat_member d invitation join_data)
  /\ (forall rows,
        Invitation.phone invitation = None ->
        fst (run (join_team_via_invitation (Invitation.token invitation) join_data utcnow)
               (with_otps d rows))
        = fst (run (join_team_via_invitation (Invitation.token invitation) join_data utcnow)
                 d)
        /\ snd (run (join_team_via_invitation (Invitation.token invitation) join_data
                       utcnow) (with_otps d rows))
           = with_otps
               (snd (run (join_team_via_invitation (Invitation.token invitation) join_data
                            utcnow) d)) rows).
Proof.
  intros Hr Hin. apply reachable_wf in Hr.
  split; [intros Hp Hv; split | split].
  - rewrite (join_precedence_wf _ _ _ _ Hr).
    unfold join_by_precedence, first_failure.
    rewrite (find_invitation_wf d invitation Hr Hin), Hp, Hv. cbn [find fst negb andb].
    destruct (Invitation.is_used invitation); [eexists; reflexivity|].
    destruct (is_expired utcnow (Invitation.expires_at invitation)); eexists; reflexivity.
  - intros Hu He. rewrite (join_unused_unexpired d invitation join_data utcnow Hr Hin Hu He).
    rewrite Hp, Hv. reflexivity.
  - intros o Hp Ho Ht Hv Hu He.
    rewrite (join_unused_unexpired d invitation join_data utcnow Hr Hin Hu He).
    assert (otp_verified d (Invitation.token invitation) = true) as ->.
    { unfold otp_verified. apply existsb_exists. exists o. split; [assumption|].
      rewrite Ht, str_eqb_refl, Hv. reflexivity. }
    rewrite andb_false_r. reflexivity.
  - intros rows Hp.
    rewrite (join_precedence_wf _ _ _ _ (wf_with_otps d rows Hr)).
    rewrite (join_precedence_wf _ _ _ _ Hr).
    unfold join_by_precedence, first_failure. cbn [invitations with_otps].
    rewrite (find_invitation_wf d invitation Hr Hin), Hp. cbn [phone_set not_none andb].
    change (member_count (with_otps d rows)) with (member_count d).
    change (team_max_members (with_otps d rows)) with (team_max_members d).
    destruct (find fst _) as [[c e]|]; split; reflexivity.
Qed.

(** ** The phone of a new member *)

(** C9: a member created by the direct member-add has no phone, whatever
    phone the request body carries, while a member created by a join carries
    the phone of the invitation: a join that passes its checks stores a
    member whose phone is the phone of the invitation. *)
Theorem C9_member_add_drops_phone (d : DB) :
  (forall team_id member m d',
     run (add_team_member team_id member) d = (Return m, d') ->
     Member.phone m = None
     /\ d' = mkDB (teams d) (members d ++ [m]) (invitations d) (otps d)
     /\ Member.name m = MemberCreate.name member
     /\ Member.email m = MemberCreate.email member
     /\ Member.role m = MemberCreate.role member)
  /\ (forall token join_data utcnow m d',
        run (join_team_via_invitation token join_data utcnow) d = (Return m, d') ->
        exists invitation,
          find (fun r => str_eqb (Invitation.token r) token) (invitations d) = Some invitation
          /\ Member.phone m = Invitation.phone invitation
          /\ d' = joined d invitation m)
  /\ (forall token join_data utcnow invitation team,
        constraints_ok d = true ->
        find (fun r => str_eqb (Invitation.token r) token) (invitations d) = Some invitation ->
        Invitation.is_used invitation = false ->
        is_expired utcnow (Invitation.expires_at invitation) = false ->
        truthy (Invitation.phone invitation) = false \/ otp_verified d token = true ->
        find (fun r => Team.id r =? Invitation.team_id invitation) (teams d) = Some team ->
        Z.of_nat (member_count d (Invitation.team_id invitation)) < Team.max_members team ->
        exists m d',
          run (join_team_via_invitation token join_data utcnow) d = (Return m, d')
          /\ Member.phone m = Invitation.phone invitation
          /\ Member.email m = Invitation.email invitation
          /\ Member.name m = JoinTeamRequest.name join_data
          /\ members d' = members d ++ [m]).
Proof.
  split; [|split].
  - intros team_id member m d'. unfold run, run_with, add_team_member.
    exec; try discriminate. intro H. injection H as <- <-. auto.
  - intros token join_data utcnow m d'. unfold run, run_with, join_team_via_invitation.
    exec; try discriminate; intro H; injection H as <- <-; exists t; auto.
  - intros token join_data utcnow i team Hk Hi Hu He Hotp Ht Hroom.
    eexists. eexists. split.
    + unfold run, run_with, join_team_via_invitation. to_access.
      rewrite bind_access. cbn [fst snd]. rewrite Hi, Hu, He.
      assert ((Z.of_nat (member_count d (Invitation.team_id i)) >=? Team.max_members team)
              = false) as Hge by (rewrite Z.geb_leb; now apply Z.leb_gt).
      destruct (truthy (Invitation.phone i)) eqn:Etr.
      * destruct Hotp as [C|Hv]; [discriminate|].
        rewrite bind_assoc, bind_access. cbn [fst snd]. unfold otp_verified in Hv.
        rewrite not_none_find, Hv. cbv iota. rewrite bind_ret.
        rewrite bind_access. cbn [fst snd]. rewrite bind_access. cbn [fst snd].
        rewrite Ht. fold (member_count d (Invitation.team_id i)).
        rewrite Hge.
        rewrite bind_access. cbn [fst snd]. rewrite bind_access. cbn [fst snd].
        rewrite bind_commit.
        match goal with
        | |- context [constraints_ok ?x] =>
            assert (constraints_ok x = true) as ->
              by (transitivity (constraints_ok d);
                  [apply (constraints_ok_joined d i) | exact Hk])
        end.
        rewrite bind_refresh. reflexivity.
      * rewrite bind_ret.
        rewrite bind_access. cbn [fst snd]. rewrite bind_access. cbn [fst snd].
        rewrite Ht. fold (member_count d (Invitation.team_id i)).
        rewrite Hge.
        rewrite bind_access. cbn [fst snd]. rewrite bind_access. cbn [fst snd].
        rewrite bind_commit.
        match goal with
        | |- context [constraints_ok ?x] =>
            assert (constraints_ok x = true) as ->
              by (transitivity (constraints_ok d);
                  [apply (constraints_ok_joined d i) | exact Hk])
        end.
      rewrite bind_refresh. reflexivity.
    + cbn [Member.phone Member.email Member.name members]. auto.
Qed.

(** ** The join commits once *)

(** C8: on a join the new member and the consumed invitation go into one
    transaction and one COMMIT, so that they are stored together or not at
    all.  Whatever step the database fails at, the join leaves the connection
    in one of three states: nothing stored and nothing pending, with no
    member returned; both changes stored, the member row added and the
    invitation row read back with [is_used] set; or, when the COMMIT itself
    is refused, nothing stored and both changes pending in the transaction
    that stays open on the connection.  A failure before the commit always
    leaves the first state.  For a join that passes its checks the step of
    the failure decides: before the COMMIT nothing is stored or pending, at
    the COMMIT both changes are pending, after it both are stored.  The
    request that comes next on a connection with the pending transaction
    stores nothing of it, or stores what it stores on the database that holds
    both changes. *)
Theorem C8_join_commit_is_atomic (d : DB) (token : str)
    (join_data : JoinTeamRequest.t) (utcnow : datetime) :
  (forall fault r c',
     run_on fault (join_team_via_invitation token join_data utcnow) (clean d) = (r, c') ->
     (c' = clean d /\ forall m, r <> Return m)
     \/ exists invitation m d',
          find (fun r => str_eqb (Invitation.token r) token) (invitations d)
            = Some invitation
          /\ Invitation.is_used invitation = false
          /\ teams d' = teams d
          /\ members d' = members d ++ [m]
          /\ (exists row, In row (invitations d')
                          /\ Invitation.id row = Invitation.id invitation
                          /\ Invitation.token row = token
                          /\ Invitation.is_used row = true)
          /\ (forall row, In row (invitations d') ->
                Invitation.id row = Invitation.id invitation ->
                Invitation.is_used row = true)
          /\ otps d' = otps d
          /\ ((c' = clean d' /\ (r = Return m \/ r = Raised OperationalError))
              \/ (c' = mkConnection d d' /\ r = Raised OperationalError)))
  /\ (forall n, (n < 5)%nat ->
        snd (run_on (Some n) (join_team_via_invitation token join_data utcnow) (clean d))
        = clean d)
  /\ (forall invitation team,
        constraints_ok d = true ->
        find (fun r => str_eqb (Invitation.token r) token) (invitations d) = Some invitation ->
        Invitation.is_used invitation = false ->
        is_expired utcnow (Invitation.expires_at invitation) = false ->
        truthy (Invitation.phone invitation) = false \/ otp_verified d token = true ->
        find (fun r => Team.id r =? Invitation.team_id invitation) (teams d) = Some team ->
        Z.of_nat (member_count d (Invitation.team_id invitation)) < Team.max_members team ->
        let m :=
          Member.mk (next_id (map Member.id (members d))) (Invitation.team_id invitation)
            (JoinTeamRequest.name join_data) (Invitation.email invitation)
            (Invitation.phone invitation) (JoinTeamRequest.role join_data) in
        let d' := joined d invitation m in
        let commit_step := if truthy (Invitation.phone invitation) then 6%nat else 5%nat in
        run_on None (join_team_via_invitation token join_data utcnow) (clean d)
        = (Return m, clean d')
        /\ (forall n,
              run_on (Some n) (join_team_via_invitation token join_data utcnow) (clean d)
              = if (n <? commit_step)%nat then (Raised OperationalError, clean d)
                else if (n =? commit_step)%nat
                then (Raised OperationalError, mkConnection d d')
                else if (n =? S commit_step)%nat then (Raised OperationalError, clean d')
                else (Return m, clean d'))
        /\ In m (members d')
        /\ (exists row, In row (invitations d')
                        /\ Invitation.token row = token
                        /\ Invitation.is_used row = true))
  /\ (forall invitation m fault utcnow' rq,
        let d' := joined d invitation m in
        let c' := handle_on fault utcnow' rq (mkConnection d d') in
        database c' = d \/ database c' = handle_with fault utcnow' rq d').
Proof.
  split; [|split; [|split]].
  - intros fault r c'. unfold run_on, clean, join_team_via_invitation.
    cbn [database open_txn]. destruct fault as [n|]; exec.
    all: intro H; injection H as <- <-.
    all: try (left; split; [reflexivity | discriminate]).
    all: match goal with
         | E : find _ (invitations ?x) = Some ?i |- context [members ?x ++ [?m]] =>
             right; exists i, m, (joined x i m);
             destruct (find_invitation_in _ _ _ E) as [Hin Htok];
             destruct (joined_consumes x i m Hin) as [(row & R1 & R2 & R3 & R4) Hall];
             split; [reflexivity|]; split; [assumption|]; split; [reflexivity|];
             split; [reflexivity|];
             split; [exists row; rewrite <- Htok; auto|]; split; [exact Hall|];
             split; [reflexivity|];
             first [ left; split; [reflexivity | auto; fail]
                   | right; split; reflexivity ]
         end.
  - intros n Hn. unfold run_on, clean, join_team_via_invitation. cbn [database open_txn].
    do 5 (destruct n as [|n]; [exec; reflexivity|]). lia.
  - intros i team Hk Hi Hu He Hotp Ht Hroom m d' commit_step.
    assert ((Z.of_nat (List.length (filter (fun r => Member.team_id r =? Invitation.team_id i)
                                      (members d))) >=? Team.max_members team)
            = false) as Hge by (rewrite Z.geb_leb; now apply Z.leb_gt).
    assert (constraints_ok d' = true) as Hk'.
    { subst d'. now rewrite constraints_ok_joined. }
    destruct (find_invitation_in _ _ _ Hi) as [Hin Htok].
    split; [|split; [|split]].
    + unfold run_on, clean, join_team_via_invitation. cbn [database open_txn]. to_access.
      rewrite bind_access. cbn [fst snd]. rewrite Hi, Hu, He.
      destruct (truthy (Invitation.phone i)) eqn:Etr.
      * destruct Hotp as [C|Hv]; [discriminate|].
        rewrite bind_assoc, bind_access. cbn [fst snd]. unfold otp_verified in Hv.
        rewrite not_none_find, Hv. cbv iota. rewrite bind_ret.
        rewrite bind_access. cbn [fst snd]. rewrite bind_access. cbn [fst snd].
        rewrite Ht, Hge.
        rewrite bind_access. cbn [fst snd]. rewrite bind_access. cbn [fst snd].
        rewrite bind_commit. match goal with |- context [constraints_ok ?x] => assert (constraints_ok x = true) as -> by exact Hk' end.
        rewrite bind_refresh. reflexivity.
      * rewrite bind_ret.
        rewrite bind_access. cbn [fst snd]. rewrite bind_access. cbn [fst snd].
        rewrite Ht, Hge.
        rewrite bind_access. cbn [fst snd]. rewrite bind_access. cbn [fst snd].
        rewrite bind_commit. match goal with |- context [constraints_ok ?x] => assert (constraints_ok x = true) as -> by exact Hk' end.
        rewrite bind_refresh. reflexivity.
    + intro n. unfold run_on, clean, join_team_via_invitation. cbn [database open_txn].
      to_access. subst commit_step.
      destruct (truthy (Invitation.phone i)) eqn:Etr.
      * destruct Hotp as [C|Hv]; [discriminate|]. unfold otp_verified in Hv.
        do 8 (destruct n as [|n];
              [ repeat first
                  [ rewrite bind_access_fault0
                  | rewrite bind_commit_fault0
                  | rewrite bind_refresh_fault0
                  | rewrite bind_assoc
                  | rewrite bind_ret
                  | rewrite bind_refresh_faultS
                  | rewrite bind_commit_faultS; match goal with |- context [constraints_ok ?x] => assert (constraints_ok x = true) as -> by exact Hk' end
                  | rewrite bind_access_faultS; cbn [fst snd];
                    rewrite ?Hi, ?Hu, ?He, ?Etr, ?not_none_find, ?Hv, ?Ht, ?Hge; cbv iota ];
                try (match goal with |- context [constraints_ok ?x] => assert (constraints_ok x = true) as -> by exact Hk' end);
                reflexivity | ]).
        repeat first
          [ rewrite bind_assoc
          | rewrite bind_ret
          | rewrite bind_refresh_faultS
          | rewrite bind_commit_faultS; match goal with |- context [constraints_ok ?x] => assert (constraints_ok x = true) as -> by exact Hk' end
          | rewrite bind_access_faultS; cbn [fst snd];
            rewrite ?Hi, ?Hu, ?He, ?Etr, ?not_none_find, ?Hv, ?Ht, ?Hge; cbv iota ].
        reflexivity.
      * do 7 (destruct n as [|n];
              [ repeat first
                  [ rewrite bind_access_fault0
                  | rewrite bind_commit_fault0
                  | rewrite bind_refresh_fault0
                  | rewrite bind_assoc
                  | rewrite bind_ret
                  | rewrite bind_refresh_faultS
                  | rewrite bind_commit_faultS; match goal with |- context [constraints_ok ?x] => assert (constraints_ok x = true) as -> by exact Hk' end
                  | rewrite bind_access_faultS; cbn [fst snd];
                    rewrite ?Hi, ?Hu, ?He, ?Etr, ?Ht, ?Hge; cbv iota ];
                try (match goal with |- context [constraints_ok ?x] => assert (constraints_ok x = true) as -> by exact Hk' end);
                reflexivity | ]).
        repeat first
          [ rewrite bind_assoc
          | rewrite bind_ret
          | rewrite bind_refresh_faultS
          | rewrite bind_commit_faultS; match goal with |- context [constraints_ok ?x] => assert (constraints_ok x = true) as -> by exact Hk' end
          | rewrite bind_access_faultS; cbn [fst snd];
            rewrite ?Hi, ?Hu, ?He, ?Etr, ?Ht, ?Hge; cbv iota ].
        reflexivity.
    + subst d'. unfold joined. cbn [members]. apply in_or_app. right. now left.
    + destruct (joined_consumes d i m Hin) as [(row & R1 & R2 & R3 & R4) _].
      exists row. rewrite <- Htok. auto.
  - intros invitation m fault utcnow' rq d' c'.
    destruct (handle_on_open fault utcnow' rq d d') as [H|[H _]].
    + right. subst c'. rewrite H. apply handle_on_clean.
    + left. exact H.
Qed.

(** ** Team capacity *)

Lemma member_count_app (d : DB) (row : Member.t) (team_id : Z) (ivs : list Invitation.t)
    (os : list OTP.t) :
  member_count (mkDB (teams d) (members d ++ [row]) ivs os) team_id
  = (member_count d team_id + (if (Member.team_id row =? team_id)%Z then 1 else 0))%nat.
Proof.
  unfold member_count; cbn [members]. rewrite filter_app, length_app. cbn [filter].
  destruct (Member.team_id row =? team_id); reflexivity.
Qed.

Lemma filter_filter_length_le {A} (p q : A -> bool) (l : list A) :
  (List.length (filter p (filter q l)) <= List.length (filter p l))%nat.
Proof.
  induction l as [|x l IH]; simpl; [lia|].
  destruct (q x), (p x) eqn:E; simpl; rewrite ?E; simpl; lia.
Qed.

Lemma filter_filter_implied {A} (p q : A -> bool) (l : list A) :
  (forall x, In x l -> p x = true -> q x = true) ->
  filter p (filter q l) = filter p l.
Proof.
  induction l as [|x l IH]; simpl; [reflexivity|]. intro H.
  rewrite <- IH by (intros; apply H; auto).
  destruct (p x) eqn:Ep.
  - rewrite (H x (or_introl eq_refl) Ep). simpl. now rewrite Ep.
  - destruct (q x); simpl; [now rewrite Ep | reflexivity].
Qed.

Lemma find_team_unique (d : DB) (team_id : Z) (db_team t : Team.t) :
  NoDup (map Team.id (teams d)) ->
  find (fun r => Team.id r =? team_id) (teams d) = Some db_team ->
  In t (teams d) -> Team.id t = team_id -> t = db_team.
Proof.
  induction (teams d) as [|x l IH]; simpl; [tauto|].
  intros Hnd Hf Hin Hid. inversion Hnd as [|? ? Hx Hl]; subst.
  destruct (Team.id x =? Team.id t) eqn:E.
  - injection Hf as <-. destruct Hin as [->|Hin]; [reflexivity|].
    exfalso. apply Hx. apply Z.eqb_eq in E. rewrite E. now apply in_map.
  - destruct Hin as [->|Hin]; [rewrite Z.eqb_refl in E; discriminate|]. auto.
Qed.

Lemma member_count_fresh_team (d : DB) :
  wf d -> member_count d (next_id (map Team.id (teams d))) = 0%nat.
Proof.
  intros [_ _ _ Hm _]. unfold member_count.
  destruct (filter _ (members d)) as [|m l] eqn:E; [reflexivity|exfalso].
  assert (In m (filter (fun r => Member.team_id r =? next_id (map Team.id (teams d)))
                 (members d))) as Hin by (rewrite E; now left).
  apply filter_In in Hin as [Hin Hid]. apply Z.eqb_eq in Hid.
  destruct (Hm m Hin) as [t [Ht Et]].
  pose proof (next_id_above (map Team.id (teams d)) (Team.id t) (in_map _ _ _ Ht)). lia.
Qed.

Lemma change_capacity (utcnow : datetime) (w : option (Z * Z)) (d d' : DB) :
  change utcnow w d d' -> wf d -> capacity_ok d ->
  (forall team_id max_members,
     w = Some (team_id, max_members) -> Z.of_nat (member_count d team_id) <= max_members) ->
  capacity_ok d'.
Proof.
  intros Hc Hwf Hcap Hw. pose proof Hwf as [_ Hkeys _ Hm _].
  destruct Hc; unfold capacity_ok in *; cbn [teams]; intros t Hin.
  - (* create_team *)
    apply in_app_or in Hin as [Hin|[<-|[]]].
    + apply (Hcap t Hin).
    + change (member_count _ (Team.id row)) with (member_count d (Team.id row)).
      rewrite H, (member_count_fresh_team d Hwf).
      unfold max_members_ok in H0. apply andb_true_iff in H0 as [H0 _].
      apply Z.leb_le in H0. lia.
  - (* update_team *)
    change (member_count _ (Team.id t)) with (member_count d (Team.id t)).
    unfold update_row in Hin. apply in_map_iff in Hin as [r [<- Hr]].
    destruct (Team.id r =? Team.id db_team) eqn:E; [|apply (Hcap r Hr)].
    rewrite H. destruct (H0 r) as [->|Hwr]; [apply (Hcap r Hr)|].
    apply Z.eqb_eq in E. rewrite E. apply Hw. assumption.
  - (* delete_team *)
    apply filter_In in Hin as [Hin Hne]. apply negb_true_iff, Z.eqb_neq in Hne.
    unfold member_count; cbn [members]. rewrite filter_filter_implied.
    + apply (Hcap t Hin).
    + intros m _ Em. apply Z.eqb_eq in Em. apply negb_true_iff, Z.eqb_neq. congruence.
  - (* add_member *)
    rewrite member_count_app. destruct (Member.team_id row =? Team.id t) eqn:E.
    + apply Z.eqb_eq in E.
      pose proof (find_team_unique d _ db_team t Hkeys H Hin (eq_sym E)) as ->.
      rewrite <- E. lia.
    + specialize (Hcap t Hin). lia.
  - (* remove_member *)
    unfold member_count; cbn [members]. specialize (Hcap t Hin). unfold member_count in Hcap.
    pose proof (filter_filter_length_le (fun r => Member.team_id r =? Team.id t)
                  (fun r => negb (Member.id r =? member_id)) (members d)). lia.
  - apply (Hcap t Hin).
  - apply (Hcap t Hin).
  - (* join *)
    rewrite member_count_app. destruct (Member.team_id row =? Team.id t) eqn:E.
    + apply Z.eqb_eq in E.
      pose proof (find_team_unique d _ db_team t Hkeys H Hin (eq_sym E)) as ->.
      rewrite <- E. lia.
    + specialize (Hcap t Hin). lia.
Qed.

Lemma handle_capacity (fault : option nat) (utcnow : datetime) (rq : Request) (d : DB) :
  wf d -> validated rq = true -> lowers_below_count rq d = false ->
  capacity_ok d -> capacity_ok (handle_with fault utcnow rq d).
Proof.
  intros Hwf V Hl Hcap.
  assert (forall team_id max_members,
            written_max rq = Some (team_id, max_members) ->
            Z.of_nat (member_count d team_id) <= max_members) as Hw.
  { intros team_id m E. unfold lowers_below_count in Hl. rewrite E in Hl.
    apply Z.ltb_ge in Hl. exact Hl. }
  destruct (handle_changes fault utcnow rq d V) as [|d1 Hc Hk|d1 rows Hc Hk];
    [assumption| |].
  - eapply change_capacity; eassumption.
  - assert (capacity_ok d1) as H1 by (eapply change_capacity; eassumption). exact H1.
Qed.

Lemma serve_capacity (rqs : list (datetime * Request)) (t : datetime) (d : DB) :
  reachable t d -> chronological t rqs = true -> never_lowers rqs d = true ->
  capacity_ok d -> capacity_ok (serve rqs d).
Proof.
  revert t d. induction rqs as [|[t' rq] rest IH]; intros t d Hr Hc Hn Hcap; simpl;
    [assumption|].
  simpl in Hc, Hn. apply andb_true_iff in Hc as [Hc Hrest]. apply andb_true_iff in Hc as [Ht V].
  apply andb_true_iff in Hn as [Hl Hn]. apply negb_true_iff in Hl.
  apply (IH t'); [|assumption|assumption|].
  - apply (reachable_step t t' None); [assumption | lia | assumption].
  - apply (handle_capacity None); try assumption. eapply reachable_wf; eassumption.
Qed.

(** C1 (amended): a member-add or a join that succeeds adds exactly one
    member to a team whose count was below [max_members], so the count
    stays within it; on a team at or above [max_members] the member-add
    answers "Team is full" and the join is refused, by "Team is full" once
    the invitation has passed the used, expiry and OTP checks; and the
    bound [member count <= max_members] is kept by every run in which no
    team update sets [max_members] below the member count. *)
Theorem C1_capacity_on_add_and_join (t : datetime) (d : DB) :
  reachable t d ->
  (forall team_id member team,
     find (fun r => Team.id r =? team_id) (teams d) = Some team ->
     Z.of_nat (member_count d team_id) >= Team.max_members team ->
     run (add_team_member team_id member) d
     = (Raised (team_is_full (Team.max_members team)), d))
  /\ (forall team_id member m d',
        run (add_team_member team_id member) d = (Return m, d') ->
        d' = mkDB (teams d) (members d ++ [m]) (invitations d) (otps d)
        /\ Member.team_id m = team_id
        /\ member_count d' team_id = S (member_count d team_id)
        /\ Z.of_nat (member_count d' team_id) <= team_max_members d' team_id)
  /\ (forall token join_data utcnow invitation team,
        find (fun r => str_eqb (Invitation.token r) token) (invitations d)
          = Some invitation ->
        find (fun r => Team.id r =? Invitation.team_id invitation) (teams d) = Some team ->
        Z.of_nat (member_count d (Invitation.team_id invitation)) >= Team.max_members team ->
        (exists e,
           run (join_team_via_invitation token join_data utcnow) d = (Raised e, d))
        /\ (Invitation.is_used invitation = false ->
            is_expired utcnow (Invitation.expires_at invitation) = false ->
            Invitation.phone invitation = None \/ otp_verified d token = true ->
            run (join_team_via_invitation token join_data utcnow) d
            = (Raised (team_is_full (Team.max_members team)), d)))
  /\ (forall token join_data utcnow m d',
        run (join_team_via_invitation token join_data utcnow) d = (Return m, d') ->
        exists invitation,
          d' = joined d invitation m
          /\ Member.team_id m = Invitation.team_id invitation
          /\ member_count d' (Member.team_id m) = S (member_count d (Member.team_id m))
          /\ Z.of_nat (member_count d' (Member.team_id m))
             <= team_max_members d' (Member.team_id m))
  /\ (forall rqs,
        chronological t rqs = true -> never_lowers rqs d = true ->
        capacity_ok d -> capacity_ok (serve rqs d)).
Proof.
  intro Hr. pose proof (reachable_wf t d Hr) as Hwf.
  split; [|split; [|split; [|split]]].
  - intros team_id member team Ht Hfull.
    unfold run, run_with, add_team_member. to_access.
    rewrite bind_access. cbn [fst snd]. rewrite Ht. rewrite bind_access. cbn [fst snd].
    assert ((Z.of_nat (List.length (filter (fun r => Member.team_id r =? team_id) (members d)))
             >=? Team.max_members team) = true) as ->; [|reflexivity].
    rewrite Z.geb_leb. apply Z.leb_le. unfold member_count in Hfull. lia.
  - intros team_id member m d'. unfold run, run_with, add_team_member.
    exec; try discriminate. intro H. injection H as <- <-.
    apply geb_false_lt in E0. split; [reflexivity|]. split; [reflexivity|].
    rewrite member_count_app. cbn [Member.team_id]. rewrite Z.eqb_refl.
    unfold team_max_members; cbn [teams]. rewrite E.
    unfold member_count. split; lia.
  - intros token join_data utcnow i team Hi Ht Hfull.
    rewrite (join_precedence_wf _ _ _ _ Hwf).
    unfold join_by_precedence, first_failure, team_max_members. rewrite Hi, Ht.
    assert ((Z.of_nat (member_count d (Invitation.team_id i)) >=? Team.max_members team)
            = true) as ->.
    { rewrite Z.geb_leb. apply Z.leb_le. lia. }
    split.
    + cbn [find fst]. destruct (Invitation.is_used i); [eexists; reflexivity|].
      destruct (is_expired utcnow (Invitation.expires_at i)); [eexists; reflexivity|].
      destruct (phone_set (Invitation.phone i) && negb (otp_verified d token));
        eexists; reflexivity.
    + intros Hu He Hotp. rewrite Hu, He.
      assert ((phone_set (Invitation.phone i) && negb (otp_verified d token)) = false) as ->.
      { destruct Hotp as [-> | ->]; [reflexivity | apply andb_false_r]. }
      reflexivity.
  - intros token join_data utcnow m d'. unfold run, run_with, join_team_via_invitation.
    exec; try discriminate; intro H; injection H as <- <-; exists t0.
    all: match goal with H : (_ >=? _) = false |- _ => apply geb_false_lt in H end.
    all: split; [reflexivity|]; split; [reflexivity|].
    all: unfold joined; rewrite member_count_app; cbn [Member.team_id]; rewrite Z.eqb_refl.
    all: unfold team_max_members; cbn [teams].
    all: match goal with H : find _ (teams _) = Some _ |- _ => rewrite H end.
    all: unfold member_count; split; lia.
  - intros rqs Hc Hn Hcap. eapply serve_capacity; eassumption.
Qed.

(** ** Pending invitations *)

Lemma filter_length_le_implied {A} (p q : A -> bool) (l : list A) :
  (forall x, p x = true -> q x = true) ->
  (List.length (filter p l) <= List.length (filter q l))%nat.
Proof.
  intro H. induction l as [|x l IH]; simpl; [lia|].
  destruct (p x) eqn:E; [rewrite (H x E); simpl; lia|].
  destruct (q x); simpl; lia.
Qed.

Lemma filter_map_length_le {A} (p : A -> bool) (g : A -> A) (l : list A) :
  (forall x, p (g x) = true -> p x = true) ->
  (List.length (filter p (map g l)) <= List.length (filter p l))%nat.
Proof.
  intro H. induction l as [|x l IH]; simpl; [lia|].
  destruct (p (g x)) eqn:E; [rewrite (H x E); simpl; lia|].
  destruct (p x); simpl; lia.
Qed.

Lemma find_none_filter {A} (p : A -> bool) (l : list A) : find p l = None -> filter p l = [].
Proof.
  induction l as [|x l IH]; simpl; [reflexivity|]. destruct (p x); [discriminate | assumption].
Qed.

Lemma pending_later (t t' : datetime) (team_id : Z) (email : str) (r : Invitation.t) :
  t <= t' -> pending t' team_id email r = true -> pending t team_id email r = true.
Proof.
  unfold pending. intros Ht H. apply andb_true_iff in H as [H He]. rewrite H. cbn.
  apply Z.gtb_lt in He. apply Z.gtb_lt. lia.
Qed.

Lemma one_pending_later (t t' : datetime) (d : DB) :
  t <= t' -> one_pending t d -> one_pending t' d.
Proof.
  intros Ht H team_id email. specialize (H team_id email).
  pose proof (filter_length_le_implied (pending t' team_id email) (pending t team_id email)
                (invitations d) (fun r => pending_later t t' team_id email r Ht)). lia.
Qed.

Lemma pending_key (utcnow : datetime) (team_id : Z) (email : str) (r : Invitation.t) :
  pending utcnow team_id email r = true ->
  Invitation.team_id r = team_id /\ Invitation.email r = email.
Proof.
  unfold pending. intro H. apply andb_true_iff in H as [H _]. apply andb_true_iff in H as [H _].
  apply andb_true_iff in H as [Ht He]. apply Z.eqb_eq in Ht. apply str_eqb_eq in He. auto.
Qed.

Lemma change_one_pending (utcnow : datetime) (w : option (Z * Z)) (d d' : DB) :
  change utcnow w d d' -> one_pending utcnow d -> one_pending utcnow d'.
Proof.
  intros Hc H. destruct Hc; unfold one_pending in *; cbn [invitations]; intros tid em;
    specialize (H tid em); try assumption.
  - (* delete_team *)
    pose proof (filter_filter_length_le (pending utcnow tid em)
                  (fun r => negb (Invitation.team_id r =? team_id)) (invitations d)). lia.
  - (* create_invitation *)
    rewrite filter_app, length_app. cbn [filter].
    destruct (pending utcnow tid em row) eqn:E; [|simpl; lia].
    apply pending_key in E as [<- <-]. rewrite (find_none_filter _ _ H1). reflexivity.
  - (* join *)
    unfold update_row.
    pose proof (filter_map_length_le (pending utcnow tid em)
                  (fun r => if Invitation.id r =? Invitation.id invitation
                            then Invitation.set_is_used true r else r) (invitations d)) as L.
    assert (forall x,
              pending utcnow tid em
                (if Invitation.id x =? Invitation.id invitation
                 then Invitation.set_is_used true x else x) = true ->
              pending utcnow tid em x = true) as P.
    { intros x. destruct (Invitation.id x =? Invitation.id invitation); [|auto].
      unfold pending. cbn. rewrite andb_false_r. discriminate. }
    specialize (L P). lia.
Qed.

Lemma reachable_one_pending (t : datetime) (d : DB) : reachable t d -> one_pending t d.
Proof.
  induction 1 as [t|t t' fault rq d _ IH Ht V].
  - intros team_id email. simpl. lia.
  - apply (one_pending_later t t' d Ht) in IH.
    destruct (handle_changes fault t' rq d V) as [|d1 Hc Hk|d1 rows Hc Hk];
      [assumption| |].
    + eapply change_one_pending; eassumption.
    + assert (one_pending t' d1) as H1 by (eapply change_one_pending; eassumption). exact H1.
Qed.

Lemma pending_false_iff (utcnow : datetime) (team_id : Z) (email : str) (r : Invitation.t) :
  pending utcnow team_id email r = false <->
  (Invitation.team_id r = team_id -> Invitation.email r = email ->
   Invitation.is_used r = true \/ Invitation.expires_at r <= utcnow).
Proof.
  unfold pending. split.
  - intros H Ht He. rewrite Ht, He, Z.eqb_refl, str_eqb_refl in H. cbn in H.
    destruct (Invitation.is_used r); [now left|right]. cbn in H.
    destruct (Z.gtb_spec (Invitation.expires_at r) utcnow); [discriminate | lia].
  - intro H. destruct (Invitation.team_id r =? team_id) eqn:Et; [|reflexivity].
    destruct (str_eqb (Invitation.email r) email) eqn:Ee; [|reflexivity].
    apply Z.eqb_eq in Et. apply str_eqb_eq in Ee. destruct (H Et Ee) as [-> | Hx];
      [reflexivity|].
    cbn. destruct (Z.gtb_spec (Invitation.expires_at r) utcnow); [lia|].
    apply andb_false_r.
Qed.

Lemma constraints_ok_new_invitation (d : DB) (row : Invitation.t) :
  constraints_ok d = true ->
  ~ In (Invitation.token row) (map Invitation.token (invitations d)) ->
  constraints_ok (mkDB (teams d) (members d) (invitations d ++ [row]) (otps d)) = true.
Proof.
  unfold constraints_ok; cbn [teams invitations]. intros H Hn.
  apply andb_true_iff in H as [H Ht]. rewrite H. cbn.
  rewrite map_app. apply distinct_app_one; assumption.
Qed.

Lemma create_invitation_pending (d : DB) (team_id : Z) (invitation : InvitationCreate.t)
    (utcnow utcnow_inv utcnow_otp : datetime) (token otp_code : str)
    (team : Team.t) (first : Invitation.t) :
  find (fun r => Team.id r =? team_id) (teams d) = Some team ->
  In first (invitations d) ->
  pending utcnow team_id (InvitationCreate.email invitation) first = true ->
  run (create_invitation team_id invitation utcnow utcnow_inv utcnow_otp token otp_code) d
  = (Raised (if Z.of_nat (member_count d team_id) >=? Team.max_members team
             then team_is_full (Team.max_members team)
             else HTTPException 400 "An active invitation already exists for this email"),
     d).
Proof.
  intros Ht Hin Hp. unfold run, run_with, create_invitation. to_access.
  rewrite bind_access. cbn [fst snd]. rewrite Ht. rewrite bind_access. cbn [fst snd].
  fold (member_count d team_id).
  destruct (Z.of_nat (member_count d team_id) >=? Team.max_members team); [reflexivity|].
  rewrite bind_access. cbn [fst snd].
  destruct (find _ (invitations d)) as [r|] eqn:E; [reflexivity|].
  apply (find_none _ _ E) in Hin. unfold pending in Hp. congruence.
Qed.

Lemma create_invitation_succeeds (d : DB) (team_id : Z) (invitation : InvitationCreate.t)
    (utcnow utcnow_inv utcnow_otp : datetime) (token otp_code : str) (team : Team.t) :
  constraints_ok d = true ->
  find (fun r => Team.id r =? team_id) (teams d) = Some team ->
  Z.of_nat (member_count d team_id) < Team.max_members team ->
  (forall r, In r (invitations d) ->
             pending utcnow team_id (InvitationCreate.email invitation) r = false) ->
  find (fun r => (Member.team_id r =? team_id)
                 && str_eqb (Member.email r) (InvitationCreate.email invitation))
    (members d) = None ->
  ~ In token (map Invitation.token (invitations d)) ->
  exists row d',
    run (create_invitation team_id invitation utcnow utcnow_inv utcnow_otp token otp_code) d
    = (Return (row, invite_link token), d')
    /\ Invitation.team_id row = team_id
    /\ Invitation.email row = InvitationCreate.email invitation
    /\ Invitation.token row = token
    /\ Invitation.is_used row = false
    /\ Invitation.expires_at row = get_invitation_expiry utcnow_inv
    /\ teams d' = teams d
    /\ members d' = members d
    /\ invitations d' = invitations d ++ [row].
Proof.
  intros Hk Ht Hroom Hnone Hmem Htok.
  assert (find (fun r => (Invitation.team_id r =? team_id)
                         && str_eqb (Invitation.email r) (InvitationCreate.email invitation)
                         && negb (Invitation.is_used r)
                         && (Invitation.expires_at r >? utcnow)) (invitations d) = None) as Hf.
  { destruct (find _ (invitations d)) as [r|] eqn:E; [|reflexivity].
    apply find_some in E as [Hin Hp]. specialize (Hnone r Hin). unfold pending in Hnone.
    congruence. }
  assert ((Z.of_nat (List.length (filter (fun r => Member.team_id r =? team_id) (members d)))
           >=? Team.max_members team) = false) as Hc.
  { rewrite Z.geb_leb. apply Z.leb_gt. exact Hroom. }
  unfold run, run_with, create_invitation. to_access.
  rewrite bind_access. cbn [fst snd]. rewrite Ht. rewrite bind_access. cbn [fst snd].
  rewrite Hc. rewrite bind_access. cbn [fst snd]. rewrite Hf. cbn [not_none].
  rewrite bind_access. cbn [fst snd]. rewrite Hmem. cbn [not_none].
  rewrite bind_access. cbn [fst snd]. rewrite bind_commit.
  rewrite constraints_ok_new_invitation by assumption.
  rewrite bind_refresh.
  destruct (InvitationCreate.phone invitation) as [[|c p]|]; cbn [stored].
  1,3: rewrite bind_ret; cbn; eexists _, _; repeat split.
  pose proof (format_phone_number_nonempty (c :: p)) as Hne.
  destruct (format_phone_number (c :: p)) as [|c' p'] eqn:Ef; [contradiction|].
  repeat exec_step.
  match goal with
  | |- context [constraints_ok ?x] => replace (constraints_ok x) with true
  end.
  2:{ symmetry.
      exact (constraints_ok_new_invitation d
               (Invitation.mk (next_id (map Invitation.id (invitations d))) team_id
                  (InvitationCreate.email invitation) (Some (c' :: p')) token false
                  (get_invitation_expiry utcnow_inv)) Hk Htok). }
  repeat exec_step. cbn. eexists _, _; repeat split.
Qed.

(** C7 (amended): for each team and email at most one invitation is unused
    and expires after the current time; while such an invitation is stored a
    second creation for the same team and email is refused, by "An active
    invitation already exists" unless the team is full, which is reported
    first; once every invitation of the pair is used or has reached its
    expiry the creation succeeds whenever the team has room, the email is
    not a member of the team and the token is new. *)
Theorem C7_one_pending_invitation (t : datetime) (d : DB) (utcnow : datetime) :
  reachable t d ->
  t <= utcnow ->
  one_pending utcnow d
  /\ (forall team_id invitation utcnow_inv utcnow_otp token otp_code team first,
        find (fun r => Team.id r =? team_id) (teams d) = Some team ->
        In first (invitations d) ->
        Invitation.team_id first = team_id ->
        Invitation.email first = InvitationCreate.email invitation ->
        Invitation.is_used first = false ->
        Invitation.expires_at first > utcnow ->
        run (create_invitation team_id invitation utcnow utcnow_inv utcnow_otp
               token otp_code) d
        = (Raised (if Z.of_nat (member_count d team_id) >=? Team.max_members team
                   then team_is_full (Team.max_members team)
                   else HTTPException 400
                          "An active invitation already exists for this email"), d))
  /\ (forall team_id invitation utcnow_inv utcnow_otp token otp_code team,
        find (fun r => Team.id r =? team_id) (teams d) = Some team ->
        Z.of_nat (member_count d team_id) < Team.max_members team ->
        (forall r, In r (invitations d) ->
                   Invitation.team_id r = team_id ->
                   Invitation.email r = InvitationCreate.email invitation ->
                   Invitation.is_used r = true \/ Invitation.expires_at r <= utcnow) ->
        (forall m, In m (members d) ->
                   Member.team_id m = team_id ->
                   Member.email m <> InvitationCreate.email invitation) ->
        ~ In token (map Invitation.token (invitations d)) ->
        exists row d',
          run (create_invitation team_id invitation utcnow utcnow_inv utcnow_otp
                 token otp_code) d
          = (Return (row, invite_link token), d')
          /\ Invitation.team_id row = team_id
          /\ Invitation.email row = InvitationCreate.email invitation
          /\ Invitation.token row = token
          /\ Invitation.is_used row = false
          /\ Invitation.expires_at row = get_invitation_expiry utcnow_inv
          /\ teams d' = teams d
          /\ members d' = members d
          /\ invitations d' = invitations d ++ [row]).
Proof.
  intros Hr Ht. split; [|split].
  - apply (one_pending_later t utcnow d Ht). apply reachable_one_pending. exact Hr.
  - intros team_id invitation utcnow_inv utcnow_otp token otp_code team first
      Hteam Hin Hid Hem Hu He.
    apply (create_invitation_pending d team_id invitation utcnow utcnow_inv utcnow_otp
             token otp_code team first Hteam Hin).
    unfold pending. rewrite Hid, Hem, Hu, Z.eqb_refl, str_eqb_refl. cbn.
    apply Z.gtb_lt. lia.
  - intros team_id invitation utcnow_inv utcnow_otp token otp_code team
      Hteam Hroom Hnone Hmem Htok.
    apply reachable_wf in Hr. destruct Hr as [Hk _ _ _ _].
    apply (create_invitation_succeeds d team_id invitation utcnow utcnow_inv utcnow_otp
             token otp_code team Hk Hteam Hroom); [| |exact Htok].
    + intros r Hin. apply pending_false_iff. apply Hnone. exact Hin.
    + destruct (find _ (members d)) as [m|] eqn:E; [exfalso|reflexivity].
      apply find_some in E as [Hin Hp]. apply andb_true_iff in Hp as [Hi He].
      apply Z.eqb_eq in Hi. apply str_eqb_eq in He. exact (Hmem m Hin Hi He).
Qed.

(** * Further properties *)

(** ** Primary keys *)

Lemma next_id_pos (ids : list Z) : 0 < next_id ids.
Proof. unfold next_id. induction ids as [|y ids IH]; cbn [fold_right]; lia. Qed.

Lemma keyed_nil {R} (key : R -> Z) : keyed key [].
Proof. split; [constructor | intros ? []]. Qed.

Lemma keyed_add {R} (key : R -> Z) (rows : list R) (row : R) :
  key row = next_id (map key rows) -> keyed key rows -> keyed key (rows ++ [row]).
Proof.
  intros Hk [Hn Hp]. split.
  - rewrite map_app. apply NoDup_app; [assumption | repeat constructor; simpl; tauto |].
    intros a Ha [<-|[]]. apply next_id_above in Ha. lia.
  - intros r Hin. apply in_app_or in Hin as [Hin|[<-|[]]]; [auto|].
    rewrite Hk. apply next_id_pos.
Qed.

Lemma keyed_filter {R} (key : R -> Z) (p : R -> bool) (rows : list R) :
  keyed key rows -> keyed key (filter p rows).
Proof.
  intros [Hn Hp]. split; [now apply NoDup_map_filter|].
  intros r Hin. apply filter_In in Hin. apply Hp. tauto.
Qed.

Lemma keyed_update_row {R} (key : R -> Z) (obj : R) (f : R -> R) (rows : list R) :
  (forall r, key (f r) = key r) -> keyed key rows -> keyed key (update_row key obj f rows).
Proof.
  intros Hf [Hn Hp]. split; [now rewrite map_key_update_row|].
  intros r Hin. apply in_update_row in Hin as [r0 [Hr [->| ->]]]; [|rewrite Hf]; auto.
Qed.

Ltac keyed_tac :=
  unfold keys_ok; cbn [teams members invitations otps];
  split; [|split; [|split]];
  repeat first
    [ assumption
    | apply keyed_filter
    | apply keyed_add; [reflexivity|]
    | apply keyed_update_row; [intros []; reflexivity|] ].

Lemma handle_keys (fault : option nat) (utcnow : datetime) (rq : Request) (d : DB) :
  keys_ok d -> keys_ok (handle_with fault utcnow rq d).
Proof.
  intros (Ht & Hm & Hi & Ho). destruct rq; unfold handle_with, run_with.
  - unfold create_team. destruct fault as [n|]; exec; keyed_tac.
  - unfold update_team. destruct fault as [n|]; exec; keyed_tac.
  - unfold delete_team. destruct fault as [n|]; exec; keyed_tac.
  - unfold add_team_member. destruct fault as [n|]; exec; keyed_tac.
  - unfold remove_team_member. destruct fault as [n|]; exec; keyed_tac.
  - unfold create_invitation. destruct fault as [n|]; exec; keyed_tac.
  - unfold resend_otp. destruct fault as [n|]; exec; keyed_tac.
  - unfold verify_otp. destruct fault as [n|]; exec; keyed_tac.
  - unfold join_team_via_invitation. destruct fault as [n|]; exec; keyed_tac.
Qed.

Lemma reachable_keys (t : datetime) (d : DB) : reachable t d -> keys_ok d.
Proof.
  induction 1 as [|t t' fault rq d _ IH _ _].
  - repeat split; try constructor; intros ? [].
  - apply handle_keys. exact IH.
Qed.

Lemma keyed_inj {R} (key : R -> Z) (rows : list R) (a b : R) :
  keyed key rows -> In a rows -> In b rows -> key a = key b -> a = b.
Proof.
  intros [Hn _]. induction rows as [|x l IH]; simpl; [tauto|].
  inversion Hn as [|? ? Hx Hl]; subst. intros [->|Ha] [->|Hb] E; auto.
  - exfalso. apply Hx. rewrite E. now apply in_map.
  - exfalso. apply Hx. rewrite <- E. now apply in_map.
Qed.

(** X1: in every database the API can build the primary keys of each table
    are positive and distinct, so a key names at most one row. *)
Theorem primary_keys_distinct (t : datetime) (d : DB) :
  reachable t d ->
  keys_ok d
  /\ (forall a b, In a (teams d) -> In b (teams d) -> Team.id a = Team.id b -> a = b)
  /\ (forall a b, In a (members d) -> In b (members d) ->
                  Member.id a = Member.id b -> a = b)
  /\ (forall a b, In a (invitations d) -> In b (invitations d) ->
                  Invitation.id a = Invitation.id b -> a = b)
  /\ (forall a b, In a (otps d) -> In b (otps d) -> OTP.id a = OTP.id b -> a = b).
Proof.
  intro Hr. pose proof (reachable_keys t d Hr) as K. split; [exact K|].
  destruct K as (Kt & Km & Ki & Ko).
  repeat split; intros a b; eapply keyed_inj; eassumption.
Qed.

(** ** Team sizes *)

Lemma written_validated (rq : Request) (team_id max_members : Z) :
  validated rq = true -> written_max rq = Some (team_id, max_members) ->
  max_members_ok max_members = true.
Proof.
  destruct rq; try discriminate. cbn. intros V E.
  apply andb_true_iff in V as [_ V].
  destruct (TeamUpdate.max_members team_update) as [m|]; [|discriminate].
  cbn in *. injection E as _ <-. exact V.
Qed.

Lemma change_sizes (utcnow : datetime) (w : option (Z * Z)) (d d' : DB) :
  change utcnow w d d' ->
  (forall team_id m, w = Some (team_id, m) -> max_members_ok m = true) ->
  (forall r, In r (teams d) -> max_members_ok (Team.max_members r) = true) ->
  (forall team_id, Z.of_nat (member_count d team_id) <= 20) ->
  (forall r, In r (teams d') -> max_members_ok (Team.max_members r) = true)
  /\ (forall team_id, Z.of_nat (member_count d' team_id) <= 20).
Proof.
  intros Hc Hw Hmax Hcount.
  assert (forall db_team team_id,
            find (fun r => Team.id r =? team_id) (teams d) = Some db_team ->
            Team.max_members db_team <= 20) as Hfound.
  { intros db_team team_id Hf. apply find_some in Hf as [Hin _].
    specialize (Hmax _ Hin). unfold max_members_ok in Hmax.
    apply andb_true_iff in Hmax as [_ Hmax]. apply Z.leb_le in Hmax. exact Hmax. }
  destruct Hc; cbn [teams]; split; try assumption.
  - intros r Hin. apply in_app_or in Hin as [Hin|[<-|[]]]; auto.
  - intros r Hin. unfold update_row in Hin. apply in_map_iff in Hin as [r0 [<- Hr]].
    destruct (Team.id r0 =? Team.id db_team); [|auto].
    destruct (H0 r0) as [->|Hwr]; [auto | eapply Hw; eassumption].
  - intros r Hin. apply filter_In in Hin. apply Hmax. tauto.
  - intros tid. unfold member_count; cbn [members]. specialize (Hcount tid).
    unfold member_count in Hcount.
    pose proof (filter_filter_length_le (fun r => Member.team_id r =? tid)
                  (fun r => negb (Member.team_id r =? team_id)) (members d)). lia.
  - intros tid. rewrite member_count_app. specialize (Hcount tid).
    destruct (Member.team_id row =? tid) eqn:E; [|lia].
    apply Z.eqb_eq in E. subst tid. specialize (Hfound _ _ H). lia.
  - intros tid. unfold member_count; cbn [members]. specialize (Hcount tid).
    unfold member_count in Hcount.
    pose proof (filter_filter_length_le (fun r => Member.team_id r =? tid)
                  (fun r => negb (Member.id r =? member_id)) (members d)). lia.
  - intros tid. rewrite member_count_app. specialize (Hcount tid).
    destruct (Member.team_id row =? tid) eqn:E; [|lia].
    apply Z.eqb_eq in E. subst tid. specialize (Hfound _ _ H). lia.
Qed.

(** X2: whatever the requests, every stored team has a [max_members] between
    1 and 20, and no team, resized or not, ever holds more than 20
    members. *)
Theorem team_size_bounds (t : datetime) (d : DB) :
  reachable t d ->
  (forall r, In r (teams d) -> 1 <= Team.max_members r <= 20)
  /\ (forall team_id, Z.of_nat (member_count d team_id) <= 20).
Proof.
  intro Hr.
  assert ((forall r, In r (teams d) -> max_members_ok (Team.max_members r) = true)
          /\ (forall team_id, Z.of_nat (member_count d team_id) <= 20)) as [Hm Hc].
  { induction Hr as [|t t' fault rq d _ [IHm IHc] _ V].
    - split; [intros ? [] | intro; cbn; lia].
    - assert (forall team_id m, written_max rq = Some (team_id, m) ->
                                max_members_ok m = true) as Hw.
      { intros team_id m. now apply written_validated. }
      destruct (handle_changes fault t' rq d V) as [|d1 Hc Hk|d1 rows Hc Hk].
      + auto.
      + eapply change_sizes; eassumption.
      + exact (change_sizes t' _ d d1 Hc Hw IHm IHc). }
  split; [|exact Hc]. intros r Hin. specialize (Hm r Hin).
  unfold max_members_ok in Hm. apply andb_true_iff in Hm as [H1 H2].
  apply Z.leb_le in H1, H2. lia.
Qed.

(** ** Teams *)

Lemma find_str_none {R} (g : R -> str) (x : str) (rows : list R) :
  find (fun r => str_eqb (g r) x) rows = None <-> ~ In x (map g rows).
Proof.
  induction rows as [|r l IH]; simpl; [tauto|].
  destruct (str_eqb (g r) x) eqn:E.
  - apply str_eqb_eq in E. split; [discriminate | intro H; exfalso; apply H; now left].
  - rewrite IH. split; [intros H [C|C]; [|tauto] | tauto].
    apply str_eqb_eq in C. congruence.
Qed.

Lemma find_key_fresh {R} (key : R -> Z) (rows : list R) (row : R) :
  key row = next_id (map key rows) ->
  find (fun r => key r =? key row) (rows ++ [row]) = Some row.
Proof.
  intro Hk.
  assert (forall l, (forall r, In r l -> key r <> key row) ->
                    find (fun r => key r =? key row) (l ++ [row]) = Some row) as H.
  { induction l as [|x l IH]; simpl; intro Hl.
    - now rewrite Z.eqb_refl.
    - destruct (key x =? key row) eqn:E; [|apply IH; auto].
      apply Z.eqb_eq in E. exfalso. apply (Hl x); auto. }
  apply H. intros r Hin E.
  pose proof (next_id_above (map key rows) (key r) (in_map _ _ _ Hin)). lia.
Qed.

Lemma no_invitation_of_fresh_team (d : DB) :
  wf d -> forall i, In i (invitations d) ->
  Invitation.team_id i <> next_id (map Team.id (teams d)).
Proof.
  intros [_ _ _ _ Hi] i Hin E. destruct (Hi i Hin) as [t [Ht Et]].
  pose proof (next_id_above (map Team.id (teams d)) (Team.id t) (in_map _ _ _ Ht)). lia.
Qed.

(** X3: [create_team] refuses a name that is taken, then a leader email that
    is taken, and changes nothing; when both are new it stores one team
    under a new key, and that team starts with no member and no invitation
    and is what [get_team] answers for the key. *)
Theorem create_team_outcome (t : datetime) (d : DB) (team : TeamCreate.t) :
  reachable t d ->
  ((exists r, In r (teams d) /\ Team.name r = TeamCreate.name team) ->
   run (create_team team) d
   = (Raised (HTTPException 400 "Team name already exists"), d))
  /\ ((forall r, In r (teams d) -> Team.name r <> TeamCreate.name team) ->
      (exists r, In r (teams d) /\ Team.leader_email r = TeamCreate.leader_email team) ->
      run (create_team team) d
      = (Raised (HTTPException 400 "This email is already registered as a team leader"),
         d))
  /\ ((forall r, In r (teams d) -> Team.name r <> TeamCreate.name team) ->
      (forall r, In r (teams d) -> Team.leader_email r <> TeamCreate.leader_email team) ->
      let row :=
        Team.mk (next_id (map Team.id (teams d))) (TeamCreate.name team)
          (TeamCreate.leader_name team) (TeamCreate.leader_email team)
          (TeamCreate.description team) (TeamCreate.max_members team) in
      let d' := mkDB (teams d ++ [row]) (members d) (invitations d) (otps d) in
      run (create_team team) d = (Return row, d')
      /\ member_count d' (Team.id row) = 0%nat
      /\ (forall i, In i (invitations d') -> Invitation.team_id i <> Team.id row)
      /\ run (get_team (Team.id row)) d' = (Return row, d')).
Proof.
  intro Hr. pose proof (reachable_wf t d Hr) as Hwf. pose proof Hwf as [Hk _ _ _ _].
  split; [|split].
  - intros [r [Hin Hn]]. unfold run, run_with, create_team. to_access.
    rewrite bind_access. cbn [fst snd].
    destruct (find _ (teams d)) eqn:E; [reflexivity|].
    apply find_str_none in E. exfalso. apply E. rewrite <- Hn. now apply in_map.
  - intros Hname [r [Hin Hn]]. unfold run, run_with, create_team. to_access.
    rewrite bind_access. cbn [fst snd].
    assert (find (fun r0 => str_eqb (Team.name r0) (TeamCreate.name team)) (teams d) = None)
      as ->.
    { apply find_str_none. intro C. apply in_map_iff in C as [x [Hx Hi]]. exact (Hname x Hi Hx). }
    cbn [not_none]. rewrite bind_access. cbn [fst snd].
    destruct (find _ (teams d)) eqn:E; [reflexivity|].
    apply find_str_none in E. exfalso. apply E. rewrite <- Hn. now apply in_map.
  - intros Hname Hmail row d'. subst row d'.
    assert (~ In (TeamCreate.name team) (map Team.name (teams d))) as Hn.
    { intro C. apply in_map_iff in C as [x [Hx Hi]]. exact (Hname x Hi Hx). }
    assert (~ In (TeamCreate.leader_email team) (map Team.leader_email (teams d))) as Hm.
    { intro C. apply in_map_iff in C as [x [Hx Hi]]. exact (Hmail x Hi Hx). }
    split; [|split; [|split]].
    + unfold run, run_with, create_team. to_access.
      rewrite bind_access. cbn [fst snd].
      rewrite (proj2 (find_str_none Team.name _ _) Hn). cbn [not_none].
      rewrite bind_access. cbn [fst snd].
      rewrite (proj2 (find_str_none Team.leader_email _ _) Hm). cbn [not_none].
      rewrite bind_access. cbn [fst snd]. rewrite bind_commit.
      match goal with
      | |- context [constraints_ok ?x] => assert (constraints_ok x = true) as ->
      end.
      { unfold constraints_ok in *. cbn [teams invitations].
        apply andb_true_iff in Hk as [Hk Ht]. apply andb_true_iff in Hk as [Hk1 Hk2].
        rewrite !map_app. cbn [map Team.name Team.leader_email]. rewrite Ht.
        rewrite (distinct_app_one _ _ Hk1 Hn), (distinct_app_one _ _ Hk2 Hm). reflexivity. }
      rewrite bind_refresh. reflexivity.
    + apply (member_count_fresh_team d Hwf).
    + intros i Hin. apply (no_invitation_of_fresh_team d Hwf i Hin).
    + unfold run, run_with, get_team. to_access. rewrite bind_access.
      cbn [fst snd teams]. rewrite find_key_fresh by reflexivity. reflexivity.
Qed.

Lemma update_row_unique {R} (key : R -> Z) (old : R) (f : R -> R) (rows : list R) :
  keyed key rows -> In old rows ->
  update_row key old f rows = map (fun r => if key r =? key old then f old else r) rows.
Proof.
  intros K Hin. unfold update_row. apply map_ext_in. intros r Hr.
  destruct (key r =? key old) eqn:E; [|reflexivity].
  apply Z.eqb_eq in E. now rewrite (keyed_inj key rows r old K Hr Hin E).
Qed.

Lemma map_replace_same {R} (key : R -> Z) (old : R) (rows : list R) :
  keyed key rows -> In old rows ->
  map (fun r => if key r =? key old then old else r) rows = rows.
Proof.
  intros K Hin. rewrite <- (map_id rows) at 2. apply map_ext_in. intros r Hr.
  destruct (key r =? key old) eqn:E; [|reflexivity].
  apply Z.eqb_eq in E. now rewrite (keyed_inj key rows r old K Hr Hin E).
Qed.

Lemma find_map_replace {R} (key : R -> Z) (x : Z) (old new : R) (rows : list R) :
  find (fun r => key r =? x) rows = Some old -> key new = x ->
  find (fun r => key r =? x) (map (fun r => if key r =? x then new else r) rows) = Some new.
Proof.
  intros Hf Hk. induction rows as [|r l IH]; simpl in *; [discriminate|].
  destruct (key r =? x) eqn:E.
  - rewrite Hk, Z.eqb_refl. reflexivity.
  - rewrite E. auto.
Qed.

Lemma db_eta (d : DB) : mkDB (teams d) (members d) (invitations d) (otps d) = d.
Proof. now destruct d. Qed.

Lemma get_team_run (team_id : Z) (d : DB) :
  run (get_team team_id) d
  = match find (fun r => Team.id r =? team_id) (teams d) with
    | Some team => (Return team, d)
    | None => (Raised (HTTPException 404 "Team not found"), d)
    end.
Proof.
  unfold run, run_with, get_team. to_access. rewrite bind_access. cbn [fst snd].
  now destruct (find _ (teams d)).
Qed.

(** X4: a successful [update_team] rewrites only the name, description and
    [max_members] that the request carries, on the addressed team only: the
    team keeps its key and leader, every other team and all members,
    invitations and OTPs are as before, and [get_team] answers the updated
    team. *)
Theorem update_team_result (t : datetime) (d : DB) (team_id : Z)
    (team_update : TeamUpdate.t) (team' : Team.t) (d' : DB) :
  reachable t d ->
  run (update_team team_id team_update) d = (Return team', d') ->
  exists old,
    find (fun r => Team.id r =? team_id) (teams d) = Some old
    /\ Team.id team' = team_id
    /\ Team.leader_name team' = Team.leader_name old
    /\ Team.leader_email team' = Team.leader_email old
    /\ Team.name team'
       = match TeamUpdate.name team_update with Some n => n | None => Team.name old end
    /\ Team.description team'
       = match TeamUpdate.description team_update with
         | Some x => Some x
         | None => Team.description old
         end
    /\ Team.max_members team'
       = match TeamUpdate.max_members team_update with
         | Some m => m
         | None => Team.max_members old
         end
    /\ d' = mkDB (map (fun r => if Team.id r =? team_id then team' else r) (teams d))
              (members d) (invitations d) (otps d)
    /\ run (get_team team_id) d' = (Return team', d').
Proof.
  intros Hr. pose proof (reachable_keys t d Hr) as (Kt & _).
  unfold run at 1, run_with, update_team. exec; try discriminate.
  all: intro H; injection H as <- <-.
  all: exists t0; pose proof (find_team_in _ _ _ E) as [Hin Hid].
  all: rewrite ?update_row_compose by (try reflexivity; intros []; reflexivity).
  all: rewrite ?(update_row_unique Team.id t0 _ (teams d) Kt Hin).
  all: rewrite Hid.
  all: repeat match goal with |- _ /\ _ => split end; try reflexivity;
    try (destruct t0; cbn in *; congruence).
  all: try (rewrite <- Hid; rewrite (map_replace_same Team.id t0 (teams d) Kt Hin);
            now rewrite db_eta).
  all: try (rewrite get_team_run; cbn [teams]).
  all: try (erewrite find_map_replace; [reflexivity | eassumption |
            destruct t0; cbn in *; congruence]).
  rewrite E. reflexivity.
Qed.

Lemma NoDup_rename (x : Z) (n : str) (f : Team.t -> Team.t) (l : list Team.t) :
  NoDup (map Team.id l) -> NoDup (map Team.name l) ->
  (forall r, Team.name (f r) = n) ->
  (forall r, In r l -> Team.id r <> x -> Team.name r <> n) ->
  NoDup (map Team.name (map (fun r => if Team.id r =? x then f r else r) l)).
Proof.
  intros Hid Hname Hf Hother. induction l as [|r l IH]; simpl; [constructor|].
  inversion Hid as [|? ? Hi Hil]; subst. inversion Hname as [|? ? Hn Hnl]; subst.
  assert (NoDup (map Team.name (map (fun r0 => if Team.id r0 =? x then f r0 else r0) l)))
    as IH' by (apply IH; auto; intros; apply Hother; auto; now right).
  constructor; [|exact IH'].
  rewrite map_map. intro C. apply in_map_iff in C as [r0 [E0 H0]].
  destruct (Team.id r =? x) eqn:Er, (Team.id r0 =? x) eqn:E0x.
  - apply Z.eqb_eq in Er, E0x. apply Hi. rewrite Er, <- E0x. now apply in_map.
  - rewrite Hf in E0. apply Z.eqb_neq in E0x. apply (Hother r0); auto. now right.
  - rewrite Hf in E0. apply Z.eqb_neq in Er. apply (Hother r); auto. now left.
  - apply Hn. rewrite <- E0. now apply in_map.
Qed.

Lemma constraints_ok_renamed (d : DB) (old : Team.t) (n : str) (f : Team.t -> Team.t) :
  constraints_ok d = true -> keyed Team.id (teams d) ->
  (forall r, Team.leader_email (f r) = Team.leader_email r) ->
  (forall r, Team.name (f r) = n) ->
  (forall r, In r (teams d) -> Team.id r <> Team.id old -> Team.name r <> n) ->
  constraints_ok (mkDB (update_row Team.id old f (teams d)) (members d) (invitations d)
                    (otps d)) = true.
Proof.
  unfold constraints_ok; cbn [teams invitations]. intros Hk [Kn _] Hmail Hname Hother.
  apply andb_true_iff in Hk as [Hk Ht]. apply andb_true_iff in Hk as [Hk1 Hk2].
  rewrite Ht, (map_update_row Team.leader_email) by assumption. rewrite Hk2.
  rewrite !andb_true_r. apply distinct_NoDup.
  apply (NoDup_rename (Team.id old) n); try assumption.
  now apply distinct_NoDup.
Qed.

(** X5: a rename is refused with "Team name already exists" when another
    team bears the name, and then nothing of the request is written, not
    its description or [max_members] either; a name no other team bears,
    the team's own current name included, is accepted. *)
Theorem update_team_rename (t : datetime) (d : DB) (team_id : Z)
    (team_update : TeamUpdate.t) (old : Team.t) (name : str) :
  reachable t d ->
  find (fun r => Team.id r =? team_id) (teams d) = Some old ->
  TeamUpdate.name team_update = Some name ->
  ((exists other, In other (teams d) /\ Team.id other <> team_id
                  /\ Team.name other = name) ->
   run (update_team team_id team_update) d
   = (Raised (HTTPException 400 "Team name already exists"), d))
  /\ ((forall other, In other (teams d) -> Team.id other <> team_id ->
                     Team.name other <> name) ->
      exists team' d',
        run (update_team team_id team_update) d = (Return team', d')
        /\ Team.name team' = name).
Proof.
  intros Hr Hf Hn. pose proof (reachable_keys t d Hr) as (Kt & _).
  pose proof (reachable_wf t d Hr) as [Hk _ _ _ _].
  pose proof (find_team_in _ _ _ Hf) as [Hin Hid].
  split.
  - intros [other (Ho & Hne & Hname)].
    unfold run, run_with, update_team. to_access.
    rewrite bind_access. cbn [fst snd]. rewrite Hf, Hn.
    rewrite bind_assoc, bind_access. cbn [fst snd].
    destruct (find (fun r => str_eqb (Team.name r) name && negb (Team.id r =? team_id))
                (teams d)) eqn:E; [reflexivity|exfalso].
    apply (find_none _ _ E) in Ho. cbn in Ho.
    rewrite Hname, str_eqb_refl in Ho. cbn in Ho.
    apply negb_false_iff, Z.eqb_eq in Ho. contradiction.
  - intro Hother.
    assert (find (fun r => str_eqb (Team.name r) name && negb (Team.id r =? team_id))
              (teams d) = None) as Hnone.
    { destruct (find (fun r => str_eqb (Team.name r) name && negb (Team.id r =? team_id))
                  (teams d)) eqn:E; [exfalso|reflexivity].
      apply find_some in E as [Ho Hp]. apply andb_true_iff in Hp as [Hp1 Hp2].
      apply str_eqb_eq in Hp1. apply negb_true_iff, Z.eqb_neq in Hp2.
      exact (Hother _ Ho Hp2 Hp1). }
    assert (forall f,
              (forall r, Team.leader_email (f r) = Team.leader_email r) ->
              (forall r, Team.name (f r) = name) ->
              constraints_ok (mkDB (update_row Team.id old f (teams d)) (members d)
                                (invitations d) (otps d)) = true) as Hc.
    { intros f H1 H2. apply constraints_ok_renamed with (n := name); auto.
      intros r Hr' Hne. apply Hother; [assumption|]. congruence. }
    unfold run, run_with, update_team. to_access.
    rewrite bind_access. cbn [fst snd]. rewrite Hf, Hn.
    rewrite bind_assoc, bind_access. cbn [fst snd]. rewrite Hnone. cbn [not_none].
    destruct (TeamUpdate.description team_update), (TeamUpdate.max_members team_update).
    all: repeat (exec_step; cbn [teams members invitations otps]).
    all: rewrite ?update_row_compose by (try reflexivity; intros []; reflexivity).
    all: rewrite Hc by (intros []; reflexivity).
    all: repeat exec_step; eexists _, _; split; [reflexivity|]; now destruct old.
Qed.

Lemma join_run_not_found (token : str) (join_data : JoinTeamRequest.t) (utcnow : datetime)
    (d : DB) :
  find (fun r => str_eqb (Invitation.token r) token) (invitations d) = None ->
  run (join_team_via_invitation token join_data utcnow) d
  = (Raised (HTTPException 404 "Invitation not found"), d).
Proof.
  intro H. unfold run, run_with, join_team_via_invitation. to_access.
  rewrite bind_access. cbn [fst snd]. now rewrite H.
Qed.

(** X6: [delete_team] binds the team key to its query, which SQLite refuses
    beyond 64 bits: the handler then raises [OverflowError] and stores
    nothing.  For a key in range it answers 404 for a missing team; for a
    stored one it removes the team with all its members and invitations and
    nothing else: the rows of other teams and every OTP row stay, [get_team]
    then answers 404, and a join on a token of one of the removed
    invitations answers "Invitation not found". *)
Theorem delete_team_cascade (t : datetime) (d : DB) (team_id : Z) :
  reachable t d ->
  (sqlite_int team_id = false ->
   run (delete_team team_id) d = (Raised OverflowError, d))
  /\ (sqlite_int team_id = true ->
      (forall r, In r (teams d) -> Team.id r <> team_id) ->
      run (delete_team team_id) d = (Raised (HTTPException 404 "Team not found"), d))
  /\ (sqlite_int team_id = true ->
      (exists r, In r (teams d) /\ Team.id r = team_id) ->
      let d' :=
        mkDB (filter (fun r => negb (Team.id r =? team_id)) (teams d))
             (filter (fun r => negb (Member.team_id r =? team_id)) (members d))
             (filter (fun r => negb (Invitation.team_id r =? team_id)) (invitations d))
             (otps d) in
      run (delete_team team_id) d = (Return tt, d')
      /\ member_count d' team_id = 0%nat
      /\ (forall other, other <> team_id -> member_count d' other = member_count d other)
      /\ run (get_team team_id) d' = (Raised (HTTPException 404 "Team not found"), d')
      /\ (forall i join_data utcnow,
            In i (invitations d) -> Invitation.team_id i = team_id ->
            run (join_team_via_invitation (Invitation.token i) join_data utcnow) d'
            = (Raised (HTTPException 404 "Invitation not found"), d'))).
Proof.
  intro Hr. pose proof (reachable_wf t d Hr) as Hwf. pose proof Hwf as [Hk _ _ _ _].
  split; [|split].
  - intro Hint. unfold run, run_with, delete_team, bind_int. rewrite Hint. reflexivity.
  - intros Hint Hnone. unfold run, run_with, delete_team, bind_int. rewrite Hint.
    rewrite bind_ret. to_access.
    rewrite bind_access. cbn [fst snd].
    destruct (find (fun r => Team.id r =? team_id) (teams d)) eqn:E; [exfalso|reflexivity].
    apply find_team_in in E as [Hin Hid]. exact (Hnone _ Hin Hid).
  - intros Hint [r [Hin Hid]] d'.
    assert (constraints_ok d' = true) as Hk'.
    { unfold constraints_ok in *. subst d'. cbn [teams invitations].
      apply andb_true_iff in Hk as [Hk Ht]. apply andb_true_iff in Hk as [Hk1 Hk2].
      rewrite !distinct_NoDup in *.
      repeat (apply andb_true_iff; split); apply distinct_NoDup;
        now apply NoDup_map_filter. }
    split; [|split; [|split; [|split]]].
    + unfold run, run_with, delete_team, bind_int. rewrite Hint. rewrite bind_ret. to_access.
      rewrite bind_access. cbn [fst snd].
      destruct (find (fun r0 => Team.id r0 =? team_id) (teams d)) as [t0|] eqn:E.
      * apply find_team_in in E as [_ E]. repeat exec_step. rewrite E.
        fold d'. rewrite Hk'. reflexivity.
      * exfalso. apply (find_team_none _ _ _ E Hin Hid).
    + unfold member_count. subst d'. cbn [members].
      destruct (filter _ (filter _ (members d))) as [|m l] eqn:E; [reflexivity|exfalso].
      assert (In m (m :: l)) as Hm by now left. rewrite <- E in Hm.
      apply filter_In in Hm as [Hm H1]. apply filter_In in Hm as [_ H2].
      rewrite H1 in H2. discriminate.
    + intros other Hne. unfold member_count. subst d'. cbn [members].
      rewrite filter_filter_implied; [reflexivity|].
      intros m _ Em. apply Z.eqb_eq in Em. apply negb_true_iff, Z.eqb_neq. congruence.
    + rewrite get_team_run. subst d'. cbn [teams].
      destruct (find _ (filter _ (teams d))) as [t0|] eqn:E; [exfalso|reflexivity].
      apply find_some in E as [H1 H2]. apply filter_In in H1 as [_ H1].
      rewrite H2 in H1. discriminate.
    + intros i join_data utcnow Hi Hteam. apply join_run_not_found.
      subst d'. cbn [invitations].
      destruct (find _ (filter _ (invitations d))) as [j|] eqn:E; [exfalso|reflexivity].
      apply find_some in E as [H1 H2]. apply str_eqb_eq in H2.
      apply filter_In in H1 as [Hj Hne]. apply negb_true_iff, Z.eqb_neq in Hne.
      pose proof (find_invitation_wf d i Hwf Hi) as Hfi.
      pose proof (find_invitation_wf d j Hwf Hj) as Hfj.
      rewrite H2 in Hfj. rewrite Hfi in Hfj. injection Hfj as <-. contradiction.
Qed.

(** ** Members *)

Lemma filter_other_keys {R} (key : R -> Z) (k : Z) (rows : list R) :
  (forall r, In r rows -> key r <> k) -> filter (fun r => negb (key r =? k)) rows = rows.
Proof.
  induction rows as [|x l IH]; simpl; intro H; [reflexivity|].
  destruct (key x =? k) eqn:E.
  - apply Z.eqb_eq in E. exfalso. apply (H x); auto.
  - cbn [negb]. f_equal. apply IH. auto.
Qed.

Lemma filter_without_key {R} (key : R -> Z) (p : R -> bool) (rows : list R) (m : R) :
  NoDup (map key rows) -> In m rows ->
  Nat.add (List.length (filter p (filter (fun r => negb (key r =? key m)) rows)))
          (if p m then 1%nat else 0%nat)
  = List.length (filter p rows).
Proof.
  induction rows as [|x l IH]; simpl; [tauto|].
  intros Hn Hin. inversion Hn as [|? ? Hx Hl]; subst.
  destruct (key x =? key m) eqn:E.
  - apply Z.eqb_eq in E. cbn [negb].
    assert (m = x) as ->.
    { destruct Hin as [Hin|Hin]; [congruence|].
      exfalso. apply Hx. rewrite E. now apply in_map. }
    rewrite filter_other_keys.
    + destruct (p x); simpl; lia.
    + intros r Hr C. apply Hx. rewrite <- C. now apply in_map.
  - cbn [negb]. destruct Hin as [Hin|Hin]; [subst; rewrite Z.eqb_refl in E; discriminate|].
    specialize (IH Hl Hin). simpl. destruct (p x); simpl; lia.
Qed.

Lemma find_last_fresh {R} (key : R -> Z) (q : R -> bool) (rows : list R) (row : R) :
  (forall r, In r rows -> key r <> key row) -> q row = true ->
  find (fun r => (key r =? key row) && q r) (rows ++ [row]) = Some row.
Proof.
  intros Hfresh Hq. induction rows as [|x l IH]; simpl.
  - now rewrite Z.eqb_refl, Hq.
  - destruct (key x =? key row) eqn:E.
    + apply Z.eqb_eq in E. exfalso. apply (Hfresh x); simpl; auto.
    + cbn [andb]. apply IH. intros r Hr. apply Hfresh. now right.
Qed.

Lemma find_member_in_team (d : DB) (team_id member_id : Z) (m : Member.t) :
  keys_ok d -> In m (members d) -> Member.id m = member_id -> Member.team_id m = team_id ->
  find (fun r => (Member.id r =? member_id) && (Member.team_id r =? team_id)) (members d)
  = Some m.
Proof.
  intros (_ & Km & _ & _) Hin Hid Hteam.
  destruct (find _ (members d)) as [m'|] eqn:E.
  - apply find_some in E as [Hin' E]. apply andb_true_iff in E as [E _].
    apply Z.eqb_eq in E. f_equal.
    apply (keyed_inj Member.id (members d) m' m Km Hin' Hin). congruence.
  - exfalso. apply (find_none _ _ E) in Hin. rewrite Hid, Hteam, !Z.eqb_refl in Hin.
    discriminate.
Qed.

(** X7: [remove_team_member] binds the member key and the team key to its
    query, which SQLite refuses beyond 64 bits: the handler then raises
    [OverflowError] and stores nothing.  For keys in range it answers 404
    unless the member key belongs to a member of the addressed team, also
    when it belongs to a member of another team; otherwise it removes that
    one member: every other member stays, the team has exactly one member
    less and the other teams as many as before. *)
Theorem remove_team_member_outcome (t : datetime) (d : DB) (team_id member_id : Z) :
  reachable t d ->
  (sqlite_int member_id && sqlite_int team_id = false ->
   run (remove_team_member team_id member_id) d = (Raised OverflowError, d))
  /\ (sqlite_int member_id && sqlite_int team_id = true ->
      (forall m, In m (members d) -> Member.id m = member_id -> Member.team_id m <> team_id) ->
      run (remove_team_member team_id member_id) d
      = (Raised (HTTPException 404 "Member not found in this team"), d))
  /\ (sqlite_int member_id && sqlite_int team_id = true ->
      forall m, In m (members d) -> Member.id m = member_id -> Member.team_id m = team_id ->
      let d' :=
        mkDB (teams d) (filter (fun r => negb (Member.id r =? member_id)) (members d))
             (invitations d) (otps d) in
      run (remove_team_member team_id member_id) d = (Return tt, d')
      /\ ~ In m (members d')
      /\ (forall m', In m' (members d) -> m' <> m -> In m' (members d'))
      /\ S (member_count d' team_id) = member_count d team_id
      /\ (forall other, other <> team_id -> member_count d' other = member_count d other)).
Proof.
  intro Hr. pose proof (reachable_wf t d Hr) as [Hk _ _ _ _].
  pose proof (reachable_keys t d Hr) as K. pose proof K as (_ & Km & _ & _).
  split; [|split].
  - intro Hint. unfold run, run_with, remove_team_member, bind_int.
    destruct (sqlite_int member_id); [|reflexivity].
    cbn [andb] in Hint. rewrite Hint. reflexivity.
  - intros Hint Hnone. apply andb_true_iff in Hint as [Hm Ht].
    unfold run, run_with, remove_team_member, bind_int. rewrite Hm, Ht, !bind_ret.
    to_access. rewrite bind_access. cbn [fst snd].
    destruct (find _ (members d)) as [m|] eqn:E; [exfalso|reflexivity].
    apply find_some in E as [Hin E]. apply andb_true_iff in E as [E1 E2].
    apply Z.eqb_eq in E1, E2. exact (Hnone m Hin E1 E2).
  - intros Hint m Hin Hid Hteam d'. apply andb_true_iff in Hint as [Hm Ht].
    split; [|split; [|split; [|split]]].
    + unfold run, run_with, remove_team_member, bind_int. rewrite Hm, Ht, !bind_ret.
      to_access. rewrite bind_access. cbn [fst snd].
      rewrite (find_member_in_team d team_id member_id m K Hin Hid Hteam).
      repeat exec_step. rewrite Hid. fold d'.
      assert (constraints_ok d' = true) as -> by exact Hk. reflexivity.
    + subst d'. cbn [members]. intro C. apply filter_In in C as [_ C].
      rewrite Hid, Z.eqb_refl in C. discriminate.
    + intros m' Hin' Hne. subst d'. cbn [members]. apply filter_In. split; [assumption|].
      apply negb_true_iff, Z.eqb_neq. intro C. apply Hne.
      apply (keyed_inj Member.id (members d) m' m Km Hin' Hin). congruence.
    + unfold member_count. subst d'. cbn [members]. rewrite <- Hid.
      rewrite <- (filter_without_key Member.id (fun r => Member.team_id r =? team_id)
                    (members d) m (proj1 Km) Hin).
      rewrite Hteam, Z.eqb_refl. lia.
    + intros other Hne. unfold member_count. subst d'. cbn [members]. rewrite <- Hid.
      rewrite <- (filter_without_key Member.id (fun r => Member.team_id r =? other)
                    (members d) m (proj1 Km) Hin).
      destruct (Member.team_id m =? other) eqn:E; [|lia].
      apply Z.eqb_eq in E. congruence.
Qed.

(** X8: removing a member that [add_team_member] has just added, by the key
    it has answered, undoes the addition: the database is again the one
    before it.  The two keys are bound to the query of the removal; SQLite
    assigns and stores keys of 64 bits only, beyond which the removal raises
    [OverflowError] and stores nothing. *)
Theorem add_then_remove_member (d d1 : DB) (team_id : Z) (member : MemberCreate.t)
    (m : Member.t) :
  run (add_team_member team_id member) d = (Return m, d1) ->
  run (remove_team_member team_id (Member.id m)) d1
  = if sqlite_int (Member.id m) && sqlite_int team_id
    then (Return tt, d)
    else (Raised OverflowError, d1).
Proof.
  unfold run, run_with, add_team_member. exec; try discriminate.
  intro H. injection H as <- <-.
  unfold remove_team_member, bind_int. cbn [Member.id].
  destruct (sqlite_int (next_id (map Member.id (members d)))); [|reflexivity].
  destruct (sqlite_int team_id); [|reflexivity].
  cbn [andb]. rewrite !bind_ret.
  to_access. rewrite bind_access. cbn [fst snd members Member.id].
  set (row := Member.mk _ _ _ _ _ _).
  assert (forall r, In r (members d) -> Member.id r <> Member.id row) as Hfresh.
  { intros r Hin C.
    pose proof (next_id_above (map Member.id (members d)) (Member.id r) (in_map _ _ _ Hin)).
    subst row. cbn [Member.id] in C. lia. }
  assert (find (fun r => (Member.id r =? Member.id row) && (Member.team_id r =? team_id))
            (members d ++ [row]) = Some row) as Hf.
  { apply (find_last_fresh Member.id (fun r => Member.team_id r =? team_id) _ _ Hfresh).
    subst row. cbn [Member.team_id]. apply Z.eqb_refl. }
  change (next_id (map Member.id (members d))) with (Member.id row).
  rewrite Hf. repeat exec_step. cbn [members teams invitations otps].
  rewrite filter_app, (filter_other_keys Member.id _ _ Hfresh). cbn [filter].
  rewrite Z.eqb_refl. cbn [negb]. rewrite app_nil_r.
  assert (constraints_ok (mkDB (teams d) (members d) (invitations d) (otps d)) = true) as ->.
  { match goal with E : constraints_ok _ = true |- _ => exact E end. }
  now rewrite db_eta.
Qed.

(** ** Refusals *)

Lemma constraints_ok_same_keys (d d' : DB) :
  teams d' = teams d -> invitations d' = invitations d ->
  constraints_ok d' = constraints_ok d.
Proof. unfold constraints_ok. now intros -> ->. Qed.

(** X9: a request that is answered with an exception while the database
    itself works, whatever the exception, has stored nothing: the database
    is the one the request met.  This holds for the nine state-changing
    endpoints, and the [GET] handlers store nothing whatever they answer. *)
Theorem refused_request_stores_nothing (utcnow : datetime) (d : DB) :
  (forall rq e, refusal utcnow rq d = Some e -> handle utcnow rq d = d)
  /\ (forall fault skip limit, snd (run_with fault (get_all_teams skip limit) d) = d)
  /\ (forall fault team_id, snd (run_with fault (get_team team_id) d) = d)
  /\ (forall fault team_id, snd (run_with fault (get_team_members team_id) d) = d)
  /\ (forall fault team_id, snd (run_with fault (get_team_invitations team_id) d) = d)
  /\ (forall fault token, snd (run_with fault (get_invitation_details token utcnow) d) = d).
Proof.
  split; [|repeat split].
  - intros rq e. unfold refusal, refusal_with, handle, handle_with, error_of, run_with.
    destruct rq.
    + unfold create_team. exec; cbn; congruence.
    + unfold update_team. exec; cbn; congruence.
    + unfold delete_team. exec; cbn; congruence.
    + unfold add_team_member. exec; cbn; congruence.
    + unfold remove_team_member. exec; cbn; congruence.
    + unfold create_invitation. exec; cbn; try congruence.
      all: match goal with
           | E1 : constraints_ok ?a = true, E2 : constraints_ok ?b = false |- _ =>
               rewrite (constraints_ok_same_keys b a) in E1 by reflexivity;
               congruence
           end.
    + unfold resend_otp. exec; cbn; congruence.
    + unfold verify_otp. exec; cbn; congruence.
    + unfold join_team_via_invitation. exec; cbn; congruence.
  - intros fault skip limit. unfold run_with, get_all_teams.
    destruct fault as [n|]; exec; reflexivity.
  - intros fault team_id. unfold run_with, get_team. destruct fault as [n|]; exec; reflexivity.
  - intros fault team_id. unfold run_with, get_team_members.
    destruct fault as [n|]; exec; try reflexivity.
    all: unfold access, tick, bind; cbn; try reflexivity.
    all: destruct n; reflexivity.
  - intros fault team_id. unfold run_with, get_team_invitations.
    destruct fault as [n|]; exec; reflexivity.
  - intros fault token. unfold run_with, get_invitation_details.
    destruct fault as [n|]; exec; reflexivity.
Qed.

(** ** Rows and their team *)

Lemma invitation_team_found (d : DB) (token : str) (i : Invitation.t) :
  wf d -> find (fun r => str_eqb (Invitation.token r) token) (invitations d) = Some i ->
  find (fun r => Team.id r =? Invitation.team_id i) (teams d) <> None.
Proof.
  intros Hwf Hf C. apply find_some in Hf as [Hin _].
  destruct (wf_invitation_team d Hwf i Hin) as [team [Ht Hid]].
  exact (find_team_none _ _ _ C Ht Hid).
Qed.

(** X10: no member and no invitation outlives its team: in every database
    the API can build, [get_team] finds the team of each stored member and
    invitation.  Hence the join and the invitation details, which read
    [team.max_members] and [team.name] without testing that the team was
    found, never fail with [AttributeError], whatever the token, the clock
    and the failures of the database. *)
Theorem no_orphan_rows (t : datetime) (d : DB) :
  reachable t d ->
  (forall m, In m (members d) ->
     exists team, run (get_team (Member.team_id m)) d = (Return team, d))
  /\ (forall i, In i (invitations d) ->
        exists team, run (get_team (Invitation.team_id i)) d = (Return team, d))
  /\ (forall fault token join_data utcnow,
        fst (run_with fault (join_team_via_invitation token join_data utcnow) d)
        <> Raised AttributeError)
  /\ (forall fault token utcnow,
        fst (run_with fault (get_invitation_details token utcnow) d)
        <> Raised AttributeError).
Proof.
  intro Hr. pose proof (reachable_wf t d Hr) as Hwf.
  split; [|split; [|split]].
  - intros m Hin. destruct (wf_member_team d Hwf m Hin) as [team [Ht Hid]].
    rewrite get_team_run.
    destruct (find _ (teams d)) as [team'|] eqn:E; [now exists team'|].
    exfalso. exact (find_team_none _ _ _ E Ht Hid).
  - intros i Hin. destruct (wf_invitation_team d Hwf i Hin) as [team [Ht Hid]].
    rewrite get_team_run.
    destruct (find _ (teams d)) as [team'|] eqn:E; [now exists team'|].
    exfalso. exact (find_team_none _ _ _ E Ht Hid).
  - intros fault token join_data utcnow. unfold run_with, join_team_via_invitation.
    destruct fault as [n|]; exec; cbn; try discriminate.
    all: match goal with
         | W : wf ?x, Hi : find _ (invitations ?x) = Some ?i,
           Ht : find _ (teams ?x) = None |- _ =>
             exfalso; exact (invitation_team_found x _ i W Hi Ht)
         end.
  - intros fault token utcnow. unfold run_with, get_invitation_details.
    destruct fault as [n|]; exec; cbn; try discriminate.
    all: match goal with
         | W : wf ?x, Hi : find _ (invitations ?x) = Some ?i,
           Ht : find _ (teams ?x) = None |- _ =>
             exfalso; exact (invitation_team_found x _ i W Hi Ht)
         end.
Qed.

(** ** Joining *)

Lemma find_filter_nonempty {A} (p : A -> bool) (l : list A) :
  filter p l <> [] -> find p l <> None.
Proof.
  induction l as [|x l IH]; simpl; [tauto|].
  destruct (p x); [discriminate | exact IH].
Qed.

(** X11: a successful join stores one member with the team, email and phone
    of the invitation and the name and role of the request, and marks the
    invitation used, the stored row of the invitation reading [is_used]
    true; teams and OTPs are as before.  It never looks at the
    members the team has: the team then holds one more member with that
    email, also when it held one already, a case in which [add_team_member]
    on the same database refuses the same email. *)
Theorem join_ignores_existing_members (t : datetime) (d d' : DB) (i : Invitation.t)
    (join_data : JoinTeamRequest.t) (utcnow : datetime) (m : Member.t) :
  reachable t d -> In i (invitations d) ->
  run (join_team_via_invitation (Invitation.token i) join_data utcnow) d = (Return m, d') ->
  m = Member.mk (next_id (map Member.id (members d))) (Invitation.team_id i)
        (JoinTeamRequest.name join_data) (Invitation.email i) (Invitation.phone i)
        (JoinTeamRequest.role join_data)
  /\ d' = mkDB (teams d) (members d ++ [m])
               (update_row Invitation.id i (Invitation.set_is_used true) (invitations d))
               (otps d)
  /\ In (Invitation.set_is_used true i) (invitations d')
  /\ List.length (members_with_email d' (Invitation.team_id i) (Invitation.email i))
     = S (List.length (members_with_email d (Invitation.team_id i) (Invitation.email i)))
  /\ (members_with_email d (Invitation.team_id i) (Invitation.email i) <> [] ->
      forall member, MemberCreate.email member = Invitation.email i ->
      run (add_team_member (Invitation.team_id i) member) d
      = (Raised (HTTPException 400 "Member with this email already exists in the team"), d))
  /\ (exists row, In row (invitations d')
                  /\ Invitation.id row = Invitation.id i
                  /\ Invitation.token row = Invitation.token i
                  /\ Invitation.is_used row = true).
Proof.
  intros Hr Hin H. pose proof (reachable_wf t d Hr) as Hwf.
  rewrite (join_precedence_wf _ _ _ _ Hwf) in H. unfold join_by_precedence in H.
  rewrite (find_invitation_wf d i Hwf Hin) in H.
  destruct (first_failure _) eqn:F; [discriminate|]. injection H as <- <-.
  match goal with
  | |- context [joined d i ?x] => pose proof (proj1 (joined_consumes d i x Hin)) as Hrow
  end.
  unfold joined in *. split; [reflexivity|]. split; [reflexivity|]. cbn [invitations members].
  split; [|split; [|split; [|exact Hrow]]].
  - unfold update_row. apply in_map_iff. exists i. now rewrite Z.eqb_refl.
  - unfold members_with_email. cbn [members]. rewrite filter_app. cbn [filter Member.team_id Member.email].
    rewrite Z.eqb_refl, str_eqb_refl. cbn [andb]. rewrite length_app. cbn [List.length]. lia.
  - intros Hsome member Hmail. unfold first_failure in F. cbn [find fst] in F.
    destruct (Invitation.is_used i); [discriminate|].
    destruct (is_expired utcnow (Invitation.expires_at i)); [discriminate|].
    destruct (phone_set (Invitation.phone i) && negb (otp_verified d (Invitation.token i)));
      [discriminate|].
    destruct (Z.of_nat (member_count d (Invitation.team_id i))
              >=? team_max_members d (Invitation.team_id i)) eqn:Hroom; [discriminate|].
    unfold team_max_members in Hroom.
    unfold run, run_with, add_team_member. to_access. rewrite bind_access. cbn [fst snd].
    destruct (find (fun r => Team.id r =? Invitation.team_id i) (teams d)) as [team|] eqn:Et.
    + rewrite bind_access. cbn [fst snd]. fold (member_count d (Invitation.team_id i)).
      rewrite Hroom. rewrite bind_access. cbn [fst snd]. rewrite Hmail.
      apply find_filter_nonempty in Hsome.
      destruct (find _ (members d)); [reflexivity | contradiction].
    + exfalso. destruct (wf_invitation_team d Hwf i Hin) as [team [Ht Hid]].
      exact (find_team_none _ _ _ Et Ht Hid).
Qed.

(** ** Invitations *)

Lemma is_expired_false (u e : datetime) : is_expired u e = false <-> u <= e.
Proof. unfold is_expired. rewrite Z.gtb_ltb. apply Z.ltb_ge. Qed.

Lemma constraints_tokens (d : DB) :
  constraints_ok d = true -> distinct (map Invitation.token (invitations d)) = true.
Proof. unfold constraints_ok. intro H. apply andb_true_iff in H. tauto. Qed.

Lemma get_invitation_details_found (d : DB) (i : Invitation.t) (team : Team.t)
    (u : datetime) :
  constraints_ok d = true -> In i (invitations d) ->
  Invitation.is_used i = false -> u <= Invitation.expires_at i ->
  find (fun r => Team.id r =? Invitation.team_id i) (teams d) = Some team ->
  run (get_invitation_details (Invitation.token i) u) d
  = (Return (mkInvitationDetails (Invitation.email i) (Invitation.phone i)
               (Invitation.expires_at i) (not_none (Invitation.phone i))
               (Team.id team) (Team.name team) (Team.leader_name team)
               (Team.description team)), d).
Proof.
  intros Hk Hin Hu He Ht. unfold run, run_with, get_invitation_details. to_access.
  rewrite bind_access. cbn [fst snd].
  rewrite (find_unique_token _ _ (constraints_tokens d Hk) Hin), Hu.
  rewrite (proj2 (is_expired_false _ _) He).
  rewrite bind_access. cbn [fst snd]. rewrite Ht. reflexivity.
Qed.

(** X12: what a successful [create_invitation] stores and answers.  The
    invitation carries the team, the email, the drawn token, is unused and
    expires 48 hours after the clock reading; the link is the base URL,
    "/join/" and the token.  A non-empty phone is stored formatted, and then
    exactly one OTP row is added, for that phone and token, unverified and
    expiring 10 minutes after its clock reading; with no phone, or an empty
    one, no OTP row is added.  Teams and members are untouched, and until the
    expiry [get_invitation_details] answers the invitation with its team,
    [requires_otp] telling whether a phone was stored. *)
Theorem create_invitation_stores (d d' : DB) (team_id : Z) (invitation : InvitationCreate.t)
    (utcnow utcnow_inv utcnow_otp : datetime) (token otp_code : str)
    (row : Invitation.t) (link : str) :
  run (create_invitation team_id invitation utcnow utcnow_inv utcnow_otp token otp_code) d
  = (Return (row, link), d') ->
  let phone :=
    match InvitationCreate.phone invitation with
    | Some ((_ :: _) as p) => Some (format_phone_number p)
    | _ => None
    end in
  row = Invitation.mk (next_id (map Invitation.id (invitations d))) team_id
          (InvitationCreate.email invitation) phone token false
          (utcnow_inv + timedelta_hours 48)
  /\ link = BASE_URL ++ lit "/join/" ++ token
  /\ teams d' = teams d
  /\ members d' = members d
  /\ invitations d' = invitations d ++ [row]
  /\ otps d'
     = match phone with
       | Some p =>
           otps d ++ [OTP.mk (next_id (map OTP.id (otps d))) p otp_code token false
                        (utcnow_otp + timedelta_minutes 10)]
       | None => otps d
       end
  /\ (forall u, u <= utcnow_inv + timedelta_hours 48 ->
      exists team,
        In team (teams d) /\ Team.id team = team_id
        /\ run (get_invitation_details token u) d'
           = (Return (mkInvitationDetails (InvitationCreate.email invitation) phone
                        (utcnow_inv + timedelta_hours 48) (not_none phone) team_id
                        (Team.name team) (Team.leader_name team) (Team.description team)),
              d')).
Proof.
  intro H. unfold run, run_with, create_invitation in H. revert H.
  destruct (InvitationCreate.phone invitation) as [[|c p]|]; exec; try discriminate.
  all: try (exfalso; eapply format_phone_number_nonempty; eassumption).
  all: intro H; injection H as <- <- <-; cbv zeta.
  all: try match goal with H : format_phone_number _ = _ |- _ => rewrite <- H in * end.
  all: cbn [teams members invitations otps].
  all: split; [reflexivity|]; split; [reflexivity|]; split; [reflexivity|];
       split; [reflexivity|]; split; [reflexivity|]; split; [reflexivity|].
  all: intros u Hu.
  all: match goal with
       | Ht : find _ (teams _) = Some ?team |- _ =>
           exists team; pose proof (find_team_in _ _ _ Ht) as [Hin Hid];
           split; [exact Hin|]; split; [exact Hid|]; subst team_id
       end.
  all: match goal with
       | Ht : find _ (teams _) = Some ?team, Hk : constraints_ok ?x = true
         |- run (get_invitation_details _ _) ?x = (Return ?r, _) =>
           match r with
           | mkInvitationDetails _ ?ph _ _ _ _ _ _ =>
               apply (get_invitation_details_found x
                        (Invitation.mk (next_id (map Invitation.id (invitations d)))
                           (Team.id team) (InvitationCreate.email invitation) ph token false
                           (utcnow_inv + timedelta_hours 48)) team u Hk);
               [ cbn [invitations]; apply in_or_app; right; now left
               | reflexivity | exact Hu | exact Ht ]
           end
       end.
Qed.

Lemma distinct_repeated (l : list str) (x : str) :
  In x l -> distinct (l ++ [x]) = false.
Proof.
  induction l as [|y l IH]; simpl; [tauto|].
  intros [->|Hin].
  - assert (existsb (str_eqb x) (l ++ [x]) = true) as ->; [|reflexivity].
    apply existsb_exists. exists x. split; [apply in_or_app; right; now left|].
    apply str_eqb_refl.
  - rewrite (IH Hin). apply andb_false_r.
Qed.

(** X13: the token is drawn without looking at the stored ones.  When every
    check of [create_invitation] passes but the drawn token is the token of a
    stored invitation, used and expired ones included, the request fails on
    the unique index with [IntegrityError] rather than drawing again, and
    nothing is stored. *)
Theorem create_invitation_token_collision (d : DB) (team_id : Z)
    (invitation : InvitationCreate.t) (utcnow utcnow_inv utcnow_otp : datetime)
    (token otp_code : str) (team : Team.t) (other : Invitation.t) :
  find (fun r => Team.id r =? team_id) (teams d) = Some team ->
  Z.of_nat (member_count d team_id) < Team.max_members team ->
  (forall r, In r (invitations d) ->
             pending utcnow team_id (InvitationCreate.email invitation) r = false) ->
  (forall m, In m (members d) -> Member.team_id m = team_id ->
             Member.email m <> InvitationCreate.email invitation) ->
  In other (invitations d) -> Invitation.token other = token ->
  run (create_invitation team_id invitation utcnow utcnow_inv utcnow_otp token otp_code) d
  = (Raised IntegrityError, d).
Proof.
  intros Ht Hroom Hnone Hmem Hin Htok.
  assert (find (fun r => (Invitation.team_id r =? team_id)
                         && str_eqb (Invitation.email r) (InvitationCreate.email invitation)
                         && negb (Invitation.is_used r)
                         && (Invitation.expires_at r >? utcnow)) (invitations d) = None) as Hf.
  { destruct (find _ (invitations d)) as [r|] eqn:E; [|reflexivity].
    apply find_some in E as [Hr Hp]. specialize (Hnone r Hr). unfold pending in Hnone.
    congruence. }
  assert (find (fun r => (Member.team_id r =? team_id)
                         && str_eqb (Member.email r) (InvitationCreate.email invitation))
            (members d) = None) as Hm.
  { destruct (find _ (members d)) as [r|] eqn:E; [|reflexivity].
    apply find_some in E as [Hr Hp]. apply andb_true_iff in Hp as [H1 H2].
    apply Z.eqb_eq in H1. apply str_eqb_eq in H2. exfalso. exact (Hmem r Hr H1 H2). }
  unfold run, run_with, create_invitation. to_access.
  rewrite bind_access. cbn [fst snd]. rewrite Ht.
  rewrite bind_access. cbn [fst snd]. fold (member_count d team_id).
  assert ((Z.of_nat (member_count d team_id) >=? Team.max_members team) = false) as ->.
  { rewrite Z.geb_leb. apply Z.leb_gt. exact Hroom. }
  rewrite bind_access. cbn [fst snd]. rewrite Hf. cbn [not_none].
  rewrite bind_access. cbn [fst snd]. rewrite Hm. cbn [not_none].
  rewrite bind_access. cbn [fst snd]. rewrite bind_commit.
  match goal with
  | |- context [constraints_ok ?x] => assert (constraints_ok x = false) as ->
  end; [|reflexivity].
  unfold constraints_ok. cbn [teams invitations]. rewrite map_app. cbn [map Invitation.token].
  rewrite distinct_repeated; [apply andb_false_r|].
  rewrite <- Htok. now apply in_map.
Qed.

(** ** One-time passwords *)

Lemma find_app_last {A} (p : A -> bool) (l : list A) (x : A) :
  (forall r, In r l -> p r = false) ->
  find p (l ++ [x]) = if p x then Some x else None.
Proof.
  induction l as [|y l IH]; simpl; intro H; [reflexivity|].
  rewrite (H y) by auto. apply IH. auto.
Qed.

Lemma filter_app_last {A} (p : A -> bool) (l : list A) (x : A) :
  (forall r, In r l -> p r = false) ->
  filter p (l ++ [x]) = if p x then [x] else [].
Proof.
  induction l as [|y l IH]; simpl; intro H; [reflexivity|].
  rewrite (H y) by auto. apply IH. auto.
Qed.

Lemma in_filter_negb {A} (p : A -> bool) (l : list A) (r : A) :
  In r (filter (fun x => negb (p x)) l) -> p r = false.
Proof. intro H. apply filter_In in H as [_ H]. now apply negb_true_iff in H. Qed.

(** X14: [resend_otp] on a stored invitation.  Without a phone it answers
    "does not have a phone number", used or expired as the invitation may
    be; with a phone it refuses a used invitation, then an expired one.
    Otherwise it deletes the unverified OTP rows of the token and adds one
    row with the new code, for the phone of the invitation, expiring 10
    minutes after its clock reading: that row is then the only unverified
    one of the token, while verified rows and the rows of other tokens
    stay. *)
Theorem resend_otp_outcome (t : datetime) (d : DB) (i : Invitation.t)
    (utcnow utcnow_otp : datetime) (otp_code : str) :
  reachable t d -> In i (invitations d) ->
  let token := Invitation.token i in
  (Invitation.phone i = None ->
   run (resend_otp token utcnow utcnow_otp otp_code) d
   = (Raised (HTTPException 400 "This invitation does not have a phone number"), d))
  /\ (forall phone, Invitation.phone i = Some phone ->
      (Invitation.is_used i = true ->
       run (resend_otp token utcnow utcnow_otp otp_code) d
       = (Raised (HTTPException 400 "This invitation has already been used"), d))
      /\ (Invitation.is_used i = false -> Invitation.expires_at i < utcnow ->
          run (resend_otp token utcnow utcnow_otp otp_code) d
          = (Raised (HTTPException 400 "This invitation has expired"), d))
      /\ (Invitation.is_used i = false -> utcnow <= Invitation.expires_at i ->
          let kept :=
            filter (fun r => negb (str_eqb (OTP.invitation_token r) token
                                   && negb (OTP.is_verified r))) (otps d) in
          let new :=
            OTP.mk (next_id (map OTP.id kept)) phone otp_code token false
              (utcnow_otp + timedelta_minutes 10) in
          let d' := mkDB (teams d) (members d) (invitations d) (kept ++ [new]) in
          run (resend_otp token utcnow utcnow_otp otp_code) d
          = (Return ("OTP sent successfully"%string, phone,
                     utcnow_otp + timedelta_minutes 10), d')
          /\ unverified_otps d' token = [new]
          /\ (forall o, In o (otps d) ->
                OTP.invitation_token o <> token \/ OTP.is_verified o = true ->
                In o (otps d')))).
Proof.
  intros Hr Hin token. pose proof (reachable_wf t d Hr) as Hwf.
  pose proof Hwf as [Hk _ Hph _ _].
  pose proof (find_invitation_wf d i Hwf Hin) as Hf. fold token in Hf.
  split.
  - intro Hnone. unfold run, run_with, resend_otp. to_access.
    rewrite bind_access. cbn [fst snd]. rewrite Hf, Hnone. reflexivity.
  - intros phone Hp.
    assert (exists c p, phone = c :: p) as (c & p & ->).
    { destruct phone as [|c p]; [|eauto]. exfalso. exact (Hph i Hin Hp). }
    split; [|split].
    + intro Hu. unfold run, run_with, resend_otp. to_access.
      rewrite bind_access. cbn [fst snd]. rewrite Hf, Hp, Hu. reflexivity.
    + intros Hu He. unfold run, run_with, resend_otp. to_access.
      rewrite bind_access. cbn [fst snd]. rewrite Hf, Hp, Hu.
      assert (is_expired utcnow (Invitation.expires_at i) = true) as ->.
      { unfold is_expired. apply Z.gtb_lt. exact He. }
      reflexivity.
    + intros Hu He kept new d'. split; [|split].
      * unfold run, run_with, resend_otp. to_access.
        rewrite bind_access. cbn [fst snd]. rewrite Hf, Hp, Hu.
        rewrite (proj2 (is_expired_false _ _) He).
        repeat exec_step. cbn [teams members invitations otps].
        match goal with
        | |- context [constraints_ok ?x] => assert (constraints_ok x = true) as -> by exact Hk
        end.
        reflexivity.
      * unfold unverified_otps. subst d'. cbn [otps].
        rewrite filter_app_last.
        -- subst new. cbn [OTP.invitation_token OTP.is_verified].
           now rewrite str_eqb_refl.
        -- intros r Hr'. subst kept. exact (in_filter_negb _ _ _ Hr').
      * intros o Ho Hkeep. subst d'. cbn [otps]. apply in_or_app. left.
        subst kept. apply filter_In. split; [exact Ho|].
        apply negb_true_iff. destruct Hkeep as [Hne|Hv].
        -- destruct (str_eqb (OTP.invitation_token o) token) eqn:E; [|reflexivity].
           apply str_eqb_eq in E. contradiction.
        -- rewrite Hv. apply andb_false_r.
Qed.

(** X15: after a successful [resend_otp] only the new code verifies.  Any
    other code, the codes sent before included, is answered "Invalid OTP
    code"; the new code is refused as expired once more than 10 minutes have
    passed since it was issued, and up to then it verifies, after which the
    token has a verified OTP row. *)
Theorem resend_then_verify (d d' : DB) (token otp_code : str)
    (utcnow utcnow_otp : datetime) (r : string * str * datetime) :
  run (resend_otp token utcnow utcnow_otp otp_code) d = (Return r, d') ->
  (forall code u, code <> otp_code ->
     run (verify_otp (OTPVerify.mk token code) u) d'
     = (Raised (HTTPException 400 "Invalid OTP code"), d'))
  /\ (forall u, utcnow_otp + timedelta_minutes 10 < u ->
        run (verify_otp (OTPVerify.mk token otp_code) u) d'
        = (Raised (HTTPException 400 "OTP has expired. Please request a new one."), d'))
  /\ (forall u, u <= utcnow_otp + timedelta_minutes 10 ->
        exists d'',
          run (verify_otp (OTPVerify.mk token otp_code) u) d'
          = (Return ("OTP verified successfully"%string, true), d'')
          /\ otp_verified d'' token = true).
Proof.
  intro H. unfold run, run_with, resend_otp in H. revert H.
  exec; try discriminate. intro H. injection H as _ <-.
  match goal with
  | |- context [mkDB _ _ _ (?k ++ [?n])] => set (kept := k); set (new := n)
  end.
  assert (forall code r0, In r0 kept ->
            str_eqb (OTP.invitation_token r0) token && str_eqb (OTP.otp_code r0) code
            && negb (OTP.is_verified r0) = false) as Hkept.
  { intros code r0 Hr0. apply in_filter_negb in Hr0.
    destruct (str_eqb (OTP.invitation_token r0) token); [|reflexivity].
    cbn [andb] in *. rewrite Hr0. apply andb_false_r. }
  split; [|split].
  - intros code u Hne. unfold run, run_with, verify_otp. to_access.
    rewrite bind_access. cbn [fst snd otps OTPVerify.invitation_token OTPVerify.otp_code].
    rewrite (find_app_last _ _ _ (Hkept code)).
    subst new. cbn [OTP.invitation_token OTP.otp_code OTP.is_verified].
    destruct (str_eqb otp_code code) eqn:Ec.
    + apply str_eqb_eq in Ec. congruence.
    + rewrite andb_false_r. reflexivity.
  - intros u Hu. unfold run, run_with, verify_otp. to_access.
    rewrite bind_access. cbn [fst snd otps OTPVerify.invitation_token OTPVerify.otp_code].
    rewrite (find_app_last _ _ _ (Hkept otp_code)).
    subst new. cbn [OTP.invitation_token OTP.otp_code OTP.is_verified OTP.expires_at].
    rewrite !str_eqb_refl. cbn [andb negb OTP.expires_at].
    assert (is_expired u (get_otp_expiry utcnow_otp) = true) as ->.
    { unfold is_expired, get_otp_expiry. apply Z.gtb_lt. exact Hu. }
    reflexivity.
  - intros u Hu. eexists. split.
    + unfold run, run_with, verify_otp. to_access.
      rewrite bind_access. cbn [fst snd otps OTPVerify.invitation_token OTPVerify.otp_code].
      rewrite (find_app_last _ _ _ (Hkept otp_code)).
      subst new. cbn [OTP.invitation_token OTP.otp_code OTP.is_verified OTP.expires_at].
      rewrite !str_eqb_refl. cbn [andb negb OTP.expires_at].
      assert (is_expired u (get_otp_expiry utcnow_otp) = false) as ->.
      { apply is_expired_false. exact Hu. }
      repeat exec_step. cbn [teams members invitations otps].
      rewrite constraints_ok_otps.
      match goal with E : constraints_ok _ = true |- _ => rewrite constraints_ok_otps in E; rewrite E end.
      reflexivity.
    + unfold otp_verified. cbn [otps]. apply existsb_exists.
      exists (OTP.set_is_verified true new). split.
      * unfold update_row. apply in_map_iff. exists new. split.
        -- now rewrite Z.eqb_refl.
        -- apply in_or_app. right. now left.
      * subst new. cbn. now rewrite str_eqb_refl.
Qed.

(** ** From the invitation to the seat *)

Lemma create_invitation_inv (d d' : DB) (team_id : Z) (invitation : InvitationCreate.t)
    (utcnow utcnow_inv utcnow_otp : datetime) (token otp_code : str)
    (row : Invitation.t) (link : str) :
  run (create_invitation team_id invitation utcnow utcnow_inv utcnow_otp token otp_code) d
  = (Return (row, link), d') ->
  exists team,
    find (fun r => Team.id r =? team_id) (teams d) = Some team
    /\ Z.of_nat (member_count d team_id) < Team.max_members team
    /\ constraints_ok d' = true
    /\ row = Invitation.mk (next_id (map Invitation.id (invitations d))) team_id
               (InvitationCreate.email invitation)
               match InvitationCreate.phone invitation with
               | Some ((_ :: _) as p) => Some (format_phone_number p)
               | _ => None
               end token false (get_invitation_expiry utcnow_inv)
    /\ d' = mkDB (teams d) (members d) (invitations d ++ [row])
              match Invitation.phone row with
              | Some p =>
                  otps d ++ [OTP.mk (next_id (map OTP.id (otps d))) p otp_code token false
                               (get_otp_expiry utcnow_otp)]
              | None => otps d
              end.
Proof.
  intro H. unfold run, run_with, create_invitation in H. revert H.
  destruct (InvitationCreate.phone invitation) as [[|c p]|]; exec; try discriminate.
  all: try (exfalso; eapply format_phone_number_nonempty; eassumption).
  all: intro H; injection H as <- <- <-.
  all: try match goal with H : format_phone_number _ = _ |- _ => rewrite <- H in * end.
  all: match goal with
       | Ht : find _ (teams _) = Some ?team |- _ => exists team
       end.
  all: split; [reflexivity|]; split; [now apply geb_false_lt|]; split; [assumption|].
  all: split; reflexivity.
Qed.

Lemma existsb_false {A} (p : A -> bool) (l : list A) :
  (forall r, In r l -> p r = false) -> existsb p l = false.
Proof.
  intro H. destruct (existsb p l) eqn:E; [|reflexivity].
  apply existsb_exists in E as [x [Hin Hp]]. rewrite (H x Hin) in Hp. discriminate.
Qed.

Lemma seat_member_room (d : DB) (i : Invitation.t) (join_data : JoinTeamRequest.t)
    (team : Team.t) :
  find (fun r => Team.id r =? Invitation.team_id i) (teams d) = Some team ->
  Z.of_nat (member_count d (Invitation.team_id i)) < Team.max_members team ->
  seat_member d i join_data
  = (Return (Member.mk (next_id (map Member.id (members d))) (Invitation.team_id i)
               (JoinTeamRequest.name join_data) (Invitation.email i) (Invitation.phone i)
               (JoinTeamRequest.role join_data)),
     joined d i (Member.mk (next_id (map Member.id (members d))) (Invitation.team_id i)
                   (JoinTeamRequest.name join_data) (Invitation.email i) (Invitation.phone i)
                   (JoinTeamRequest.role join_data))).
Proof.
  intros Ht Hroom. unfold seat_member, team_max_members. rewrite Ht.
  assert ((Z.of_nat (member_count d (Invitation.team_id i)) >=? Team.max_members team)
          = false) as ->; [|reflexivity].
  rewrite Z.geb_leb. now apply Z.leb_gt.
Qed.

(** X16: the way from an invitation to a seat.  After a successful
    [create_invitation] with a token that no stored OTP row carries, and with
    no other request in between, a join by the token before the 48 hours are
    over goes as follows.  Without a phone it succeeds at once.  With a phone
    it is refused by "OTP verification required"; verifying the issued code
    within its 10 minutes succeeds, and the join after it succeeds.  The new
    member has the email and the formatted phone of the invitation and
    belongs to its team. *)
Theorem invite_verify_join (t : datetime) (d d1 : DB) (team_id : Z)
    (invitation : InvitationCreate.t) (utcnow utcnow_inv utcnow_otp : datetime)
    (token otp_code : str) (row : Invitation.t) (link : str)
    (join_data : JoinTeamRequest.t) (u : datetime) :
  reachable t d ->
  run (create_invitation team_id invitation utcnow utcnow_inv utcnow_otp token otp_code) d
  = (Return (row, link), d1) ->
  (forall o, In o (otps d) -> OTP.invitation_token o <> token) ->
  u <= utcnow_inv + timedelta_hours 48 ->
  (Invitation.phone row = None ->
   exists m d2,
     run (join_team_via_invitation token join_data u) d1 = (Return m, d2)
     /\ In m (members d2)
     /\ Member.team_id m = team_id
     /\ Member.email m = InvitationCreate.email invitation
     /\ Member.phone m = None)
  /\ (forall phone, Invitation.phone row = Some phone ->
      run (join_team_via_invitation token join_data u) d1
      = (Raised (HTTPException 400
                   "OTP verification required. Please verify your phone number first."), d1)
      /\ forall v, v <= utcnow_otp + timedelta_minutes 10 ->
         exists d2 m d3,
           run (verify_otp (OTPVerify.mk token otp_code) v) d1
           = (Return ("OTP verified successfully"%string, true), d2)
           /\ run (join_team_via_invitation token join_data u) d2 = (Return m, d3)
           /\ In m (members d3)
           /\ Member.team_id m = team_id
           /\ Member.email m = InvitationCreate.email invitation
           /\ Member.phone m = Some phone).
Proof.
  intros Hr H Hfresh Hu. pose proof (reachable_wf t d Hr) as Hwf.
  assert (wf d1) as Hwf1.
  { assert (d1 = handle_with None utcnow
                   (CreateInvitation team_id invitation utcnow_inv utcnow_otp token otp_code)
                   d) as ->.
    { unfold handle_with. unfold run in H. now rewrite H. }
    eapply changes_wf; [apply handle_changes; reflexivity | exact Hwf]. }
  destruct (create_invitation_inv _ _ _ _ _ _ _ _ _ _ _ H)
    as (team & Ht & Hroom & Hk1 & Hrow & Hd1).
  assert (Invitation.token row = token) as Htok by now rewrite Hrow.
  assert (Invitation.team_id row = team_id) as Hteam by now rewrite Hrow.
  assert (Invitation.email row = InvitationCreate.email invitation) as Hmail
    by now rewrite Hrow.
  assert (Invitation.is_used row = false) as Hused by now rewrite Hrow.
  assert (is_expired u (Invitation.expires_at row) = false) as Hexp.
  { rewrite Hrow. apply is_expired_false. exact Hu. }
  assert (In row (invitations d1)) as Hin.
  { rewrite Hd1. cbn [invitations]. apply in_or_app. right. now left. }
  assert (teams d1 = teams d) as Hteams by now rewrite Hd1.
  assert (members d1 = members d) as Hmembers by now rewrite Hd1.
  pose proof (join_unused_unexpired d1 row join_data u Hwf1 Hin Hused Hexp) as Hjoin.
  rewrite Htok in Hjoin.
  split.
  - intro Hp. rewrite Hp in Hjoin. cbn [phone_set not_none andb] in Hjoin.
    rewrite (seat_member_room d1 row join_data team) in Hjoin.
    + eexists. eexists. split; [exact Hjoin|]. unfold joined. cbn [members].
      split; [apply in_or_app; right; now left|].
      cbn [Member.team_id Member.email Member.phone]. auto.
    + rewrite Hteams, Hteam. exact Ht.
    + unfold member_count. rewrite Hmembers, Hteam. exact Hroom.
  - intros phone Hp. rewrite Hp in Hd1.
    set (new := OTP.mk (next_id (map OTP.id (otps d))) phone otp_code token false
                  (get_otp_expiry utcnow_otp)) in *.
    assert (forall (q : OTP.t -> bool) r, In r (otps d) ->
              str_eqb (OTP.invitation_token r) token && q r = false) as Hother.
    { intros q r Hr'. destruct (str_eqb (OTP.invitation_token r) token) eqn:E; [|reflexivity].
      apply str_eqb_eq in E. exfalso. exact (Hfresh r Hr' E). }
    split.
    + rewrite Hjoin, Hp. cbn [phone_set not_none andb].
      assert (otp_verified d1 token = false) as ->; [|reflexivity].
      unfold otp_verified. rewrite Hd1. cbn [otps]. rewrite existsb_app.
      rewrite (existsb_false _ _ (Hother OTP.is_verified)).
      subst new. cbn [existsb OTP.is_verified orb]. now rewrite andb_false_r.
    + intros v Hv.
      set (d2 := mkDB (teams d1) (members d1) (invitations d1)
                   (update_row OTP.id new (OTP.set_is_verified true) (otps d1))).
      assert (run (verify_otp (OTPVerify.mk token otp_code) v) d1
              = (Return ("OTP verified successfully"%string, true), d2)) as Hverify.
      { unfold run, run_with, verify_otp. to_access. rewrite bind_access.
        cbn [fst snd OTPVerify.invitation_token OTPVerify.otp_code].
        assert (find (fun r => str_eqb (OTP.invitation_token r) token
                               && str_eqb (OTP.otp_code r) otp_code
                               && negb (OTP.is_verified r)) (otps d1) = Some new) as ->.
        { rewrite Hd1. cbn [otps]. rewrite find_app_last.
          - subst new. cbn [OTP.invitation_token OTP.otp_code OTP.is_verified].
            now rewrite !str_eqb_refl.
          - intros r Hr'. rewrite <- andb_assoc.
            apply (Hother (fun r => str_eqb (OTP.otp_code r) otp_code
                                   && negb (OTP.is_verified r)) r Hr'). }
        assert (is_expired v (OTP.expires_at new) = false) as ->.
        { apply is_expired_false. exact Hv. }
        repeat exec_step. cbn [teams members invitations otps]. fold d2.
        assert (constraints_ok d2 = true) as -> by exact Hk1. reflexivity. }
      assert (wf d2) as Hwf2 by exact (wf_with_otps d1 _ Hwf1).
      pose proof (join_unused_unexpired d2 row join_data u Hwf2 Hin Hused Hexp) as Hjoin2.
      rewrite Htok, Hp in Hjoin2. cbn [phone_set not_none andb] in Hjoin2.
      assert (otp_verified d2 token = true) as Hv2.
      { unfold otp_verified. apply existsb_exists.
        exists (OTP.set_is_verified true new). split.
        - subst d2. cbn [otps]. unfold update_row. apply in_map_iff. exists new. split.
          + now rewrite Z.eqb_refl.
          + rewrite Hd1. cbn [otps]. apply in_or_app. right. now left.
        - subst new. cbn. now rewrite str_eqb_refl. }
      rewrite Hv2 in Hjoin2. cbn [negb] in Hjoin2.
      rewrite (seat_member_room d2 row join_data team) in Hjoin2.
      * exists d2. eexists. eexists. split; [exact Hverify|]. split; [exact Hjoin2|].
        unfold joined. cbn [members].
        split; [apply in_or_app; right; now left|].
        cbn [Member.team_id Member.email Member.phone]. auto.
      * subst d2. cbn [teams]. rewrite Hteams, Hteam. exact Ht.
      * unfold member_count. subst d2. cbn [members]. rewrite Hmembers, Hteam. exact Hroom.
Qed.

Lemma get_invitation_details_run (token : str) (utcnow : datetime) (d : DB) :
  run (get_invitation_details token utcnow) d
  = match find (fun r => str_eqb (Invitation.token r) token) (invitations d) with
    | None => (Raised (HTTPException 404 "Invitation not found"), d)
    | Some i =>
        if Invitation.is_used i
        then (Raised (HTTPException 400 "This invitation has already been used"), d)
        else if is_expired utcnow (Invitation.expires_at i)
        then (Raised (HTTPException 400 "This invitation has expired"), d)
        else match find (fun r => Team.id r =? Invitation.team_id i) (teams d) with
             | None => (Raised AttributeError, d)
             | Some team =>
                 (Return (mkInvitationDetails (Invitation.email i) (Invitation.phone i)
                            (Invitation.expires_at i) (not_none (Invitation.phone i))
                            (Team.id team) (Team.name team) (Team.leader_name team)
                            (Team.description team)), d)
             end
    end.
Proof. unfold run, run_with, get_invitation_details. exec; reflexivity. Qed.

(** X17: the invitation page and the join agree.  Whatever
    [get_invitation_details] refuses (unknown token, used, expired), the join
    at the same instant refuses with the same answer.  When it answers, the
    answer shows a stored, unused, unexpired invitation and its team, with
    [requires_otp] set exactly when the invitation has a phone; the join then
    succeeds or fails for one of the two reasons the page does not test: the
    OTP is not verified (only when [requires_otp] is set), or the team is
    full. *)
Theorem details_agree_with_join (t : datetime) (d : DB) (token : str) (utcnow : datetime)
    (join_data : JoinTeamRequest.t) :
  reachable t d ->
  (forall e, fst (run (get_invitation_details token utcnow) d) = Raised e ->
     run (join_team_via_invitation token join_data utcnow) d = (Raised e, d))
  /\ (forall r, fst (run (get_invitation_details token utcnow) d) = Return r ->
      exists i team,
        In i (invitations d) /\ Invitation.token i = token
        /\ Invitation.is_used i = false /\ utcnow <= Invitation.expires_at i
        /\ In team (teams d) /\ Team.id team = Invitation.team_id i
        /\ r = mkInvitationDetails (Invitation.email i) (Invitation.phone i)
                 (Invitation.expires_at i) (phone_set (Invitation.phone i))
                 (Invitation.team_id i) (Team.name team) (Team.leader_name team)
                 (Team.description team)
        /\ ((exists m d', run (join_team_via_invitation token join_data utcnow) d
                          = (Return m, d'))
            \/ (requires_otp r = true
                /\ run (join_team_via_invitation token join_data utcnow) d
                   = (Raised (HTTPException 400
                        "OTP verification required. Please verify your phone number first."),
                      d))
            \/ run (join_team_via_invitation token join_data utcnow) d
               = (Raised (team_is_full (Team.max_members team)), d))).
Proof.
  intro Hr. pose proof (reachable_wf t d Hr) as Hwf.
  rewrite get_invitation_details_run, (join_precedence_wf _ _ _ _ Hwf).
  unfold join_by_precedence, first_failure.
  destruct (find (fun r => str_eqb (Invitation.token r) token) (invitations d))
    as [i|] eqn:Ei.
  - pose proof (invitation_team_found d token i Hwf Ei) as Hteam.
    apply find_invitation_in in Ei as [Hin Htok].
    destruct (Invitation.is_used i) eqn:Hu; cbn [find fst snd option_map].
    { split; [intros e H; injection H as <-; reflexivity | intros r H; discriminate]. }
    destruct (is_expired utcnow (Invitation.expires_at i)) eqn:He;
      cbn [find fst snd option_map].
    { split; [intros e H; injection H as <-; reflexivity | intros r H; discriminate]. }
    destruct (find (fun r => Team.id r =? Invitation.team_id i) (teams d)) as [team|] eqn:Et;
      [|contradiction].
    split; [intros e H; discriminate|]. intros r H. injection H as <-.
    apply find_team_in in Et as HE. destruct HE as [Htin Hid].
    exists i, team. rewrite Hid.
    repeat (split; [first [assumption | reflexivity | now apply is_expired_false]|]).
    cbn [requires_otp]. unfold team_max_members. rewrite Et.
    destruct (phone_set (Invitation.phone i) && negb (otp_verified d token)) eqn:Ho;
      cbn [find fst snd option_map].
    { right. left. apply andb_true_iff in Ho as [Ho _]. split; [exact Ho | reflexivity]. }
    destruct (Z.of_nat (member_count d (Invitation.team_id i)) >=? Team.max_members team);
      cbn [find fst snd option_map].
    + right. right. reflexivity.
    + left. eexists. eexists. reflexivity.
  - split; [intros e H; injection H as <-; reflexivity | intros r H; discriminate].
Qed.

(** ** Tokens, codes and phones *)

Lemma choice_in (seq : str) (draw : nat) : seq <> [] -> In (choice seq draw) seq.
Proof.
  intro H. unfold choice. apply nth_In. apply Nat.mod_upper_bound.
  destruct seq; [contradiction | discriminate].
Qed.

(** X18: whatever the system draws, [generate_invite_token] answers as many
    characters as asked for (32 by default), each an ASCII letter or digit,
    and [generate_otp] as many ASCII digits as asked for; the default 6-digit
    code is one that the schema of [verify_otp] accepts. *)
Theorem generated_codes (draws : nat -> nat) (length : Z) :
  List.length (generate_invite_token draws length) = Z.to_nat length
  /\ Forall (fun c => In c (ascii_letters ++ digits)) (generate_invite_token draws length)
  /\ List.length (generate_otp draws length) = Z.to_nat length
  /\ forallb ascii_digit (generate_otp draws length) = true
  /\ (forall token, validated (VerifyOtp (OTPVerify.mk token (generate_otp draws 6))) = true).
Proof.
  unfold generate_invite_token, generate_otp.
  split; [now rewrite length_map, length_seq|].
  split.
  { apply Forall_forall. intros c Hc. apply in_map_iff in Hc as [k [<- _]].
    apply choice_in. discriminate. }
  split; [now rewrite length_map, length_seq|].
  split.
  { apply forallb_forall. intros c Hc. apply in_map_iff in Hc as [k [<- _]].
    pose proof (choice_in digits (draws k)) as Hin.
    assert (forallb ascii_digit digits = true) as Hd by reflexivity.
    rewrite forallb_forall in Hd. apply Hd, Hin. discriminate. }
  intro token. reflexivity.
Qed.

Lemma ascii_digit_isdigit (c : char) : ascii_digit c = true -> isdigit c = true.
Proof.
  unfold ascii_digit, isdigit. intro H. pose proof H as H'.
  apply andb_true_iff in H' as [_ H']. apply N.leb_le in H'.
  assert ((c <? 128)%N = true) as -> by (apply N.ltb_lt; lia). exact H.
Qed.

Lemma filter_ascii_digits (s : str) :
  forallb ascii_digit s = true -> filter isdigit s = s.
Proof.
  induction s as [|c s IH]; simpl; [reflexivity|]. intro H.
  apply andb_true_iff in H as [Hc Hs]. rewrite (ascii_digit_isdigit c Hc). f_equal. auto.
Qed.

Lemma phone_pattern_plus (r : str) :
  phone_pattern (43%N :: r)
  = match r with
    | c :: r' =>
        (49 <=? c)%N && (c <=? 57)%N && forallb ascii_digit r'
        && (1 <=? List.length r')%nat && (List.length r' <=? 14)%nat
    | [] => false
    end.
Proof. reflexivity. Qed.

Lemma phone_pattern_no_plus (c : char) (r : str) :
  c <> 43%N ->
  phone_pattern (c :: r)
  = (49 <=? c)%N && (c <=? 57)%N && forallb ascii_digit r
    && (1 <=? List.length r)%nat && (List.length r <=? 14)%nat.
Proof.
  intro Hc. unfold phone_pattern. destruct c as [|p]; [reflexivity|].
  do 6 (try destruct p as [p|p|]); try reflexivity. congruence.
Qed.

Lemma phone_body_digits (c : char) (r : str) :
  (49 <=? c)%N && (c <=? 57)%N && forallb ascii_digit r
  && (1 <=? List.length r)%nat && (List.length r <=? 14)%nat = true ->
  forallb ascii_digit (c :: r) = true /\ c <> 43%N.
Proof.
  intro Hb. apply andb_true_iff in Hb as [Hb _]. apply andb_true_iff in Hb as [Hb _].
  apply andb_true_iff in Hb as [Hb Hr]. apply andb_true_iff in Hb as [H1 H2].
  apply N.leb_le in H1, H2. split.
  - cbn [forallb]. rewrite Hr. unfold ascii_digit.
    assert ((48 <=? c)%N = true) as -> by (apply N.leb_le; lia).
    assert ((c <=? 57)%N = true) as -> by (apply N.leb_le; lia). reflexivity.
  - lia.
Qed.

(** X19: on a phone that the schema pattern [^\+?[1-9]\d{1,14}$] accepts in
    ASCII, [format_phone_number] drops nothing: it answers the phone itself
    when it starts with "+" and the phone after a "+" otherwise, and the
    answer is again a phone the pattern accepts. *)
Theorem format_phone_number_accepted (phone : str) :
  phone_pattern phone = true ->
  format_phone_number phone
  = (if startswith phone (lit "+") then phone else lit "+" ++ phone)
  /\ phone_pattern (format_phone_number phone) = true.
Proof.
  intro H.
  assert (forall p, format_phone_number p = lit "+" ++ filter isdigit p) as E.
  { intro p. unfold format_phone_number. now destruct (negb (startswith p (lit "+"))). }
  rewrite !E. change (lit "+") with [43%N]. unfold startswith. cbn [List.length].
  destruct phone as [|c r]; [discriminate|].
  cbn [firstn str_eqb].
  destruct (N.eq_dec c 43) as [->|Hc].
  - destruct r as [|c' r']; [discriminate|].
    pose proof H as Hb. rewrite phone_pattern_plus in Hb.
    destruct (phone_body_digits c' r' Hb) as [Hd _].
    cbn [forallb] in Hd. apply andb_true_iff in Hd as [Hc' Hr'].
    cbn [filter app]. rewrite isdigit_plus, (ascii_digit_isdigit _ Hc').
    rewrite (filter_ascii_digits _ Hr').
    split; [reflexivity | exact H].
  - pose proof H as Hb. rewrite (phone_pattern_no_plus c r Hc) in Hb.
    destruct (phone_body_digits c r Hb) as [Hd _].
    rewrite (filter_ascii_digits _ Hd).
    assert ((c =? 43)%N = false) as -> by now apply N.eqb_neq.
    split; [reflexivity|]. cbn [app]. rewrite phone_pattern_plus. exact Hb.
Qed.

(** ** Listings *)

Lemma invite_link_inj (a b : str) : invite_link a = invite_link b -> a = b.
Proof.
  unfold invite_link. intro H. apply app_inv_head in H. now apply app_inv_head in H.
Qed.

Lemma NoDup_map_inj {A B} (g : A -> B) (l : list A) :
  (forall a b, g a = g b -> a = b) -> NoDup l -> NoDup (map g l).
Proof.
  intros Hg Hn. induction Hn as [|x l Hx Hl IH]; simpl; constructor; [|exact IH].
  intro C. apply in_map_iff in C as [y [Hy Hin]]. apply Hg in Hy. now subst.
Qed.

(** X20: the listings of a team.  Both [get_team_members] and
    [get_team_invitations] bind the team key to their first query, which
    SQLite refuses beyond 64 bits: they then raise [OverflowError].  For a key
    in range and a team that is not stored both answer 404, and nothing is
    hidden by it: no stored member or invitation points at that team.  For a
    stored team they answer exactly its members, as many as the capacity
    checks count, and exactly its invitations, used and expired ones too,
    each with the link made of its token; no two listed invitations share a
    link. *)
Theorem team_listings (t : datetime) (d : DB) (team_id : Z) :
  reachable t d ->
  (sqlite_int team_id = false ->
   run (get_team_members team_id) d = (Raised OverflowError, d)
   /\ run (get_team_invitations team_id) d = (Raised OverflowError, d))
  /\ (sqlite_int team_id = true ->
      (forall r, In r (teams d) -> Team.id r <> team_id) ->
      run (get_team_members team_id) d = (Raised (HTTPException 404 "Team not found"), d)
      /\ run (get_team_invitations team_id) d
         = (Raised (HTTPException 404 "Team not found"), d)
      /\ (forall m, In m (members d) -> Member.team_id m <> team_id)
      /\ (forall i, In i (invitations d) -> Invitation.team_id i <> team_id))
  /\ (sqlite_int team_id = true ->
      (exists r, In r (teams d) /\ Team.id r = team_id) ->
      exists ms ivs,
        run (get_team_members team_id) d = (Return ms, d)
        /\ run (get_team_invitations team_id) d = (Return ivs, d)
        /\ (forall m, In m ms <-> In m (members d) /\ Member.team_id m = team_id)
        /\ List.length ms = member_count d team_id
        /\ (forall i link,
              In (i, link) ivs
              <-> In i (invitations d) /\ Invitation.team_id i = team_id
                  /\ link = invite_link (Invitation.token i))
        /\ NoDup (map snd ivs)).
Proof.
  intro Hr. pose proof (reachable_wf t d Hr) as Hwf.
  split; [|split].
  - intro Hint. unfold run, run_with, get_team_members, get_team_invitations, bind_int.
    rewrite Hint. split; reflexivity.
  - intros Hint Hnone.
    assert (find (fun r => Team.id r =? team_id) (teams d) = None) as Hf.
    { destruct (find _ (teams d)) as [r|] eqn:E; [|reflexivity].
      apply find_team_in in E as [Hin Hid]. exfalso. exact (Hnone r Hin Hid). }
    split; [|split; [|split]].
    + unfold run, run_with, get_team_members, bind_int. rewrite Hint, bind_ret.
      to_access. rewrite bind_access. cbn [fst snd]. now rewrite Hf.
    + unfold run, run_with, get_team_invitations, bind_int. rewrite Hint, bind_ret.
      to_access. rewrite bind_access. cbn [fst snd]. now rewrite Hf.
    + intros m Hin C. destruct (wf_member_team d Hwf m Hin) as [r [Hr' Hid]].
      apply (Hnone r Hr'). congruence.
    + intros i Hin C. destruct (wf_invitation_team d Hwf i Hin) as [r [Hr' Hid]].
      apply (Hnone r Hr'). congruence.
  - intros Hint [r [Hin Hid]].
    destruct (find (fun r => Team.id r =? team_id) (teams d)) as [team|] eqn:Hf;
      [|exfalso; exact (find_team_none _ _ _ Hf Hin Hid)].
    exists (filter (fun r => Member.team_id r =? team_id) (members d)).
    exists (map (fun inv => (inv, invite_link (Invitation.token inv)))
              (filter (fun r => Invitation.team_id r =? team_id) (invitations d))).
    split; [|split; [|split; [|split; [|split]]]].
    + unfold run, run_with, get_team_members, bind_int. rewrite Hint, bind_ret.
      to_access. rewrite bind_access. cbn [fst snd]. rewrite Hf. reflexivity.
    + unfold run, run_with, get_team_invitations, bind_int. rewrite Hint, bind_ret.
      to_access. rewrite bind_access. cbn [fst snd]. rewrite Hf. reflexivity.
    + intro m. rewrite filter_In, Z.eqb_eq. tauto.
    + reflexivity.
    + intros i link. rewrite in_map_iff. split.
      * intros [x [Hx Hi]]. injection Hx as -> <-. apply filter_In in Hi as [Hi Ht].
        apply Z.eqb_eq in Ht. auto.
      * intros (Hi & Ht & ->). exists i. split; [reflexivity|].
        apply filter_In. split; [exact Hi | now apply Z.eqb_eq].
    + rewrite map_map. cbn [snd].
      rewrite <- (map_map Invitation.token invite_link).
      apply NoDup_map_inj; [exact invite_link_inj|].
      apply NoDup_map_filter. apply distinct_NoDup, constraints_tokens.
      exact (wf_constraints d Hwf).
Qed.

(** ** Pages *)

Lemma firstn_skipn_add {A} (a b : nat) (l : list A) :
  firstn a l ++ firstn b (skipn a l) = firstn (a + b) l.
Proof.
  revert l. induction a as [|a IH]; intros l; simpl; [reflexivity|].
  destruct l as [|x l]; simpl.
  - now rewrite firstn_nil.
  - now rewrite IH.
Qed.

(** X21: [get_all_teams] pages through the teams.  [limit] and [skip] are
    bound to the query, which SQLite refuses beyond 64 bits: the handler
    then raises [OverflowError].  With a page size [limit] above zero and
    offsets in range, the pages at offsets [0], [limit], [2 * limit], ... put
    one after the other are the stored teams in their order, none skipped and
    none repeated, up to the end of the last page asked for; a single page
    from offset zero that is at least as long as the table is the whole
    table. *)
Theorem get_all_teams_pages (d : DB) (limit : Z) (pages : nat) :
  0 < limit ->
  sqlite_int (Z.of_nat pages * limit) = true ->
  (exists answers,
     Forall2 (fun k page =>
                run (get_all_teams (Z.of_nat k * limit) limit) d = (Return page, d))
       (seq 0 pages) answers
     /\ List.concat answers = firstn (pages * Z.to_nat limit) (teams d))
  /\ (sqlite_int limit = true -> Z.of_nat (List.length (teams d)) <= limit ->
      run (get_all_teams 0 limit) d = (Return (teams d), d))
  /\ (forall skip limit', sqlite_int limit' && sqlite_int skip = false ->
        run (get_all_teams skip limit') d = (Raised OverflowError, d)).
Proof.
  intros Hl Hrange.
  assert (forall skip, sqlite_int limit = true -> sqlite_int skip = true ->
            run (get_all_teams skip limit) d
            = (Return (firstn (Z.to_nat limit) (skipn (Z.to_nat skip) (teams d))), d))
    as Hrun.
  { intros skip H1 H2. unfold run, run_with, get_all_teams, bind_int, read, offset_limit.
    rewrite H1, H2, !bind_ret.
    assert ((limit <? 0) = false) as Hneg by (apply Z.ltb_ge; lia).
    unfold access, tick, bind. cbn. now rewrite Hneg. }
  assert (forall k, (k <= pages)%nat -> (0 < k)%nat -> sqlite_int limit = true) as Hlim.
  { intros k Hk Hk0. unfold sqlite_int in *. apply andb_true_iff in Hrange as [L U].
    apply Z.leb_le in L, U. apply andb_true_iff. split; apply Z.leb_le; nia. }
  assert (forall k, (k < pages)%nat -> sqlite_int (Z.of_nat k * limit) = true) as Hoff.
  { intros k Hk. unfold sqlite_int in *. apply andb_true_iff in Hrange as [L U].
    apply Z.leb_le in L, U. apply andb_true_iff. split; apply Z.leb_le; nia. }
  split; [|split].
  - clear Hrange. induction pages as [|n IH].
    + exists []. split; [constructor | reflexivity].
    + destruct IH as [answers [HF HC]].
      { intros k Hk Hk0. apply (Hlim k); lia. }
      { intros k Hk. apply Hoff. lia. }
      exists (answers ++ [firstn (Z.to_nat limit)
                            (skipn (Z.to_nat (Z.of_nat n * limit)) (teams d))]).
      split.
      * rewrite seq_S. apply Forall2_app; [exact HF|]. constructor; [|constructor].
        cbn [Nat.add]. apply Hrun; [apply (Hlim (S n)); lia | apply Hoff; lia].
      * rewrite concat_app, HC. cbn [List.concat]. rewrite app_nil_r.
        replace (Z.to_nat (Z.of_nat n * limit)) with (n * Z.to_nat limit)%nat by nia.
        rewrite firstn_skipn_add. f_equal. lia.
  - intros Hint Hall. rewrite Hrun by (assumption || reflexivity). cbn [Z.to_nat skipn].
    rewrite firstn_all2; [reflexivity | lia].
  - intros skip limit' Hint. unfold run, run_with, get_all_teams, bind_int.
    destruct (sqlite_int limit'); [|reflexivity].
    cbn [andb] in Hint. rewrite Hint. reflexivity.
Qed.

(** ** A failing database between the two commits *)

Lemma create_invitation_passed (d d' : DB) (team_id : Z) (invitation : InvitationCreate.t)
    (utcnow utcnow_inv utcnow_otp : datetime) (token otp_code : str)
    (row : Invitation.t) (link : str) :
  run (create_invitation team_id invitation utcnow utcnow_inv utcnow_otp token otp_code) d
  = (Return (row, link), d') ->
  find (fun r => (Invitation.team_id r =? team_id)
                 && str_eqb (Invitation.email r) (InvitationCreate.email invitation)
                 && negb (Invitation.is_used r)
                 && (Invitation.expires_at r >? utcnow)) (invitations d) = None
  /\ find (fun r => (Member.team_id r =? team_id)
                    && str_eqb (Member.email r) (InvitationCreate.email invitation))
       (members d) = None
  /\ constraints_ok (mkDB (teams d) (members d) (invitations d ++ [row]) (otps d)) = true.
Proof.
  intro H. unfold run, run_with, create_invitation in H. revert H.
  destruct (InvitationCreate.phone invitation) as [[|c p]|]; exec; try discriminate.
  all: try (exfalso; eapply format_phone_number_nonempty; eassumption).
  all: intro H; injection H as <- <- <-.
  all: try match goal with H : format_phone_number _ = _ |- _ => rewrite <- H in * end.
  all: repeat match goal with
       | H : not_none _ = false |- _ => apply not_none_false in H
       end.
  all: split; [first [assumption | reflexivity]|];
       split; [first [assumption | reflexivity]|]; assumption.
Qed.

(** A request that is answered with an exception while the database works
    commits nothing: the stored database stays, and the transaction the
    request has met on the connection is rolled back. *)
Lemma refused_on (utcnow : datetime) (rq : Request) (d o : DB) (e : Exn) :
  refusal utcnow rq o = Some e ->
  handle_on None utcnow rq (mkConnection d o) = clean d.
Proof.
  unfold refusal, refusal_with, handle_on, error_of, run_with, run_on, clean.
  cbn [database open_txn]. destruct rq.
  - unfold create_team. exec; cbn; try discriminate; auto.
  - unfold update_team. exec; cbn; try discriminate; auto.
  - unfold delete_team. exec; cbn; try discriminate; auto.
  - unfold add_team_member. exec; cbn; try discriminate; auto.
  - unfold remove_team_member. exec; cbn; try discriminate; auto.
  - unfold create_invitation. exec; cbn; try discriminate; auto.
    all: match goal with
         | E1 : constraints_ok ?a = true, E2 : constraints_ok ?b = false |- _ =>
             rewrite (constraints_ok_same_keys b a) in E1 by reflexivity;
             congruence
         end.
  - unfold resend_otp. exec; cbn; try discriminate; auto.
  - unfold verify_otp. exec; cbn; try discriminate; auto.
  - unfold join_team_via_invitation. exec; cbn; try discriminate; auto.
Qed.

Lemma run_on_parts {A} (x : Outcome A * Connection) (r : Outcome A) (c : Connection) :
  fst x = r -> snd x = c -> x = (r, c).
Proof. destruct x as [r' c']. cbn. now intros -> ->. Qed.

(** X22: [create_invitation] with a phone commits twice, and a database
    failure around the two commits leaves part of it.  Take a request that
    succeeds when the database works, on a connection with no transaction
    open.  If the database fails before the first commit (steps 1 to 5: the
    four queries and the add) nothing is stored or pending; if it refuses the
    first COMMIT (step 6) nothing is stored and the invitation is pending in
    the transaction left open.  If it fails at [db.refresh] or at the add of
    the OTP (steps 7 and 8) the caller gets the error and no link, but the
    invitation is stored without any OTP row, and nothing is pending; if it
    refuses the second COMMIT (step 9) the invitation is stored and the OTP
    row is pending.  For the invitation stored with nothing pending, given
    that no older OTP row carries its token, the join answers "OTP
    verification required", no code verifies, and inviting the same email
    again is refused as long as the invitation is pending; [resend_otp] is
    the way out.  With the OTP row pending, a [verify_otp] with the issued
    code within its ten minutes succeeds and stores the row, verified. *)
Theorem create_invitation_half_done (t : datetime) (d d1 : DB) (team_id : Z)
    (invitation : InvitationCreate.t) (utcnow utcnow_inv utcnow_otp : datetime)
    (token otp_code : str) (row : Invitation.t) (link : str) (phone : str) :
  reachable t d ->
  run (create_invitation team_id invitation utcnow utcnow_inv utcnow_otp token otp_code) d
  = (Return (row, link), d1) ->
  Invitation.phone row = Some phone ->
  (forall o, In o (otps d) -> OTP.invitation_token o <> token) ->
  let request :=
    create_invitation team_id invitation utcnow utcnow_inv utcnow_otp token otp_code in
  let half := mkDB (teams d) (members d) (invitations d ++ [row]) (otps d) in
  (forall n, (n < 5)%nat ->
     run_on (Some n) request (clean d) = (Raised OperationalError, clean d))
  /\ run_on (Some 5%nat) request (clean d) = (Raised OperationalError, mkConnection d half)
  /\ (forall n, (6 <= n <= 7)%nat ->
        run_on (Some n) request (clean d) = (Raised OperationalError, clean half))
  /\ run_on (Some 8%nat) request (clean d) = (Raised OperationalError, mkConnection half d1)
  /\ (forall u join_data, u <= utcnow_inv + timedelta_hours 48 ->
        run_on None (join_team_via_invitation token join_data u) (clean half)
        = (Raised (HTTPException 400
                     "OTP verification required. Please verify your phone number first."),
           clean half))
  /\ (forall u code,
        run_on None (verify_otp (OTPVerify.mk token code) u) (clean half)
        = (Raised (HTTPException 400 "Invalid OTP code"), clean half))
  /\ (forall u u_inv u_otp token' code', u < utcnow_inv + timedelta_hours 48 ->
        run_on None (create_invitation team_id invitation u u_inv u_otp token' code')
          (clean half)
        = (Raised (HTTPException 400 "An active invitation already exists for this email"),
           clean half))
  /\ (forall u u_otp code, u <= utcnow_inv + timedelta_hours 48 ->
        exists d2,
          run_on None (resend_otp token u u_otp code) (clean half)
          = (Return ("OTP sent successfully"%string, phone, u_otp + timedelta_minutes 10),
             clean d2))
  /\ (forall u, u <= utcnow_otp + timedelta_minutes 10 ->
        exists d2,
          run_on None (verify_otp (OTPVerify.mk token otp_code) u) (mkConnection half d1)
          = (Return ("OTP verified successfully"%string, true), clean d2)
          /\ otp_verified d2 token = true
          /\ teams d2 = teams half
          /\ members d2 = members half
          /\ invitations d2 = invitations half).
Proof.
  intros Hr H Hp Hfresh request half. pose proof (reachable_wf t d Hr) as Hwf.
  destruct (create_invitation_inv _ _ _ _ _ _ _ _ _ _ _ H)
    as (team & Ht & Hroom & Hk1 & Hrow & Hd1).
  destruct (create_invitation_passed _ _ _ _ _ _ _ _ _ _ _ H) as (Hf & Hm & Hk).
  fold half in Hk.
  assert ((Z.of_nat (List.length (filter (fun r => Member.team_id r =? team_id) (members d)))
           >=? Team.max_members team) = false) as Hcount.
  { rewrite Z.geb_leb. apply Z.leb_gt. exact Hroom. }
  assert (constraints_ok d = true) as Hkd by exact (wf_constraints d Hwf).
  assert (exists c p, InvitationCreate.phone invitation = Some (c :: p)
                      /\ phone = format_phone_number (c :: p)) as (c & p & Hph & Hfmt).
  { rewrite Hrow in Hp. cbn [Invitation.phone] in Hp.
    destruct (InvitationCreate.phone invitation) as [[|c p]|]; try discriminate.
    injection Hp as <-. eauto. }
  assert (exists c' p', phone = c' :: p') as (c' & p' & Hcons).
  { destruct phone as [|c' p']; [|eauto].
    exfalso. symmetry in Hfmt. exact (format_phone_number_nonempty _ Hfmt). }
  assert (row = Invitation.mk (next_id (map Invitation.id (invitations d))) team_id
                  (InvitationCreate.email invitation) (Some (c' :: p')) token false
                  (get_invitation_expiry utcnow_inv)) as Hrow'.
  { rewrite Hrow, Hph, <- Hfmt, Hcons. reflexivity. }
  assert (Invitation.token row = token) as Htok by now rewrite Hrow.
  assert (Invitation.is_used row = false) as Hused by now rewrite Hrow.
  assert (Invitation.expires_at row = utcnow_inv + timedelta_hours 48) as Hexpires
    by now rewrite Hrow.
  rewrite Hp in Hd1. rewrite Hcons in Hd1.
  clear Hrow. subst phone. subst row.
  set (row := Invitation.mk (next_id (map Invitation.id (invitations d))) team_id
                (InvitationCreate.email invitation) (Some (c' :: p')) token false
                (get_invitation_expiry utcnow_inv)) in *.
  set (issued := OTP.mk (next_id (map OTP.id (otps d))) (c' :: p') otp_code token false
                   (get_otp_expiry utcnow_otp)) in *.
  assert (In row (invitations half)) as Hin.
  { subst half. cbn [invitations]. apply in_or_app. right. now left. }
  assert (wf half) as Hwfh.
  { assert (half = handle_with (Some 6%nat) utcnow
                     (CreateInvitation team_id invitation utcnow_inv utcnow_otp token
                        otp_code) d) as ->.
    { unfold handle_with, run_with, create_invitation. to_access.
      do 4 (rewrite bind_access_faultS; cbn [fst snd];
            rewrite ?Ht, ?Hcount, ?Hf, ?Hm; cbn [not_none]).
      rewrite Hph, Hcons.
      rewrite bind_access_faultS; cbn [fst snd]. rewrite bind_commit_faultS.
      match goal with
      | |- context [constraints_ok ?x] => assert (constraints_ok x = true) as -> by exact Hk
      end.
      reflexivity. }
    eapply changes_wf; [apply handle_changes; reflexivity | exact Hwf]. }
  assert (forall (q : OTP.t -> bool) r, In r (otps d) ->
            str_eqb (OTP.invitation_token r) token && q r = false) as Hother.
  { intros q r Hr'. destruct (str_eqb (OTP.invitation_token r) token) eqn:E; [|reflexivity].
    apply str_eqb_eq in E. exfalso. exact (Hfresh r Hr' E). }
  assert (forall u rq e, refusal u rq half = Some e ->
            handle_on None u rq (clean half) = clean half) as Hrefused.
  { intros u rq e He. exact (refused_on u rq half half e He). }
  split; [|split; [|split; [|split; [|split; [|split; [|split; [|split]]]]]]].
  - intros n Hn. subst request. unfold run_on, clean, create_invitation.
    cbn [database open_txn]. to_access.
    destruct n as [|[|[|[|[|n]]]]]; [| | | | |lia].
    all: repeat first
           [ rewrite bind_access_fault0
           | rewrite bind_access_faultS; cbn [fst snd];
             rewrite ?Ht, ?Hcount, ?Hf, ?Hm; cbn [not_none];
             rewrite ?Hph, ?Hcons ].
    all: reflexivity.
  - subst request. unfold run_on, clean, create_invitation. cbn [database open_txn].
    to_access.
    do 4 (rewrite bind_access_faultS; cbn [fst snd];
          rewrite ?Ht, ?Hcount, ?Hf, ?Hm; cbn [not_none]).
    rewrite Hph, Hcons.
    rewrite bind_access_faultS; cbn [fst snd]. rewrite bind_commit_fault0.
    match goal with
    | |- context [constraints_ok ?x] => assert (constraints_ok x = true) as -> by exact Hk
    end.
    reflexivity.
  - intros n Hn. subst request. unfold run_on, clean, create_invitation.
    cbn [database open_txn]. to_access.
    do 6 (destruct n as [|n]; [lia|]).
    do 4 (rewrite bind_access_faultS; cbn [fst snd];
          rewrite ?Ht, ?Hcount, ?Hf, ?Hm; cbn [not_none]).
    rewrite Hph, Hcons.
    rewrite bind_access_faultS; cbn [fst snd]. rewrite bind_commit_faultS.
    match goal with
    | |- context [constraints_ok ?x] => assert (constraints_ok x = true) as -> by exact Hk
    end.
    destruct n as [|[|n]]; [| |lia].
    + reflexivity.
    + rewrite bind_refresh_faultS. rewrite bind_assoc, bind_access_fault0. reflexivity.
  - subst request. unfold run_on, clean, create_invitation. cbn [database open_txn].
    to_access.
    do 4 (rewrite bind_access_faultS; cbn [fst snd];
          rewrite ?Ht, ?Hcount, ?Hf, ?Hm; cbn [not_none]).
    rewrite Hph, Hcons.
    rewrite bind_access_faultS; cbn [fst snd]. rewrite bind_commit_faultS.
    match goal with
    | |- context [constraints_ok ?x] => assert (constraints_ok x = true) as -> by exact Hk
    end.
    rewrite bind_refresh_faultS. rewrite bind_assoc, bind_access_faultS. cbn [fst snd].
    rewrite bind_commit_fault0. cbn [teams members invitations otps].
    match goal with
    | |- context [constraints_ok ?x] => assert (constraints_ok x = true) as -> by exact Hk
    end.
    rewrite Hd1. reflexivity.
  - intros u join_data Hu.
    assert (is_expired u (Invitation.expires_at row) = false) as Hexp.
    { rewrite Hexpires. apply is_expired_false. exact Hu. }
    pose proof (join_unused_unexpired half row join_data u Hwfh Hin Hused Hexp) as Hjoin.
    rewrite Htok, Hp in Hjoin. cbn [phone_set not_none andb] in Hjoin.
    assert (otp_verified half token = false) as Hnv.
    { unfold otp_verified. subst half. cbn [otps].
      exact (existsb_false _ _ (Hother OTP.is_verified)). }
    rewrite Hnv in Hjoin. cbn [negb] in Hjoin.
    apply run_on_parts.
    + rewrite (proj1 (run_on_clean None _ half)). fold (run (join_team_via_invitation token join_data u) half).
      now rewrite Hjoin.
    + apply (Hrefused u (JoinTeam token join_data)
               (HTTPException 400
                  "OTP verification required. Please verify your phone number first.")).
      unfold refusal, refusal_with, error_of.
      fold (run (join_team_via_invitation token join_data u) half). now rewrite Hjoin.
  - intros u code.
    assert (run (verify_otp (OTPVerify.mk token code) u) half
            = (Raised (HTTPException 400 "Invalid OTP code"), half)) as Hverify.
    { unfold run, run_with, verify_otp. to_access. rewrite bind_access.
      cbn [fst snd OTPVerify.invitation_token OTPVerify.otp_code].
      assert (find (fun r => str_eqb (OTP.invitation_token r) token
                             && str_eqb (OTP.otp_code r) code
                             && negb (OTP.is_verified r)) (otps half) = None) as ->;
        [|reflexivity].
      destruct (find _ (otps half)) as [o|] eqn:E; [exfalso|reflexivity].
      apply find_some in E as [Ho E]. rewrite <- andb_assoc in E.
      subst half. cbn [otps] in Ho.
      pose proof (Hother (fun r => str_eqb (OTP.otp_code r) code && negb (OTP.is_verified r))
                    o Ho) as Hno.
      cbv beta in Hno. congruence. }
    apply run_on_parts.
    + rewrite (proj1 (run_on_clean None _ half)).
      fold (run (verify_otp (OTPVerify.mk token code) u) half). now rewrite Hverify.
    + apply (Hrefused u (VerifyOtp (OTPVerify.mk token code))
               (HTTPException 400 "Invalid OTP code")).
      unfold refusal, refusal_with, error_of.
      fold (run (verify_otp (OTPVerify.mk token code) u) half). now rewrite Hverify.
  - intros u u_inv u_otp token' code' Hu.
    assert (run (create_invitation team_id invitation u u_inv u_otp token' code') half
            = (Raised (HTTPException 400
                         "An active invitation already exists for this email"), half))
      as Hagain.
    { rewrite (create_invitation_pending half team_id invitation u u_inv u_otp token' code'
                 team row Ht Hin).
      + unfold member_count. subst half. cbn [members]. rewrite Hcount. reflexivity.
      + unfold pending.
        cbn [Invitation.team_id Invitation.email Invitation.is_used Invitation.expires_at].
        rewrite Z.eqb_refl, str_eqb_refl. cbn [andb negb].
        apply Z.gtb_lt. exact Hu. }
    apply run_on_parts.
    + rewrite (proj1 (run_on_clean None _ half)).
      fold (run (create_invitation team_id invitation u u_inv u_otp token' code') half).
      now rewrite Hagain.
    + apply (Hrefused u (CreateInvitation team_id invitation u_inv u_otp token' code')
               (HTTPException 400 "An active invitation already exists for this email")).
      unfold refusal, refusal_with, error_of.
      fold (run (create_invitation team_id invitation u u_inv u_otp token' code') half).
      now rewrite Hagain.
  - intros u u_otp code Hu. rewrite Hcons. eexists.
    unfold run_on, clean, resend_otp. cbn [database open_txn]. to_access.
    rewrite bind_access. cbn [fst snd].
    pose proof (find_invitation_wf half row Hwfh Hin) as Hfind.
    change (Invitation.token row) with token in Hfind. rewrite Hfind.
    subst row. cbn [Invitation.phone Invitation.is_used Invitation.expires_at].
    assert (is_expired u (get_invitation_expiry utcnow_inv) = false) as ->.
    { apply is_expired_false. exact Hu. }
    repeat exec_step. cbn [teams members invitations otps].
    match goal with
    | |- context [constraints_ok ?x] => assert (constraints_ok x = true) as -> by exact Hk
    end.
    reflexivity.
  - intros u Hu.
    assert (find (fun r => str_eqb (OTP.invitation_token r) token
                           && str_eqb (OTP.otp_code r) otp_code
                           && negb (OTP.is_verified r)) (otps d1) = Some issued) as Hissued.
    { rewrite Hd1. cbn [otps]. rewrite find_app_last.
      - subst issued. cbn [OTP.invitation_token OTP.otp_code OTP.is_verified].
        now rewrite !str_eqb_refl.
      - intros r Hr'. rewrite <- andb_assoc.
        exact (Hother (fun r => str_eqb (OTP.otp_code r) otp_code
                                && negb (OTP.is_verified r)) r Hr'). }
    assert (In issued (otps d1)) as Hin1.
    { rewrite Hd1. cbn [otps]. apply in_or_app. right. now left. }
    destruct (verified_after_update token issued (otps d1) Hin1 eq_refl) as [Hv _].
    eexists. split; [|split; [|split; [|split]]].
    + unfold run_on, verify_otp. cbn [database open_txn]. to_access.
      rewrite bind_access. cbn [fst snd OTPVerify.invitation_token OTPVerify.otp_code].
      rewrite Hissued.
      assert (is_expired u (OTP.expires_at issued) = false) as ->.
      { apply is_expired_false. exact Hu. }
      repeat exec_step. cbn [teams members invitations otps].
      match goal with
      | |- context [constraints_ok ?x] => assert (constraints_ok x = true) as -> by exact Hk1
      end.
      reflexivity.
    + unfold otp_verified. cbn [otps]. exact Hv.
    + rewrite Hd1. reflexivity.
    + rewrite Hd1. reflexivity.
    + rewrite Hd1. reflexivity.
Qed.

(** ** What a request leaves alone *)

Lemma existsb_update_row_verified (token : str) (obj : OTP.t) (rows : list OTP.t) :
  existsb (fun r => str_eqb (OTP.invitation_token r) token && OTP.is_verified r) rows = true ->
  existsb (fun r => str_eqb (OTP.invitation_token r) token && OTP.is_verified r)
    (update_row OTP.id obj (OTP.set_is_verified true) rows) = true.
Proof.
  intro H. apply existsb_exists in H as [x [Hin Hx]]. apply existsb_exists.
  unfold update_row. destruct (OTP.id x =? OTP.id obj) eqn:E.
  - exists (OTP.set_is_verified true x). split.
    + apply in_map_iff. exists x. now rewrite E.
    + apply andb_true_iff in Hx as [Ht _]. destruct x. cbn in *. now rewrite Ht.
  - exists x. split; [|exact Hx]. apply in_map_iff. exists x. now rewrite E.
Qed.

Lemma existsb_kept_verified (token token' : str) (rows : list OTP.t) :
  existsb (fun r => str_eqb (OTP.invitation_token r) token && OTP.is_verified r) rows = true ->
  existsb (fun r => str_eqb (OTP.invitation_token r) token && OTP.is_verified r)
    (filter (fun r => negb (str_eqb (OTP.invitation_token r) token'
                            && negb (OTP.is_verified r))) rows) = true.
Proof.
  intro H. apply existsb_exists in H as [x [Hin Hx]]. apply existsb_exists.
  exists x. split; [|exact Hx]. apply filter_In. split; [exact Hin|].
  apply andb_true_iff in Hx as [_ Hv]. rewrite Hv. cbn. now rewrite andb_false_r.
Qed.

(** X23: a verification is never lost.  Once a token has a verified OTP row
    it has one after every request, whichever it is and wherever the
    database fails: a resend deletes unverified rows only, and the rows
    survive the deletion of the team and so of the invitation. *)
Theorem verified_stays_verified (fault : option nat) (utcnow : datetime) (rq : Request)
    (d : DB) (token : str) :
  otp_verified d token = true ->
  otp_verified (handle_with fault utcnow rq d) token = true.
Proof.
  unfold otp_verified. intro H. destruct rq; unfold handle_with, run_with.
  - unfold create_team. destruct fault as [n|]; exec; exact H.
  - unfold update_team. destruct fault as [n|]; exec; exact H.
  - unfold delete_team. destruct fault as [n|]; exec; exact H.
  - unfold add_team_member. destruct fault as [n|]; exec; exact H.
  - unfold remove_team_member. destruct fault as [n|]; exec; exact H.
  - unfold create_invitation. destruct fault as [n|]; exec; try exact H.
    all: rewrite existsb_app, H; reflexivity.
  - unfold resend_otp. destruct fault as [n|]; exec; try exact H.
    all: rewrite existsb_app, (existsb_kept_verified _ _ _ H); reflexivity.
  - unfold verify_otp. destruct fault as [n|]; exec; try exact H.
    all: now apply existsb_update_row_verified.
  - unfold join_team_via_invitation. destruct fault as [n|]; exec; exact H.
Qed.

Ltac frame :=
  ran; split; (first [ left; reflexivity | right; repeat split; reflexivity ]).

(** X24: the tables a request can change.  Whatever the request body, the
    stored rows, the transaction left open on the connection and the
    failures of the database, a request stores nothing or it stores the
    transaction it has met with changes to its own tables only: with respect
    to that transaction, which is the stored database when none is open,
    creating or updating a team leaves members, invitations and OTPs as they
    are, and deleting one leaves the OTPs; adding or removing a member leaves
    teams, invitations and OTPs; creating an invitation leaves teams and
    members; resending or verifying an OTP leaves teams, members and
    invitations; a join leaves teams and OTPs.  The same holds of what the
    request leaves pending on the connection.  So on a connection with no
    transaction open a request changes its own tables only, while after a
    refused COMMIT the next request, whichever it is, may store the rows that
    were pending. *)
Theorem request_frames (fault : option nat) (utcnow : datetime) (rq : Request)
    (c : Connection) :
  let c' := handle_on fault utcnow rq c in
  (database c' = database c \/ leaves_alone rq (open_txn c) (database c'))
  /\ (open_txn c' = database c' \/ leaves_alone rq (open_txn c) (open_txn c'))
  /\ (open_txn c = database c -> leaves_alone rq (database c) (database c')).
Proof.
  assert (forall d, leaves_alone rq d d) as Hsame.
  { intro d. destruct rq; cbn; auto. }
  cbv zeta.
  assert ((database (handle_on fault utcnow rq c) = database c
           \/ leaves_alone rq (open_txn c) (database (handle_on fault utcnow rq c)))
          /\ (open_txn (handle_on fault utcnow rq c) = database (handle_on fault utcnow rq c)
              \/ leaves_alone rq (open_txn c) (open_txn (handle_on fault utcnow rq c))))
    as [H1 H2].
  { clear Hsame. destruct c as [d o].
    destruct rq; unfold handle_on, run_on, leaves_alone; cbn [database open_txn]; run_once.
    - unfold create_team. destruct fault as [n|]; exec; frame.
    - unfold update_team. destruct fault as [n|]; exec; frame.
    - unfold delete_team. destruct fault as [n|]; exec; frame.
    - unfold add_team_member. destruct fault as [n|]; exec; frame.
    - unfold remove_team_member. destruct fault as [n|]; exec; frame.
    - unfold create_invitation. destruct fault as [n|]; exec; frame.
    - unfold resend_otp. destruct fault as [n|]; exec; frame.
    - unfold verify_otp. destruct fault as [n|]; exec; frame.
    - unfold join_team_via_invitation. destruct fault as [n|]; exec; frame. }
  split; [exact H1|]. split; [exact H2|].
  intro Hclean. destruct H1 as [->|H1]; [apply Hsame|]. now rewrite <- Hclean.
Qed.

End Api.

(** * Witnesses and counterexamples

    Runs on a deployment with the default base URL that meets ASCII digits
    only. *)

(** C1 as stated fails: a team update leaves two members in a team of one
    seat; a member-add with a free seat adds nobody when the email is taken;
    and the join on a used invitation to a full team answers "already been
    used", not "Team is full". *)
Lemma C1_counterexample_lowered_max_members :
  (reachable ascii_digits default_base_url 30
     (serve ascii_digits default_base_url shrink_trace empty_db)
   /\ member_count (serve ascii_digits default_base_url shrink_trace empty_db) 1 = 2%nat
   /\ team_max_members (serve ascii_digits default_base_url shrink_trace empty_db) 1 = 1
   /\ ~ capacity_ok (serve ascii_digits default_base_url shrink_trace empty_db))
  /\ (member_count (serve ascii_digits default_base_url one_member_trace empty_db) 1 = 1%nat
      /\ team_max_members (serve ascii_digits default_base_url one_member_trace empty_db) 1
         = 2
      /\ run (add_team_member 1 emma)
           (serve ascii_digits default_base_url one_member_trace empty_db)
         = (Raised (HTTPException 400 "Member with this email already exists in the team"),
            serve ascii_digits default_base_url one_member_trace empty_db))
  /\ (member_count (serve ascii_digits default_base_url full_team_trace empty_db) 1 = 1%nat
      /\ team_max_members (serve ascii_digits default_base_url full_team_trace empty_db) 1
         = 1
      /\ run (join_team_via_invitation (lit "tokenA") bob_joins 40)
           (serve ascii_digits default_base_url full_team_trace empty_db)
         = (Raised (HTTPException 400 "This invitation has already been used"),
            serve ascii_digits default_base_url full_team_trace empty_db)).
Proof.
  split; [|split].
  - split; [|split; [reflexivity | split; [reflexivity|]]].
    + exact (reachable_serve ascii_digits default_base_url shrink_trace 0 empty_db
               (reachable_init _ _ 0) eq_refl).
    + intro H.
      specialize (H (Team.mk 1 (lit "Quick Team") (lit "David Lee")
                       (lit "david@quickteam.com")
                       (Some (lit "Rapid prototyping team")) 1)).
      assert (Z.of_nat 2 <= 1) as C; [|lia].
      apply H. vm_compute. left. reflexivity.
  - repeat split; reflexivity.
  - repeat split; reflexivity.
Qed.

Lemma C1_witness_full_team :
  reachable ascii_digits default_base_url 30
    (serve ascii_digits default_base_url full_team_trace empty_db)
  /\ run (add_team_member 1 emma)
       (serve ascii_digits default_base_url full_team_trace empty_db)
     = (Raised (team_is_full 1), serve ascii_digits default_base_url full_team_trace empty_db).
Proof.
  assert (reachable ascii_digits default_base_url 30
            (serve ascii_digits default_base_url full_team_trace empty_db)) as R.
  { exact (reachable_serve ascii_digits default_base_url full_team_trace 0 empty_db
             (reachable_init _ _ 0) eq_refl). }
  split; [exact R|].
  destruct (C1_capacity_on_add_and_join ascii_digits default_base_url 30 _ R) as [H _].
  refine (H 1 emma
            (Team.mk 1 (lit "Quick Team") (lit "David Lee") (lit "david@quickteam.com")
               (Some (lit "Rapid prototyping team")) 1) eq_refl _).
  vm_compute. discriminate.
Defined.

Lemma C2_witness_used_token :
  reachable ascii_digits default_base_url 30
    (serve ascii_digits default_base_url full_team_trace empty_db)
  /\ In bob_invitation_used
       (invitations (serve ascii_digits default_base_url full_team_trace empty_db))
  /\ Invitation.is_used bob_invitation_used = true
  /\ chronological 30 later_requests = true
  /\ run (join_team_via_invitation (lit "tokenA") charlie_joins 40)
       (serve ascii_digits default_base_url full_team_trace empty_db)
     = (Raised (HTTPException 400 "This invitation has already been used"),
        serve ascii_digits default_base_url full_team_trace empty_db)
  /\ ((In bob_invitation_used
         (invitations
            (serve ascii_digits default_base_url later_requests
               (serve ascii_digits default_base_url full_team_trace empty_db)))
       /\ forall join_data utcnow,
            run (join_team_via_invitation (Invitation.token bob_invitation_used)
                   join_data utcnow)
              (serve ascii_digits default_base_url later_requests
                 (serve ascii_digits default_base_url full_team_trace empty_db))
            = (Raised (HTTPException 400 "This invitation has already been used"),
               serve ascii_digits default_base_url later_requests
                 (serve ascii_digits default_base_url full_team_trace empty_db)))
      \/ exists t',
           In (t', DeleteTeam (Invitation.team_id bob_invitation_used)) later_requests).
Proof.
  assert (reachable ascii_digits default_base_url 30
            (serve ascii_digits default_base_url full_team_trace empty_db)) as R.
  { exact (reachable_serve ascii_digits default_base_url full_team_trace 0 empty_db
             (reachable_init _ _ 0) eq_refl). }
  assert (In bob_invitation_used
            (invitations (serve ascii_digits default_base_url full_team_trace empty_db)))
    as I.
  { vm_compute. left. reflexivity. }
  destruct (C2_used_invitation_is_terminal ascii_digits default_base_url 30 _ R)
    as [J [_ S]].
  split; [exact R|]. split; [exact I|]. split; [reflexivity|]. split; [reflexivity|].
  split.
  - exact (J bob_invitation_used charlie_joins 40 I eq_refl).
  - exact (S bob_invitation_used later_requests I eq_refl eq_refl).
Defined.


(** C4 as stated fails: Bob's invitation has a phone and no verified OTP,
    yet two days later the join is refused because the invitation has
    expired, not because the OTP is missing. *)
Lemma C4_counterexample_expired_invitation :
  reachable ascii_digits default_base_url 10
    (serve ascii_digits default_base_url otp_trace empty_db)
  /\ invitations (serve ascii_digits default_base_url otp_trace empty_db)
     = [bob_invitation_with_phone]
  /\ Invitation.phone bob_invitation_with_phone = Some (lit "+919876543210")
  /\ otps (serve ascii_digits default_base_url otp_trace empty_db) = [bob_otp]
  /\ OTP.is_verified bob_otp = false
  /\ run (join_team_via_invitation (lit "tokenA") bob_joins 172800000011)
       (serve ascii_digits default_base_url otp_trace empty_db)
     = (Raised (HTTPException 400 "This invitation has expired"),
        serve ascii_digits default_base_url otp_trace empty_db).
Proof.
  split; [|repeat split; reflexivity].
  exact (reachable_serve ascii_digits default_base_url otp_trace 0 empty_db
           (reachable_init _ _ 0) eq_refl).
Qed.

Lemma C4_witness_stale_otp :
  reachable ascii_digits default_base_url 20
    (serve ascii_digits default_base_url verified_trace empty_db)
  /\ In bob_invitation_with_phone
       (invitations (serve ascii_digits default_base_url verified_trace empty_db))
  /\ is_expired 1000000000 (OTP.expires_at bob_otp_verified) = true
  /\ run (join_team_via_invitation (lit "tokenA") bob_joins 1000000000)
       (serve ascii_digits default_base_url verified_trace empty_db)
     = (Return bob_member_with_phone,
        joined (serve ascii_digits default_base_url verified_trace empty_db)
          bob_invitation_with_phone bob_member_with_phone).
Proof.
  assert (reachable ascii_digits default_base_url 20
            (serve ascii_digits default_base_url verified_trace empty_db)) as R.
  { exact (reachable_serve ascii_digits default_base_url verified_trace 0 empty_db
             (reachable_init _ _ 0) eq_refl). }
  assert (In bob_invitation_with_phone
            (invitations (serve ascii_digits default_base_url verified_trace empty_db)))
    as I.
  { vm_compute. left. reflexivity. }
  split; [exact R|]. split; [exact I|]. split; [reflexivity|].
  destruct (C4_join_otp_gate ascii_digits default_base_url 20 _ bob_invitation_with_phone
              bob_joins 1000000000 R I) as [_ [H _]].
  refine (eq_trans (H bob_otp_verified eq_refl _ eq_refl eq_refl eq_refl eq_refl) _).
  - vm_compute. left. reflexivity.
  - reflexivity.
Defined.

Lemma C5_witness_verify :
  constraints_ok (serve ascii_digits default_base_url otp_trace empty_db) = true
  /\ otps (serve ascii_digits default_base_url otp_trace empty_db) = [bob_otp]
  /\ otp_verified (serve ascii_digits default_base_url otp_trace empty_db) (lit "tokenA")
     = false
  /\ run (verify_otp (OTPVerify.mk (lit "tokenA") (lit "123456")) 20)
       (serve ascii_digits default_base_url otp_trace empty_db)
     = (Return ("OTP verified successfully"%string, true),
        mkDB (teams (serve ascii_digits default_base_url otp_trace empty_db))
          (members (serve ascii_digits default_base_url otp_trace empty_db))
          (invitations (serve ascii_digits default_base_url otp_trace empty_db))
          (update_row OTP.id bob_otp (OTP.set_is_verified true)
             (otps (serve ascii_digits default_base_url otp_trace empty_db))))
  /\ otp_verified
       (snd (run (verify_otp (OTPVerify.mk (lit "tokenA") (lit "123456")) 20)
               (serve ascii_digits default_base_url otp_trace empty_db)))
       (lit "tokenA")
     = true.
Proof.
  split; [reflexivity|]. split; [vm_compute; reflexivity|].
  split; [vm_compute; reflexivity|].
  destruct (C5_verify_otp (serve ascii_digits default_base_url otp_trace empty_db)
              (OTPVerify.mk (lit "tokenA") (lit "123456")) 20) as [_ [_ [_ H]]].
  apply (H bob_otp); reflexivity.
Defined.

Lemma C6_witness_expired :
  reachable ascii_digits default_base_url 30
    (serve ascii_digits default_base_url full_team_trace empty_db)
  /\ In charlie_invitation
       (invitations (serve ascii_digits default_base_url full_team_trace empty_db))
  /\ 172800000021 > Invitation.expires_at charlie_invitation
  /\ run (join_team_via_invitation (lit "tokenB") charlie_joins 172800000021)
       (serve ascii_digits default_base_url full_team_trace empty_db)
     = (Raised (HTTPException 400 "This invitation has expired"),
        serve ascii_digits default_base_url full_team_trace empty_db)
  /\ run (resend_otp (lit "tokenB") 172800000021 172800000021 (lit "444444"))
       (serve ascii_digits default_base_url full_team_trace empty_db)
     = (Raised (HTTPException 400 "This invitation does not have a phone number"),
        serve ascii_digits default_base_url full_team_trace empty_db).
Proof.
  assert (reachable ascii_digits default_base_url 30
            (serve ascii_digits default_base_url full_team_trace empty_db)) as R.
  { exact (reachable_serve ascii_digits default_base_url full_team_trace 0 empty_db
             (reachable_init _ _ 0) eq_refl). }
  assert (In charlie_invitation
            (invitations (serve ascii_digits default_base_url full_team_trace empty_db)))
    as I.
  { vm_compute. right. left. reflexivity. }
  assert (172800000021 > Invitation.expires_at charlie_invitation) as X.
  { reflexivity. }
  destruct (C6_expired_invitation_rejected ascii_digits default_base_url 30 _
              charlie_invitation 172800000021 R I X) as [J S].
  split; [exact R|]. split; [exact I|]. split; [exact X|].
  split; [exact (J charlie_joins) | exact (S 172800000021 (lit "444444"))].
Defined.

(** C7 as stated fails: once Bob has used his invitation a new one for him
    is refused, since he is a member of the team; and while his invitation
    is pending in a team that has filled up, the refusal of a second one is
    "Team is full". *)
Lemma C7_counterexample_reinvite_after_use :
  (reachable ascii_digits default_base_url 20
     (serve ascii_digits default_base_url joined_trace empty_db)
   /\ invitations (serve ascii_digits default_base_url joined_trace empty_db)
      = [bob_invitation_used]
   /\ Invitation.is_used bob_invitation_used = true
   /\ run (create_invitation ascii_digits default_base_url 1 bob 30 30 30
             (lit "tokenC") (lit "555555"))
        (serve ascii_digits default_base_url joined_trace empty_db)
      = (Raised (HTTPException 400 "This email is already a member of the team"),
         serve ascii_digits default_base_url joined_trace empty_db))
  /\ (reachable ascii_digits default_base_url 20
        (serve ascii_digits default_base_url filled_trace empty_db)
      /\ invitations (serve ascii_digits default_base_url filled_trace empty_db)
         = [bob_invitation]
      /\ Invitation.is_used bob_invitation = false
      /\ is_expired 30 (Invitation.expires_at bob_invitation) = false
      /\ run (create_invitation ascii_digits default_base_url 1 bob 30 30 30
                (lit "tokenC") (lit "555555"))
           (serve ascii_digits default_base_url filled_trace empty_db)
         = (Raised (HTTPException 400 "Team is full (max 1 members)"),
            serve ascii_digits default_base_url filled_trace empty_db)).
Proof.
  split.
  - split; [|repeat split; reflexivity].
    exact (reachable_serve ascii_digits default_base_url joined_trace 0 empty_db
             (reachable_init _ _ 0) eq_refl).
  - split; [|repeat split; reflexivity].
    exact (reachable_serve ascii_digits default_base_url filled_trace 0 empty_db
             (reachable_init _ _ 0) eq_refl).
Qed.

Lemma C7_witness_second_invitation :
  reachable ascii_digits default_base_url 10
    (serve ascii_digits default_base_url otp_trace empty_db)
  /\ 10 <= 20
  /\ run (create_invitation ascii_digits default_base_url 1 bob 20 20 20
            (lit "tokenC") (lit "555555"))
       (serve ascii_digits default_base_url otp_trace empty_db)
     = (Raised (HTTPException 400 "An active invitation already exists for this email"),
        serve ascii_digits default_base_url otp_trace empty_db).
Proof.
  assert (reachable ascii_digits default_base_url 10
            (serve ascii_digits default_base_url otp_trace empty_db)) as R.
  { exact (reachable_serve ascii_digits default_base_url otp_trace 0 empty_db
             (reachable_init _ _ 0) eq_refl). }
  assert (10 <= 20) as L by (vm_compute; discriminate).
  split; [exact R|]. split; [exact L|].
  destruct (C7_one_pending_invitation ascii_digits default_base_url 10 _ 20 R L)
    as [_ [H _]].
  refine (H 1 bob 20 20 (lit "tokenC") (lit "555555")
            (Team.mk 1 (lit "Quick Team") (lit "David Lee") (lit "david@quickteam.com")
               (Some (lit "Rapid prototyping team")) 5)
            bob_invitation_with_phone eq_refl _ eq_refl eq_refl eq_refl eq_refl).
  vm_compute. left. reflexivity.
Defined.

(** At the very instant an invitation expires it is no longer pending for
    [create_invitation] and not yet expired for [is_expired]: a second
    invitation is created while the first can still be joined. *)
Lemma expiry_instant_second_invitation :
  is_expired 172800000010 (Invitation.expires_at bob_invitation_with_phone) = false
  /\ pending 172800000010 1 (lit "bob@example.com") bob_invitation_with_phone = false
  /\ invitations
       (snd (run (create_invitation ascii_digits default_base_url 1 bob
                    172800000010 172800000010 172800000010 (lit "tokenC") (lit "555555"))
               (serve ascii_digits default_base_url otp_trace empty_db)))
     = [ bob_invitation_with_phone;
         Invitation.mk 2 1 (lit "bob@example.com") None (lit "tokenC") false 345600000010 ].
Proof. repeat split; reflexivity. Qed.

Lemma C8_witness_fault_around_commit :
  run_on (Some 5%nat) (join_team_via_invitation (lit "tokenA") bob_joins 30)
    (clean (serve ascii_digits default_base_url verified_trace empty_db))
  = (Raised OperationalError, clean (serve ascii_digits default_base_url verified_trace empty_db))
  /\ run_on (Some 6%nat) (join_team_via_invitation (lit "tokenA") bob_joins 30)
       (clean (serve ascii_digits default_base_url verified_trace empty_db))
     = (Raised OperationalError,
        mkConnection (serve ascii_digits default_base_url verified_trace empty_db)
          (joined (serve ascii_digits default_base_url verified_trace empty_db)
          bob_invitation_with_phone bob_member_with_phone))
  /\ run_on (Some 7%nat) (join_team_via_invitation (lit "tokenA") bob_joins 30)
       (clean (serve ascii_digits default_base_url verified_trace empty_db))
     = (Raised OperationalError,
        clean (joined (serve ascii_digits default_base_url verified_trace empty_db)
          bob_invitation_with_phone bob_member_with_phone))
  /\ run_on None (join_team_via_invitation (lit "tokenA") bob_joins 30)
       (clean (serve ascii_digits default_base_url verified_trace empty_db))
     = (Return bob_member_with_phone,
        clean (joined (serve ascii_digits default_base_url verified_trace empty_db)
          bob_invitation_with_phone bob_member_with_phone))
  /\ (exists row,
        In row (invitations (joined (serve ascii_digits default_base_url verified_trace empty_db)
          bob_invitation_with_phone bob_member_with_phone))
        /\ Invitation.token row = lit "tokenA"
        /\ Invitation.is_used row = true)
  /\ members (database (handle_on ascii_digits default_base_url None 40 (AddTeamMember 1 emma)
             (mkConnection (serve ascii_digits default_base_url verified_trace empty_db)
                (joined (serve ascii_digits default_base_url verified_trace empty_db)
          bob_invitation_with_phone bob_member_with_phone))))
     = [ bob_member_with_phone;
         Member.mk 2 1 (lit "Emma Wilson") (lit "emma@example.com") None
           (Some (lit "UI/UX Designer")) ]
  /\ invitations (database (handle_on ascii_digits default_base_url None 40 (AddTeamMember 1 emma)
             (mkConnection (serve ascii_digits default_base_url verified_trace empty_db)
                (joined (serve ascii_digits default_base_url verified_trace empty_db)
          bob_invitation_with_phone bob_member_with_phone))))
     = [ Invitation.mk 1 1 (lit "bob@example.com") (Some (lit "+919876543210"))
           (lit "tokenA") true 172800000010 ].
Proof.
  destruct (C8_join_commit_is_atomic ascii_digits default_base_url
              (serve ascii_digits default_base_url verified_trace empty_db)
              (lit "tokenA") bob_joins 30) as (_ & _ & H & N).
  specialize (H bob_invitation_with_phone quick_team_row).
  cbv zeta in H. destruct H as (E & F & _ & (row & R1 & R2 & R3)).
  - vm_compute. reflexivity.
  - vm_compute. reflexivity.
  - reflexivity.
  - reflexivity.
  - right. vm_compute. reflexivity.
  - vm_compute. reflexivity.
  - vm_compute. reflexivity.
  - split; [etransitivity; [exact (F 5%nat) | vm_compute; reflexivity]|].
    split; [etransitivity; [exact (F 6%nat) | vm_compute; reflexivity]|].
    split; [etransitivity; [exact (F 7%nat) | vm_compute; reflexivity]|].
    split; [etransitivity; [exact E | vm_compute; reflexivity]|].
    split.
    + exists row. split; [|split; [exact R2 | exact R3]].
      vm_compute in R1 |- *. exact R1.
    + split; vm_compute; reflexivity.
Defined.

Lemma C9_witness_emma :
  phone_pattern (lit "+919123456789") = true
  /\ MemberCreate.phone emma = Some (lit "+919123456789")
  /\ run (add_team_member 1 emma)
       (serve ascii_digits default_base_url otp_trace empty_db)
     = (Return emma_member,
        mkDB (teams (serve ascii_digits default_base_url otp_trace empty_db))
          (members (serve ascii_digits default_base_url otp_trace empty_db) ++ [emma_member])
          (invitations (serve ascii_digits default_base_url otp_trace empty_db))
          (otps (serve ascii_digits default_base_url otp_trace empty_db)))
  /\ Member.phone emma_member = None
  /\ Invitation.phone bob_invitation_with_phone = Some (lit "+919876543210")
  /\ exists m d',
       run (join_team_via_invitation (lit "tokenA") bob_joins 30)
         (serve ascii_digits default_base_url verified_trace empty_db)
       = (Return m, d')
       /\ Member.phone m = Some (lit "+919876543210")
       /\ Member.email m = lit "bob@example.com"
       /\ members d' = [m].
Proof.
  split; [reflexivity|]. split; [reflexivity|]. split; [reflexivity|].
  destruct (C9_member_add_drops_phone
              (serve ascii_digits default_base_url otp_trace empty_db)) as [H _].
  split; [exact (proj1 (H 1 emma emma_member _ eq_refl))|]. split; [reflexivity|].
  destruct (C9_member_add_drops_phone
              (serve ascii_digits default_base_url verified_trace empty_db)) as (_ & _ & J).
  destruct (J (lit "tokenA") bob_joins 30 bob_invitation_with_phone quick_team_row)
    as (m & d' & E & P & M & _ & L).
  - vm_compute. reflexivity.
  - vm_compute. reflexivity.
  - reflexivity.
  - reflexivity.
  - right. vm_compute. reflexivity.
  - vm_compute. reflexivity.
  - vm_compute. reflexivity.
  - exists m, d'. split; [exact E|]. split; [exact P|]. split; [exact M|].
    rewrite L. vm_compute. reflexivity.
Defined.

(** * Witnesses of the further properties *)

Lemma primary_keys_distinct_witness :
  reachable ascii_digits default_base_url 25
    (serve ascii_digits default_base_url two_teams_trace empty_db)
  /\ keys_ok (serve ascii_digits default_base_url two_teams_trace empty_db).
Proof.
  assert (reachable ascii_digits default_base_url 25
            (serve ascii_digits default_base_url two_teams_trace empty_db)) as R.
  { exact (reachable_serve ascii_digits default_base_url two_teams_trace 0 empty_db
             (reachable_init _ _ 0) eq_refl). }
  split; [exact R|].
  exact (proj1 (primary_keys_distinct ascii_digits default_base_url 25 _ R)).
Defined.

Lemma team_size_bounds_witness :
  reachable ascii_digits default_base_url 30
    (serve ascii_digits default_base_url shrink_trace empty_db)
  /\ (forall r, In r (teams (serve ascii_digits default_base_url shrink_trace empty_db)) ->
        1 <= Team.max_members r <= 20)
  /\ Z.of_nat (member_count (serve ascii_digits default_base_url shrink_trace empty_db) 1)
     <= 20.
Proof.
  assert (reachable ascii_digits default_base_url 30
            (serve ascii_digits default_base_url shrink_trace empty_db)) as R.
  { exact (reachable_serve ascii_digits default_base_url shrink_trace 0 empty_db
             (reachable_init _ _ 0) eq_refl). }
  destruct (team_size_bounds ascii_digits default_base_url 30 _ R) as [Hmax Hcount].
  split; [exact R|]. split; [exact Hmax | exact (Hcount 1)].
Defined.

Lemma create_team_outcome_witness :
  reachable ascii_digits default_base_url 0
    (serve ascii_digits default_base_url team_only_trace empty_db)
  /\ run (create_team (quick_team 3))
       (serve ascii_digits default_base_url team_only_trace empty_db)
     = (Raised (HTTPException 400 "Team name already exists"),
        serve ascii_digits default_base_url team_only_trace empty_db)
  /\ run (create_team other_team)
       (serve ascii_digits default_base_url team_only_trace empty_db)
     = (Return other_team_row,
        mkDB [quick_team_row; other_team_row] [] [] []).
Proof.
  assert (reachable ascii_digits default_base_url 0
            (serve ascii_digits default_base_url team_only_trace empty_db)) as R.
  { exact (reachable_serve ascii_digits default_base_url team_only_trace 0 empty_db
             (reachable_init _ _ 0) eq_refl). }
  split; [exact R|]. split.
  - destruct (create_team_outcome ascii_digits default_base_url 0 _ (quick_team 3) R)
      as [H _].
    apply H. exists quick_team_row. split; [vm_compute; left; reflexivity | reflexivity].
  - destruct (create_team_outcome ascii_digits default_base_url 0 _ other_team R)
      as [_ [_ H]].
    refine (proj1 (H _ _)).
    + intros r Hin. vm_compute in Hin. destruct Hin as [<-|[]]. vm_compute. discriminate.
    + intros r Hin. vm_compute in Hin. destruct Hin as [<-|[]]. vm_compute. discriminate.
Defined.

Lemma update_team_result_witness :
  reachable ascii_digits default_base_url 25
    (serve ascii_digits default_base_url two_teams_trace empty_db)
  /\ run (update_team 1 (TeamUpdate.mk None (Some (lit "Ships fast")) (Some 2)))
       (serve ascii_digits default_base_url two_teams_trace empty_db)
     = (Return (Team.mk 1 (lit "Quick Team") (lit "David Lee") (lit "david@quickteam.com")
                  (Some (lit "Ships fast")) 2),
        snd (run (update_team 1 (TeamUpdate.mk None (Some (lit "Ships fast")) (Some 2)))
               (serve ascii_digits default_base_url two_teams_trace empty_db)))
  /\ run (get_team 1)
       (snd (run (update_team 1 (TeamUpdate.mk None (Some (lit "Ships fast")) (Some 2)))
               (serve ascii_digits default_base_url two_teams_trace empty_db)))
     = (Return (Team.mk 1 (lit "Quick Team") (lit "David Lee") (lit "david@quickteam.com")
                  (Some (lit "Ships fast")) 2),
        snd (run (update_team 1 (TeamUpdate.mk None (Some (lit "Ships fast")) (Some 2)))
               (serve ascii_digits default_base_url two_teams_trace empty_db))).
Proof.
  assert (reachable ascii_digits default_base_url 25
            (serve ascii_digits default_base_url two_teams_trace empty_db)) as R.
  { exact (reachable_serve ascii_digits default_base_url two_teams_trace 0 empty_db
             (reachable_init _ _ 0) eq_refl). }
  assert (run (update_team 1 (TeamUpdate.mk None (Some (lit "Ships fast")) (Some 2)))
            (serve ascii_digits default_base_url two_teams_trace empty_db)
          = (Return (Team.mk 1 (lit "Quick Team") (lit "David Lee")
                       (lit "david@quickteam.com") (Some (lit "Ships fast")) 2),
             snd (run (update_team 1 (TeamUpdate.mk None (Some (lit "Ships fast")) (Some 2)))
                    (serve ascii_digits default_base_url two_teams_trace empty_db)))) as E.
  { vm_compute. reflexivity. }
  split; [exact R|]. split; [exact E|].
  destruct (update_team_result ascii_digits default_base_url 25 _ 1 _ _ _ R E)
    as (old & _ & _ & _ & _ & _ & _ & _ & _ & G).
  exact G.
Defined.

Lemma update_team_rename_witness :
  reachable ascii_digits default_base_url 25
    (serve ascii_digits default_base_url two_teams_trace empty_db)
  /\ run (update_team 1 (TeamUpdate.mk (Some (lit "Night Owls")) None None))
       (serve ascii_digits default_base_url two_teams_trace empty_db)
     = (Raised (HTTPException 400 "Team name already exists"),
        serve ascii_digits default_base_url two_teams_trace empty_db).
Proof.
  assert (reachable ascii_digits default_base_url 25
            (serve ascii_digits default_base_url two_teams_trace empty_db)) as R.
  { exact (reachable_serve ascii_digits default_base_url two_teams_trace 0 empty_db
             (reachable_init _ _ 0) eq_refl). }
  split; [exact R|].
  destruct (update_team_rename ascii_digits default_base_url 25 _ 1
              (TeamUpdate.mk (Some (lit "Night Owls")) None None) quick_team_row
              (lit "Night Owls") R eq_refl eq_refl) as [H _].
  apply H. exists other_team_row. split; [vm_compute; right; left; reflexivity|].
  split; [discriminate | reflexivity].
Defined.

Lemma delete_team_cascade_witness :
  reachable ascii_digits default_base_url 25
    (serve ascii_digits default_base_url two_teams_trace empty_db)
  /\ run (delete_team 1) (serve ascii_digits default_base_url two_teams_trace empty_db)
     = (Return tt,
        mkDB [other_team_row] [frank_member] [charlie_invitation_at_25]
          [OTP.mk 1 (lit "+919876543210") (lit "123456") (lit "tokenA") false 600000020])
  /\ run (delete_team 7) (serve ascii_digits default_base_url two_teams_trace empty_db)
     = (Raised (HTTPException 404 "Team not found"),
        serve ascii_digits default_base_url two_teams_trace empty_db)
  /\ run (delete_team 9223372036854775808)
       (serve ascii_digits default_base_url two_teams_trace empty_db)
     = (Raised OverflowError, serve ascii_digits default_base_url two_teams_trace empty_db).
Proof.
  assert (reachable ascii_digits default_base_url 25
            (serve ascii_digits default_base_url two_teams_trace empty_db)) as R.
  { exact (reachable_serve ascii_digits default_base_url two_teams_trace 0 empty_db
             (reachable_init _ _ 0) eq_refl). }
  split; [exact R|]. split; [|split].
  - destruct (delete_team_cascade ascii_digits default_base_url 25 _ 1 R) as [_ [_ H]].
    refine (proj1 (H eq_refl _)). exists quick_team_row.
    split; [vm_compute; left; reflexivity | reflexivity].
  - destruct (delete_team_cascade ascii_digits default_base_url 25 _ 7 R) as [_ [H _]].
    apply H; [reflexivity|]. intros r Hin. vm_compute in Hin.
    destruct Hin as [<-|[<-|[]]]; discriminate.
  - destruct (delete_team_cascade ascii_digits default_base_url 25 _ 9223372036854775808 R)
      as [H _].
    apply H. reflexivity.
Defined.

Lemma remove_team_member_outcome_witness :
  reachable ascii_digits default_base_url 25
    (serve ascii_digits default_base_url two_teams_trace empty_db)
  /\ run (remove_team_member 1 2)
       (serve ascii_digits default_base_url two_teams_trace empty_db)
     = (Raised (HTTPException 404 "Member not found in this team"),
        serve ascii_digits default_base_url two_teams_trace empty_db)
  /\ member_count
       (snd (run (remove_team_member 2 2)
               (serve ascii_digits default_base_url two_teams_trace empty_db))) 2
     = 0%nat
  /\ run (remove_team_member 2 (-9223372036854775809))
       (serve ascii_digits default_base_url two_teams_trace empty_db)
     = (Raised OverflowError, serve ascii_digits default_base_url two_teams_trace empty_db).
Proof.
  assert (reachable ascii_digits default_base_url 25
            (serve ascii_digits default_base_url two_teams_trace empty_db)) as R.
  { exact (reachable_serve ascii_digits default_base_url two_teams_trace 0 empty_db
             (reachable_init _ _ 0) eq_refl). }
  split; [exact R|]. split; [|split].
  - destruct (remove_team_member_outcome ascii_digits default_base_url 25 _ 1 2 R)
      as [_ [H _]].
    apply H; [reflexivity|]. intros m Hin. vm_compute in Hin.
    destruct Hin as [<-|[<-|[]]]; vm_compute; intros; discriminate.
  - destruct (remove_team_member_outcome ascii_digits default_base_url 25 _ 2 2 R)
      as [_ [_ H]].
    destruct (H eq_refl frank_member) as (E & _ & _ & C & _).
    + vm_compute. right. left. reflexivity.
    + reflexivity.
    + reflexivity.
    + rewrite E. cbn [snd]. apply eq_add_S. rewrite C. reflexivity.
  - destruct (remove_team_member_outcome ascii_digits default_base_url 25 _ 2
                (-9223372036854775809) R) as [H _].
    apply H. reflexivity.
Defined.

Lemma add_then_remove_member_witness :
  run (add_team_member 1 frank)
    (serve ascii_digits default_base_url one_member_trace empty_db)
  = (Return (Member.mk 2 1 (lit "Frank Moore") (lit "frank@example.com") None None),
     snd (run (add_team_member 1 frank)
            (serve ascii_digits default_base_url one_member_trace empty_db)))
  /\ run (remove_team_member 1 2)
       (snd (run (add_team_member 1 frank)
               (serve ascii_digits default_base_url one_member_trace empty_db)))
     = (Return tt, serve ascii_digits default_base_url one_member_trace empty_db).
Proof.
  assert (run (add_team_member 1 frank)
            (serve ascii_digits default_base_url one_member_trace empty_db)
          = (Return (Member.mk 2 1 (lit "Frank Moore") (lit "frank@example.com") None None),
             snd (run (add_team_member 1 frank)
                    (serve ascii_digits default_base_url one_member_trace empty_db)))) as E.
  { vm_compute. reflexivity. }
  split; [exact E|].
  etransitivity; [exact (add_then_remove_member _ _ 1 frank _ E) | reflexivity].
Defined.

Lemma refused_request_stores_nothing_witness :
  refusal ascii_digits default_base_url 40 (JoinTeam (lit "tokenA") bob_joins)
    (serve ascii_digits default_base_url full_team_trace empty_db)
  = Some (HTTPException 400 "This invitation has already been used")
  /\ handle ascii_digits default_base_url 40 (JoinTeam (lit "tokenA") bob_joins)
       (serve ascii_digits default_base_url full_team_trace empty_db)
     = serve ascii_digits default_base_url full_team_trace empty_db.
Proof.
  assert (refusal ascii_digits default_base_url 40 (JoinTeam (lit "tokenA") bob_joins)
            (serve ascii_digits default_base_url full_team_trace empty_db)
          = Some (HTTPException 400 "This invitation has already been used")) as E.
  { vm_compute. reflexivity. }
  split; [exact E|].
  exact (proj1 (refused_request_stores_nothing ascii_digits default_base_url 40 _) _ _ E).
Defined.

Lemma no_orphan_rows_witness :
  reachable ascii_digits default_base_url 25
    (serve ascii_digits default_base_url two_teams_trace empty_db)
  /\ run (get_team (Member.team_id frank_member))
       (serve ascii_digits default_base_url two_teams_trace empty_db)
     = (Return other_team_row, serve ascii_digits default_base_url two_teams_trace empty_db)
  /\ fst (run_with None
            (join_team_via_invitation (lit "tokenB") charlie_joins 30)
            (serve ascii_digits default_base_url two_teams_trace empty_db))
     <> Raised AttributeError.
Proof.
  assert (reachable ascii_digits default_base_url 25
            (serve ascii_digits default_base_url two_teams_trace empty_db)) as R.
  { exact (reachable_serve ascii_digits default_base_url two_teams_trace 0 empty_db
             (reachable_init _ _ 0) eq_refl). }
  destruct (no_orphan_rows ascii_digits default_base_url 25 _ R) as (Hm & _ & Hj & _).
  split; [exact R|]. split.
  - destruct (Hm frank_member) as [team E]; [vm_compute; right; left; reflexivity|].
    rewrite E. f_equal. f_equal.
    assert (fst (run (get_team (Member.team_id frank_member))
                   (serve ascii_digits default_base_url two_teams_trace empty_db))
            = Return other_team_row) as E' by (vm_compute; reflexivity).
    rewrite E in E'. cbn [fst] in E'. now injection E'.
  - exact (Hj None (lit "tokenB") charlie_joins 30).
Defined.

Lemma join_ignores_existing_members_witness :
  reachable ascii_digits default_base_url 20
    (serve ascii_digits default_base_url invited_then_added_trace empty_db)
  /\ In bob_invitation
       (invitations (serve ascii_digits default_base_url invited_then_added_trace empty_db))
  /\ members_with_email
       (serve ascii_digits default_base_url invited_then_added_trace empty_db) 1
       (lit "bob@example.com")
     = [Member.mk 1 1 (lit "Bob Smith") (lit "bob@example.com") None None]
  /\ run (join_team_via_invitation (lit "tokenA") bob_joins 30)
       (serve ascii_digits default_base_url invited_then_added_trace empty_db)
     = (Return (Member.mk 2 1 (lit "Bob Smith") (lit "bob@example.com") None
                  (Some (lit "Backend Developer"))),
        snd (run (join_team_via_invitation (lit "tokenA") bob_joins 30)
               (serve ascii_digits default_base_url invited_then_added_trace empty_db)))
  /\ List.length
       (members_with_email
          (snd (run (join_team_via_invitation (lit "tokenA") bob_joins 30)
                  (serve ascii_digits default_base_url invited_then_added_trace empty_db)))
          1 (lit "bob@example.com"))
     = 2%nat
  /\ run (add_team_member 1 bob_direct)
       (serve ascii_digits default_base_url invited_then_added_trace empty_db)
     = (Raised (HTTPException 400 "Member with this email already exists in the team"),
        serve ascii_digits default_base_url invited_then_added_trace empty_db).
Proof.
  assert (reachable ascii_digits default_base_url 20
            (serve ascii_digits default_base_url invited_then_added_trace empty_db)) as R.
  { exact (reachable_serve ascii_digits default_base_url invited_then_added_trace 0 empty_db
             (reachable_init _ _ 0) eq_refl). }
  assert (In bob_invitation
            (invitations
               (serve ascii_digits default_base_url invited_then_added_trace empty_db)))
    as I.
  { vm_compute. left. reflexivity. }
  assert (run (join_team_via_invitation (Invitation.token bob_invitation)
                 bob_joins 30)
            (serve ascii_digits default_base_url invited_then_added_trace empty_db)
          = (Return (Member.mk 2 1 (lit "Bob Smith") (lit "bob@example.com") None
                       (Some (lit "Backend Developer"))),
             snd (run (join_team_via_invitation (lit "tokenA") bob_joins 30)
                    (serve ascii_digits default_base_url invited_then_added_trace
                       empty_db)))) as E.
  { vm_compute. reflexivity. }
  destruct (join_ignores_existing_members ascii_digits default_base_url 20 _ _
              bob_invitation bob_joins 30 _ R I E) as (_ & _ & _ & C & A & _).
  split; [exact R|]. split; [exact I|]. split; [vm_compute; reflexivity|].
  split; [exact E|]. split.
  - etransitivity; [exact C|]. vm_compute. reflexivity.
  - apply (A ltac:(vm_compute; discriminate) bob_direct). reflexivity.
Defined.

Lemma create_invitation_stores_witness :
  run (create_invitation ascii_digits default_base_url 1 bob_with_phone 10 10 10
         (lit "tokenA") (lit "123456"))
    (serve ascii_digits default_base_url team_only_trace empty_db)
  = (Return (bob_invitation_with_phone, lit "http://localhost:3000/join/tokenA"),
     mkDB [quick_team_row] [] [bob_invitation_with_phone] [bob_otp])
  /\ run (get_invitation_details (lit "tokenA") 50)
       (mkDB [quick_team_row] [] [bob_invitation_with_phone] [bob_otp])
     = (Return (mkInvitationDetails (lit "bob@example.com") (Some (lit "+919876543210"))
                  172800000010 true 1 (lit "Quick Team") (lit "David Lee")
                  (Some (lit "Rapid prototyping team"))),
        mkDB [quick_team_row] [] [bob_invitation_with_phone] [bob_otp]).
Proof.
  assert (run (create_invitation ascii_digits default_base_url 1 bob_with_phone 10 10 10
                 (lit "tokenA") (lit "123456"))
            (serve ascii_digits default_base_url team_only_trace empty_db)
          = (Return (bob_invitation_with_phone, lit "http://localhost:3000/join/tokenA"),
             mkDB [quick_team_row] [] [bob_invitation_with_phone] [bob_otp])) as E.
  { vm_compute. reflexivity. }
  split; [exact E|].
  destruct (create_invitation_stores ascii_digits default_base_url _ _ 1 bob_with_phone
              10 10 10 (lit "tokenA") (lit "123456") _ _ E) as (_ & _ & _ & _ & _ & _ & D).
  destruct (D 50 ltac:(vm_compute; discriminate)) as (team & Hin & _ & G).
  vm_compute in Hin. destruct Hin as [<-|[]]. exact G.
Defined.

Lemma create_invitation_token_collision_witness :
  find (fun r => Team.id r =? 1)
    (teams (serve ascii_digits default_base_url two_teams_trace empty_db))
  = Some quick_team_row
  /\ In charlie_invitation_at_25
       (invitations (serve ascii_digits default_base_url two_teams_trace empty_db))
  /\ run (create_invitation ascii_digits default_base_url 1
            (InvitationCreate.mk (lit "dave@example.com") None) 30 30 30
            (lit "tokenB") (lit "333333"))
       (serve ascii_digits default_base_url two_teams_trace empty_db)
     = (Raised IntegrityError, serve ascii_digits default_base_url two_teams_trace empty_db).
Proof.
  assert (find (fun r => Team.id r =? 1)
            (teams (serve ascii_digits default_base_url two_teams_trace empty_db))
          = Some quick_team_row) as T.
  { vm_compute. reflexivity. }
  assert (In charlie_invitation_at_25
            (invitations (serve ascii_digits default_base_url two_teams_trace empty_db)))
    as I.
  { vm_compute. right. left. reflexivity. }
  split; [exact T|]. split; [exact I|].
  apply (create_invitation_token_collision ascii_digits default_base_url _ 1
           (InvitationCreate.mk (lit "dave@example.com") None) 30 30 30
           (lit "tokenB") (lit "333333") quick_team_row charlie_invitation_at_25 T).
  - vm_compute. reflexivity.
  - intros r Hin. vm_compute in Hin. destruct Hin as [<-|[<-|[]]]; vm_compute; reflexivity.
  - intros m Hin. vm_compute in Hin.
    destruct Hin as [<-|[<-|[]]]; vm_compute; intros; discriminate.
  - exact I.
  - reflexivity.
Defined.

Lemma resend_otp_outcome_witness :
  reachable ascii_digits default_base_url 10
    (serve ascii_digits default_base_url otp_trace empty_db)
  /\ In bob_invitation_with_phone
       (invitations (serve ascii_digits default_base_url otp_trace empty_db))
  /\ otps (serve ascii_digits default_base_url otp_trace empty_db) = [bob_otp]
  /\ run (resend_otp (lit "tokenA") 30 30 (lit "654321"))
       (serve ascii_digits default_base_url otp_trace empty_db)
     = (Return ("OTP sent successfully"%string, lit "+919876543210", 600000030),
        mkDB [quick_team_row] [] [bob_invitation_with_phone]
          [OTP.mk 1 (lit "+919876543210") (lit "654321") (lit "tokenA") false 600000030]).
Proof.
  assert (reachable ascii_digits default_base_url 10
            (serve ascii_digits default_base_url otp_trace empty_db)) as R.
  { exact (reachable_serve ascii_digits default_base_url otp_trace 0 empty_db
             (reachable_init _ _ 0) eq_refl). }
  assert (In bob_invitation_with_phone
            (invitations (serve ascii_digits default_base_url otp_trace empty_db))) as I.
  { vm_compute. left. reflexivity. }
  split; [exact R|]. split; [exact I|]. split; [vm_compute; reflexivity|].
  destruct (resend_otp_outcome ascii_digits default_base_url 10 _ bob_invitation_with_phone
              30 30 (lit "654321") R I) as [_ H].
  destruct (H (lit "+919876543210") eq_refl) as (_ & _ & G).
  destruct (G eq_refl ltac:(vm_compute; discriminate)) as [E _].
  etransitivity; [exact E|]. vm_compute. reflexivity.
Defined.

Lemma resend_then_verify_witness :
  run (resend_otp (lit "tokenA") 30 30 (lit "654321"))
    (serve ascii_digits default_base_url otp_trace empty_db)
  = (Return ("OTP sent successfully"%string, lit "+919876543210", 600000030),
     mkDB [quick_team_row] [] [bob_invitation_with_phone]
       [OTP.mk 1 (lit "+919876543210") (lit "654321") (lit "tokenA") false 600000030])
  /\ run (verify_otp (OTPVerify.mk (lit "tokenA") (lit "123456")) 40)
       (mkDB [quick_team_row] [] [bob_invitation_with_phone]
          [OTP.mk 1 (lit "+919876543210") (lit "654321") (lit "tokenA") false 600000030])
     = (Raised (HTTPException 400 "Invalid OTP code"),
        mkDB [quick_team_row] [] [bob_invitation_with_phone]
          [OTP.mk 1 (lit "+919876543210") (lit "654321") (lit "tokenA") false 600000030]).
Proof.
  assert (run (resend_otp (lit "tokenA") 30 30 (lit "654321"))
            (serve ascii_digits default_base_url otp_trace empty_db)
          = (Return ("OTP sent successfully"%string, lit "+919876543210", 600000030),
             mkDB [quick_team_row] [] [bob_invitation_with_phone]
               [OTP.mk 1 (lit "+919876543210") (lit "654321") (lit "tokenA") false
                  600000030])) as E.
  { vm_compute. reflexivity. }
  split; [exact E|].
  destruct (resend_then_verify _ _ _ _ _ _ _ E) as [H _].
  apply H. vm_compute. discriminate.
Defined.

Lemma invite_verify_join_witness :
  reachable ascii_digits default_base_url 0
    (serve ascii_digits default_base_url team_only_trace empty_db)
  /\ run (create_invitation ascii_digits default_base_url 1 bob_with_phone 10 10 10
            (lit "tokenA") (lit "123456"))
       (serve ascii_digits default_base_url team_only_trace empty_db)
     = (Return (bob_invitation_with_phone, lit "http://localhost:3000/join/tokenA"),
        mkDB [quick_team_row] [] [bob_invitation_with_phone] [bob_otp])
  /\ run (join_team_via_invitation (lit "tokenA") bob_joins 50)
       (mkDB [quick_team_row] [] [bob_invitation_with_phone] [bob_otp])
     = (Raised (HTTPException 400
                  "OTP verification required. Please verify your phone number first."),
        mkDB [quick_team_row] [] [bob_invitation_with_phone] [bob_otp])
  /\ exists d2 m d3,
       run (verify_otp (OTPVerify.mk (lit "tokenA") (lit "123456")) 20)
         (mkDB [quick_team_row] [] [bob_invitation_with_phone] [bob_otp])
       = (Return ("OTP verified successfully"%string, true), d2)
       /\ run (join_team_via_invitation (lit "tokenA") bob_joins 50) d2 = (Return m, d3)
       /\ In m (members d3)
       /\ Member.team_id m = 1
       /\ Member.email m = lit "bob@example.com"
       /\ Member.phone m = Some (lit "+919876543210").
Proof.
  assert (reachable ascii_digits default_base_url 0
            (serve ascii_digits default_base_url team_only_trace empty_db)) as R.
  { exact (reachable_serve ascii_digits default_base_url team_only_trace 0 empty_db
             (reachable_init _ _ 0) eq_refl). }
  assert (run (create_invitation ascii_digits default_base_url 1 bob_with_phone 10 10 10
                 (lit "tokenA") (lit "123456"))
            (serve ascii_digits default_base_url team_only_trace empty_db)
          = (Return (bob_invitation_with_phone, lit "http://localhost:3000/join/tokenA"),
             mkDB [quick_team_row] [] [bob_invitation_with_phone] [bob_otp])) as E.
  { vm_compute. reflexivity. }
  split; [exact R|]. split; [exact E|].
  destruct (invite_verify_join ascii_digits default_base_url 0 _ _ 1 bob_with_phone
              10 10 10 (lit "tokenA") (lit "123456") _ _ bob_joins 50 R E) as [_ H].
  - intros o Hin. vm_compute in Hin. destruct Hin.
  - vm_compute. discriminate.
  - destruct (H (lit "+919876543210") eq_refl) as [J V]. split; [exact J|].
    exact (V 20 ltac:(vm_compute; discriminate)).
Defined.

Lemma details_agree_with_join_witness :
  reachable ascii_digits default_base_url 30
    (serve ascii_digits default_base_url full_team_trace empty_db)
  /\ fst (run (get_invitation_details (lit "tokenA") 40)
            (serve ascii_digits default_base_url full_team_trace empty_db))
     = Raised (HTTPException 400 "This invitation has already been used")
  /\ run (join_team_via_invitation (lit "tokenA") charlie_joins 40)
       (serve ascii_digits default_base_url full_team_trace empty_db)
     = (Raised (HTTPException 400 "This invitation has already been used"),
        serve ascii_digits default_base_url full_team_trace empty_db).
Proof.
  assert (reachable ascii_digits default_base_url 30
            (serve ascii_digits default_base_url full_team_trace empty_db)) as R.
  { exact (reachable_serve ascii_digits default_base_url full_team_trace 0 empty_db
             (reachable_init _ _ 0) eq_refl). }
  assert (fst (run (get_invitation_details (lit "tokenA") 40)
                 (serve ascii_digits default_base_url full_team_trace empty_db))
          = Raised (HTTPException 400 "This invitation has already been used")) as E.
  { vm_compute. reflexivity. }
  split; [exact R|]. split; [exact E|].
  exact (proj1 (details_agree_with_join ascii_digits default_base_url 30 _ (lit "tokenA")
                  40 charlie_joins R) _ E).
Defined.

Lemma format_phone_number_accepted_witness :
  phone_pattern (lit "919876543210") = true
  /\ format_phone_number ascii_digits (lit "919876543210") = lit "+919876543210"
  /\ phone_pattern (format_phone_number ascii_digits (lit "919876543210")) = true.
Proof.
  split; [reflexivity|].
  exact (format_phone_number_accepted ascii_digits (lit "919876543210") eq_refl).
Defined.

Lemma team_listings_witness :
  reachable ascii_digits default_base_url 25
    (serve ascii_digits default_base_url two_teams_trace empty_db)
  /\ run (get_team_members 7) (serve ascii_digits default_base_url two_teams_trace empty_db)
     = (Raised (HTTPException 404 "Team not found"),
        serve ascii_digits default_base_url two_teams_trace empty_db)
  /\ (exists ms ivs,
        run (get_team_members 2)
          (serve ascii_digits default_base_url two_teams_trace empty_db)
        = (Return ms, serve ascii_digits default_base_url two_teams_trace empty_db)
        /\ run (get_team_invitations default_base_url 2)
             (serve ascii_digits default_base_url two_teams_trace empty_db)
           = (Return ivs, serve ascii_digits default_base_url two_teams_trace empty_db)
        /\ List.length ms
           = member_count (serve ascii_digits default_base_url two_teams_trace empty_db) 2
        /\ NoDup (map snd ivs))
  /\ run (get_team_invitations default_base_url 9223372036854775808)
       (serve ascii_digits default_base_url two_teams_trace empty_db)
     = (Raised OverflowError, serve ascii_digits default_base_url two_teams_trace empty_db).
Proof.
  assert (reachable ascii_digits default_base_url 25
            (serve ascii_digits default_base_url two_teams_trace empty_db)) as R.
  { exact (reachable_serve ascii_digits default_base_url two_teams_trace 0 empty_db
             (reachable_init _ _ 0) eq_refl). }
  split; [exact R|]. split; [|split].
  - destruct (team_listings ascii_digits default_base_url 25 _ 7 R) as [_ [H _]].
    refine (proj1 (H eq_refl _)). intros r Hin. vm_compute in Hin.
    destruct Hin as [<-|[<-|[]]]; discriminate.
  - destruct (team_listings ascii_digits default_base_url 25 _ 2 R) as [_ [_ H]].
    destruct (H eq_refl) as (ms & ivs & E1 & E2 & _ & L & _ & N).
    + exists other_team_row. split; [vm_compute; right; left; reflexivity | reflexivity].
    + exists ms, ivs. auto.
  - destruct (team_listings ascii_digits default_base_url 25 _ 9223372036854775808 R)
      as [H _].
    exact (proj2 (H eq_refl)).
Defined.

Lemma get_all_teams_pages_witness :
  0 < 1
  /\ sqlite_int (Z.of_nat 2 * 1) = true
  /\ (exists answers,
        Forall2 (fun k page =>
                   run (get_all_teams (Z.of_nat k * 1) 1)
                     (serve ascii_digits default_base_url two_teams_trace empty_db)
                   = (Return page,
                      serve ascii_digits default_base_url two_teams_trace empty_db))
          (seq 0 2) answers
        /\ List.concat answers
           = firstn (2 * Z.to_nat 1)
               (teams (serve ascii_digits default_base_url two_teams_trace empty_db)))
  /\ run (get_all_teams 0 9223372036854775808)
       (serve ascii_digits default_base_url two_teams_trace empty_db)
     = (Raised OverflowError, serve ascii_digits default_base_url two_teams_trace empty_db).
Proof.
  split; [reflexivity|]. split; [reflexivity|].
  destruct (get_all_teams_pages
              (serve ascii_digits default_base_url two_teams_trace empty_db) 1 2
              eq_refl eq_refl) as (P & _ & O).
  split; [exact P|]. apply O. reflexivity.
Defined.

Lemma create_invitation_half_done_witness :
  reachable ascii_digits default_base_url 0
    (serve ascii_digits default_base_url team_only_trace empty_db)
  /\ run (create_invitation ascii_digits default_base_url 1 bob_with_phone 10 10 10
          (lit "tokenA") (lit "123456"))
       (serve ascii_digits default_base_url team_only_trace empty_db)
     = (Return (bob_invitation_with_phone, lit "http://localhost:3000/join/tokenA"),
        (mkDB [quick_team_row] [] [bob_invitation_with_phone] [bob_otp]))
  /\ run_on (Some 5%nat)
       (create_invitation ascii_digits default_base_url 1 bob_with_phone 10 10 10
          (lit "tokenA") (lit "123456"))
       (clean (serve ascii_digits default_base_url team_only_trace empty_db))
     = (Raised OperationalError,
        mkConnection (serve ascii_digits default_base_url team_only_trace empty_db)
          (mkDB [quick_team_row] [] [bob_invitation_with_phone] []))
  /\ run_on (Some 7%nat)
       (create_invitation ascii_digits default_base_url 1 bob_with_phone 10 10 10
          (lit "tokenA") (lit "123456"))
       (clean (serve ascii_digits default_base_url team_only_trace empty_db))
     = (Raised OperationalError, clean (mkDB [quick_team_row] [] [bob_invitation_with_phone] []))
  /\ run_on (Some 8%nat)
       (create_invitation ascii_digits default_base_url 1 bob_with_phone 10 10 10
          (lit "tokenA") (lit "123456"))
       (clean (serve ascii_digits default_base_url team_only_trace empty_db))
     = (Raised OperationalError,
        mkConnection (mkDB [quick_team_row] [] [bob_invitation_with_phone] [])
          (mkDB [quick_team_row] [] [bob_invitation_with_phone] [bob_otp]))
  /\ run_on None (join_team_via_invitation (lit "tokenA") bob_joins 50)
       (clean (mkDB [quick_team_row] [] [bob_invitation_with_phone] []))
     = (Raised (HTTPException 400
                  "OTP verification required. Please verify your phone number first."),
        clean (mkDB [quick_team_row] [] [bob_invitation_with_phone] []))
  /\ run_on None (verify_otp (OTPVerify.mk (lit "tokenA") (lit "123456")) 50)
       (clean (mkDB [quick_team_row] [] [bob_invitation_with_phone] []))
     = (Raised (HTTPException 400 "Invalid OTP code"),
        clean (mkDB [quick_team_row] [] [bob_invitation_with_phone] []))
  /\ run_on None
       (create_invitation ascii_digits default_base_url 1 bob_with_phone 60 60 60
          (lit "tokenC") (lit "777777"))
       (clean (mkDB [quick_team_row] [] [bob_invitation_with_phone] []))
     = (Raised (HTTPException 400 "An active invitation already exists for this email"),
        clean (mkDB [quick_team_row] [] [bob_invitation_with_phone] []))
  /\ run_on None (verify_otp (OTPVerify.mk (lit "tokenA") (lit "123456")) 50)
       (mkConnection (mkDB [quick_team_row] [] [bob_invitation_with_phone] [])
          (mkDB [quick_team_row] [] [bob_invitation_with_phone] [bob_otp]))
     = (Return ("OTP verified successfully"%string, true),
        clean (mkDB [quick_team_row] [] [bob_invitation_with_phone] [bob_otp_verified])).
Proof.
  assert (reachable ascii_digits default_base_url 0
            (serve ascii_digits default_base_url team_only_trace empty_db)) as R.
  { exact (reachable_serve ascii_digits default_base_url team_only_trace 0 empty_db
             (reachable_init _ _ 0) eq_refl). }
  assert (run (create_invitation ascii_digits default_base_url 1 bob_with_phone 10 10 10
          (lit "tokenA") (lit "123456"))
            (serve ascii_digits default_base_url team_only_trace empty_db)
          = (Return (bob_invitation_with_phone, lit "http://localhost:3000/join/tokenA"),
             (mkDB [quick_team_row] [] [bob_invitation_with_phone] [bob_otp]))) as E.
  { vm_compute. reflexivity. }
  split; [exact R|]. split; [exact E|].
  destruct (create_invitation_half_done ascii_digits default_base_url 0 _ _ 1 bob_with_phone
              10 10 10 (lit "tokenA") (lit "123456") _ _ (lit "+919876543210") R E eq_refl)
    as (_ & F5 & F & F8 & J & V & C & _ & P).
  - intros o Hin. vm_compute in Hin. destruct Hin.
  - split; [etransitivity; [exact F5 | vm_compute; reflexivity]|].
    split; [etransitivity; [exact (F 7%nat ltac:(lia)) | vm_compute; reflexivity]|].
    split; [etransitivity; [exact F8 | vm_compute; reflexivity]|].
    split; [etransitivity;
              [exact (J 50 bob_joins ltac:(vm_compute; discriminate))
              | vm_compute; reflexivity]|].
    split; [etransitivity; [exact (V 50 (lit "123456")) | vm_compute; reflexivity]|].
    split; [etransitivity;
              [exact (C 60 60 60 (lit "tokenC") (lit "777777")
                        ltac:(vm_compute; reflexivity))
              | vm_compute; reflexivity]|].
    destruct (P 50 ltac:(vm_compute; discriminate)) as (d2 & E2 & _).
    etransitivity; [exact E2|].
    pose proof E2 as E3. vm_compute in E3. injection E3 as _ <-.
    vm_compute. reflexivity.
Defined.

Lemma verified_stays_verified_witness :
  otp_verified (serve ascii_digits default_base_url verified_trace empty_db) (lit "tokenA")
  = true
  /\ invitations
       (handle_with ascii_digits default_base_url None 30 (DeleteTeam 1)
          (serve ascii_digits default_base_url verified_trace empty_db))
     = []
  /\ otp_verified
       (handle_with ascii_digits default_base_url None 30 (DeleteTeam 1)
          (serve ascii_digits default_base_url verified_trace empty_db))
       (lit "tokenA")
     = true.
Proof.
  assert (otp_verified (serve ascii_digits default_base_url verified_trace empty_db)
            (lit "tokenA") = true) as E.
  { vm_compute. reflexivity. }
  split; [exact E|]. split; [vm_compute; reflexivity|].
  exact (verified_stays_verified ascii_digits default_base_url None 30 (DeleteTeam 1) _ _ E).
Defined.
